(** * msifancontrol: the ec_sys provisioning code of internal/setup/setup.go,
    the fan code of internal/ec/ec.go and internal/fan/fan.go, and the
    update of the user interface of internal/ui/ui.go

    A shallow embedding of [CheckAndSetup], [RunFullSetup],
    [runFullSetupUbuntu] and their helpers.  Go strings are byte strings
    ([string] of the Standard Library); every call into the operating
    system goes through an oracle record [OS] over an abstract world, and
    every such call leaves an [Event] in a chronological trace, so that
    the theorems speak about all possible hosts.  The fan code
    ([ec.Write], [ec.Read], [ApplyProfile], [writeSpeeds], [GetTemps],
    [GetRPMs]) runs in the same way against an oracle for the embedded
    controller's file, with a record of the accesses to it.  [Update] of
    the interface is a function on its model that takes the libraries'
    widgets and the packages that it calls as parameters. *)

From Stdlib Require Import String Ascii List Bool Arith NArith ZArith Lia.
Import ListNotations.
Open Scope string_scope.

(* ================================================================== *)
(** ** Go's [strings] package, as far as setup.go uses it *)

Module strings.

(** [strings.HasPrefix(s, prefix)]. *)
Definition HasPrefix (s pre : string) : bool := String.prefix pre s.

Fixpoint drop (n : nat) (s : string) : string :=
  match n, s with
  | S n', String _ s' => drop n' s'
  | _, _ => s
  end.

(** [strings.HasSuffix(s, suffix)]:
    [len(s) >= len(suffix) && s[len(s)-len(suffix):] == suffix]. *)
Definition HasSuffix (s suf : string) : bool :=
  Nat.leb (String.length suf) (String.length s) &&
  String.eqb (drop (String.length s - String.length suf) s) suf.

(** [strings.Contains(s, substr)], i.e. [Index(s, substr) >= 0]:
    some suffix of [s] starts with [substr]. *)
Fixpoint Contains (s substr : string) : bool :=
  String.prefix substr s ||
  match s with
  | EmptyString => false
  | String _ s' => Contains s' substr
  end.

(** The first occurrence of [sep] in [s]: the text before it and the
    text after it ([s[:m]] and [s[m+len(sep):]] for [m = Index(s, sep)]). *)
Fixpoint cut (s sep : string) : option (string * string) :=
  if String.prefix sep s then Some (EmptyString, drop (String.length sep) s)
  else match s with
       | EmptyString => None
       | String c s' =>
           match cut s' sep with
           | Some (before, after) => Some (String c before, after)
           | None => None
           end
       end.

(** The loop of [genSplit]: at most [k] cuts, the rest of the string is
    the last element. *)
Fixpoint splitLoop (k : nat) (s sep : string) : list string :=
  match k with
  | O => [s]
  | S k' =>
      match cut s sep with
      | None => [s]
      | Some (before, after) => before :: splitLoop k' after sep
      end
  end.

(** [strings.SplitN(s, sep, n)] for a non-empty separator (setup.go only
    splits on "-" and on the newline): [n = 0] gives no element, [n > 0]
    at most [n] elements, [n < 0] all of them. *)
Definition SplitN (s sep : string) (n : Z) : list string :=
  if (n =? 0)%Z then []
  else if (n <? 0)%Z then splitLoop (String.length s) s sep
  else splitLoop (Z.to_nat n - 1) s sep.

(** [strings.Split(s, sep)] is [SplitN(s, sep, -1)]. *)
Definition Split (s sep : string) : list string := SplitN s sep (-1).

(** [strings.Join(elems, sep)]. *)
Definition Join (elems : list string) (sep : string) : string :=
  String.concat sep elems.

(** The six ASCII white-space bytes of [asciiSpace]:
    tab, newline, vertical tab, form feed, carriage return, space. *)
Definition asciiSpace (c : ascii) : bool :=
  match N_of_ascii c with
  | 9%N | 10%N | 11%N | 12%N | 13%N | 32%N => true
  | _ => false
  end.

(** UTF-8 encodings of the other runes for which [unicode.IsSpace] holds:
    U+0085 and U+00A0 take two bytes. *)
Definition space2 (c1 c2 : ascii) : bool :=
  match N_of_ascii c1, N_of_ascii c2 with
  | 0xC2%N, 0x85%N | 0xC2%N, 0xA0%N => true
  | _, _ => false
  end.

(** U+1680, U+2000..U+200A, U+2028, U+2029, U+202F, U+205F and U+3000
    take three bytes. *)
Definition space3 (c1 c2 c3 : ascii) : bool :=
  match N_of_ascii c1, N_of_ascii c2, N_of_ascii c3 with
  | 0xE1%N, 0x9A%N, 0x80%N => true
  | 0xE2%N, 0x80%N, b => (0x80 <=? b)%N && (b <=? 0x8A)%N
                         || (b =? 0xA8)%N || (b =? 0xA9)%N || (b =? 0xAF)%N
  | 0xE2%N, 0x81%N, 0x9F%N => true
  | 0xE3%N, 0x80%N, 0x80%N => true
  | _, _, _ => false
  end.

(** [TrimLeftFunc(s, unicode.IsSpace)]: runes are removed from the left
    while they are white space.  A byte sequence that is not one of the
    encodings above decodes to a rune that is no space (an invalid one
    to U+FFFD), and stops the trimming. *)
Fixpoint trimLeft (s : string) : string :=
  match s with
  | EmptyString => EmptyString
  | String c1 s1 =>
      if asciiSpace c1 then trimLeft s1
      else match s1 with
           | EmptyString => s
           | String c2 s2 =>
               if space2 c1 c2 then trimLeft s2
               else match s2 with
                    | EmptyString => s
                    | String c3 s3 =>
                        if space3 c1 c2 c3 then trimLeft s3 else s
                    end
           end
  end.

Fixpoint rev (s : string) : string :=
  match s with
  | EmptyString => EmptyString
  | String c s' => rev s' ++ String c EmptyString
  end.

(** The same from the right, on the reversed string: the last rune
    ([DecodeLastRuneInString]) is a space exactly when the string ends
    with one of the encodings. *)
Fixpoint trimLeftRev (s : string) : string :=
  match s with
  | EmptyString => EmptyString
  | String c1 s1 =>
      if asciiSpace c1 then trimLeftRev s1
      else match s1 with
           | EmptyString => s
           | String c2 s2 =>
               if space2 c2 c1 then trimLeftRev s2
               else match s2 with
                    | EmptyString => s
                    | String c3 s3 =>
                        if space3 c3 c2 c1 then trimLeftRev s3 else s
                    end
           end
  end.

Definition trimRight (s : string) : string := rev (trimLeftRev (rev s)).

(** [strings.TrimSpace(s)]: leading and trailing white space, as defined
    by Unicode, removed. *)
Definition TrimSpace (s : string) : string := trimRight (trimLeft s).

End strings.

(** [bufio.ScanLines], the split function of the scanner in [runCmd]: the
    text is cut at every newline, one trailing carriage return of a line
    is dropped, and a last line without newline is delivered when it is
    not empty.  (The scanner's limit on the length of a line is not
    modelled.) *)
Module bufio.

Definition dropCR (line : string) : string :=
  match strings.rev line with
  | String c r => if Ascii.eqb c "013"%char then strings.rev r else line
  | EmptyString => line
  end.

Fixpoint scan (data cur : string) : list string :=
  match data with
  | EmptyString =>
      match cur with
      | EmptyString => []
      | _ => [dropCR cur]
      end
  | String c rest =>
      if Ascii.eqb c "010"%char then dropCR cur :: scan rest EmptyString
      else scan rest (cur ++ String c EmptyString)
  end.

Definition ScanLines (data : string) : list string := scan data EmptyString.

End bufio.

(** Go's [path/filepath] on Unix. *)
Module filepath.

(** One step of [Clean] on the stack of elements kept so far (last one
    first): empty and "." elements vanish, ".." removes the element
    before it, stays when the path is relative and nothing is left to
    remove, and vanishes at the root. *)
Definition cleanStep (rooted : bool) (stack : list string) (elem : string)
  : list string :=
  if String.eqb elem "" || String.eqb elem "." then stack
  else if String.eqb elem ".." then
    match stack with
    | top :: below =>
        if String.eqb top ".." then elem :: stack else below
    | [] => if rooted then [] else [elem]
    end
  else elem :: stack.

(** [filepath.Clean(path)]. *)
Definition Clean (path : string) : string :=
  let rooted := strings.HasPrefix path "/" in
  let stack := fold_left (cleanStep rooted) (strings.Split path "/") [] in
  let body := strings.Join (List.rev stack) "/" in
  if rooted then "/" ++ body
  else if String.eqb body "" then "." else body.

Fixpoint dropEmpty (elem : list string) : list string :=
  match elem with
  | e :: rest => if String.eqb e "" then dropEmpty rest else elem
  | [] => []
  end.

(** [filepath.Join(elem...)]: leading empty elements are ignored, the
    others joined with a slash and cleaned. *)
Definition Join (elem : list string) : string :=
  match dropEmpty elem with
  | [] => ""
  | rest => Clean (strings.Join rest "/")
  end.

Fixpoint dropSlashes (s : string) : string :=
  match s with
  | String c s' => if Ascii.eqb c "/"%char then dropSlashes s' else s
  | EmptyString => EmptyString
  end.

Fixpoint untilSlash (s : string) : string :=
  match s with
  | String c s' =>
      if Ascii.eqb c "/"%char then EmptyString else String c (untilSlash s')
  | EmptyString => EmptyString
  end.

(** [filepath.Base(path)]: the last element, trailing slashes removed. *)
Definition Base (path : string) : string :=
  if String.eqb path "" then "."
  else
    let last := strings.rev (untilSlash (dropSlashes (strings.rev path))) in
    if String.eqb last "" then "/" else last.

End filepath.

Definition nl : string := String "010"%char EmptyString.
Definition tab : string := String "009"%char EmptyString.


(* ================================================================== *)
(** ** The operating system as seen by setup.go *)

(** A Go [error], kept as its message. *)
Definition error := string.

(** [exec.Cmd]: resolved path, argument vector (the name first), working
    directory (empty: the caller's) and environment ([None]: inherited). *)
Record Cmd := mkCmd {
  Path : string;
  Args : list string;
  Dir : string;
  Env : option (list string)
}.

(** What a child process did: whether it could be started, the bytes it
    wrote to the descriptors the caller captured, and the error of [Wait]. *)
Record ExecResult := mkExecResult {
  startErr : option error;
  output : string;
  waitErr : option error
}.

Inductive StatResult := StatOk | StatNotExist | StatError.

Record FileInfo := mkFileInfo { Name : string; IsDir : bool }.

(** The answers of [os.Lstat] and of the directory listing below a root, as
    [filepath.Walk] gets them: a node that cannot be inspected, a
    non-directory, or a directory with its (sorted) entries and whether
    listing it failed. *)
Inductive WalkNode :=
| WLstatErr
| WFile
| WDir (readErr : bool) (entries : WalkEntries)
with WalkEntries :=
| WNil
| WCons (name : string) (node : WalkNode) (rest : WalkEntries).

Scheme WalkNode_mut := Induction for WalkNode Sort Prop
  with WalkEntries_mut := Induction for WalkEntries Sort Prop.

Combined Scheme WalkNode_WalkEntries_ind from WalkNode_mut, WalkEntries_mut.

(** The host, over a type [W] of worlds.  Calls that only inspect the world
    return an answer, the others also the next world. *)
Record OS (W : Type) := mkOS {
  os_geteuid : W -> Z;
  os_lookPath : string -> W -> option string;
  os_environ : W -> list string;
  os_exec : Cmd -> W -> ExecResult * W;
  os_readFile : string -> W -> option string;
  os_writeFile : string -> string -> W -> option error * W;
  os_openAppend : string -> W -> option error;
  os_writeString : string -> string -> W -> option error * W;
  os_stat : string -> W -> StatResult;
  os_readDir : string -> W -> list string;
  os_walkTree : string -> W -> WalkNode;
  os_mkdirTemp : string -> string -> W -> (error + string) * W;
  os_mkdirAll : string -> W -> option error * W;
  os_removeAll : string -> W -> W
}.

Arguments os_geteuid {W}.
Arguments os_lookPath {W}.
Arguments os_environ {W}.
Arguments os_exec {W}.
Arguments os_readFile {W}.
Arguments os_writeFile {W}.
Arguments os_openAppend {W}.
Arguments os_writeString {W}.
Arguments os_stat {W}.
Arguments os_readDir {W}.
Arguments os_walkTree {W}.
Arguments os_mkdirTemp {W}.
Arguments os_mkdirAll {W}.
Arguments os_removeAll {W}.

(** What the program did, in order: progress lines, explicit look-ups on
    the search path, child processes, and file-system calls. *)
Inductive Event :=
| EvLog (msg : string)
| EvLookPath (file : string)
| EvExec (c : Cmd)
| EvReadFile (path : string)
| EvWriteFile (path data : string)
| EvWriteString (path data : string)
| EvOpenAppend (path : string)
| EvStat (path : string)
| EvReadDir (path : string)
| EvWalk (root : string)
| EvMkdirTemp (dir pattern : string) (res : error + string)
| EvMkdirAll (path : string)
| EvRemoveAll (path : string).

(** How a Go function ends: it returns, it returns a non-nil [error], or
    it panics. *)
Inductive Outcome (A : Type) :=
| Done (a : A)
| Fail (e : error)
| Panic.

Arguments Done {A}.
Arguments Fail {A}.
Arguments Panic {A}.

Inductive WalkErr := SkipDir | SkipAll | WalkOther (e : error).

Definition isSkipDir (e : WalkErr) : bool :=
  match e with SkipDir => true | _ => false end.

Definition isFile (n : WalkNode) : bool :=
  match n with WFile => true | _ => false end.

Declare Scope go_scope.
Delimit Scope go_scope with go.

Section Program.

Context {W : Type} (os : OS W).

Record State := mkState { world : W; trace : list Event }.

Definition M (A : Type) : Type := State -> Outcome A * State.

Definition ret {A} (a : A) : M A := fun s => (Done a, s).
Definition throw {A} (e : error) : M A := fun s => (Fail e, s).
Definition panic {A} : M A := fun s => (Panic, s).

Definition bind {A B} (m : M A) (f : A -> M B) : M B := fun s =>
  match m s with
  | (Done a, s') => f a s'
  | (Fail e, s') => (Fail e, s')
  | (Panic, s') => (Panic, s')
  end.

Local Notation "x <- m ;; k" := (bind m (fun x => k))
  (at level 61, m at next level, right associativity).
Local Notation "m ;; k" := (bind m (fun _ => k))
  (at level 61, right associativity).

(** [defer cleanup] registered before [body]: the clean-up runs when the
    function leaves, whatever the way, and its result is dropped. *)
Definition defer {A} (cleanup : M unit) (body : M A) : M A := fun s =>
  let (r, s1) := body s in
  let (_, s2) := cleanup s1 in
  (r, s2).

(** [if err != nil { return err }]. *)
Definition check (err : option error) : M unit :=
  match err with
  | Some e => throw e
  | None => ret tt
  end.

(** [if err := m; err != nil { return fmt.Errorf(prefix + "%w", err) }]. *)
Definition wrapErr {A} (pre : string) (m : M A) : M A := fun s =>
  match m s with
  | (Fail e, s') => (Fail (pre ++ e), s')
  | other => other
  end.

(** [_ = m]: the returned error is dropped. *)
Definition ignoreErr (m : M unit) : M unit := fun s =>
  match m s with
  | (Fail _, s') => (Done tt, s')
  | other => other
  end.

Fixpoint forEach {A} (l : list A) (body : A -> M unit) : M unit :=
  match l with
  | [] => ret tt
  | a :: rest => body a ;; forEach rest body
  end.

Definition emit (e : Event) (s : State) : State :=
  {| world := world s; trace := trace s ++ [e] |}.

(** *** Calls into the host *)

Definition Geteuid : M Z := fun s => (Done (os_geteuid os (world s)), s).

Definition Environ : M (list string) := fun s =>
  (Done (os_environ os (world s)), s).

Definition LookPath (file : string) : M (option string) := fun s =>
  (Done (os_lookPath os file (world s)), emit (EvLookPath file) s).

(** [exec.Command(name, arg...)]: the name is resolved on the search
    path when that is possible and kept as it is otherwise.  This look-up
    belongs to the making of the command and leaves no event. *)
Definition Command (name : string) (arg : list string) : M Cmd := fun s =>
  (Done {| Path := match os_lookPath os name (world s) with
                   | Some p => p
                   | None => name
                   end;
           Args := name :: arg; Dir := ""; Env := None |}, s).

(** The child runs from [Start] to [Wait]. *)
Definition start (c : Cmd) : M ExecResult := fun s =>
  let (r, w') := os_exec os c (world s) in
  (Done r, {| world := w'; trace := trace s ++ [EvExec c] |}).

(** [cmd.Run()]. *)
Definition Run (c : Cmd) : M (option error) :=
  r <- start c ;;
  ret (match startErr r with
       | Some e => Some e
       | None => waitErr r
       end).

(** [cmd.Output()]: standard output and the error of [Run]. *)
Definition Output (c : Cmd) : M (string * option error) :=
  r <- start c ;;
  ret (match startErr r with
       | Some e => ("", Some e)
       | None => (output r, waitErr r)
       end).

Definition ReadFile (path : string) : M (option string) := fun s =>
  (Done (os_readFile os path (world s)), emit (EvReadFile path) s).

Definition WriteFile (path data : string) : M (option error) := fun s =>
  let (e, w') := os_writeFile os path data (world s) in
  (Done e, {| world := w'; trace := trace s ++ [EvWriteFile path data] |}).

(** [os.OpenFile(path, os.O_APPEND|os.O_WRONLY, 0644)]. *)
Definition OpenAppend (path : string) : M (option error) := fun s =>
  (Done (os_openAppend os path (world s)), emit (EvOpenAppend path) s).

(** [f.WriteString(data)] on a file opened so. *)
Definition WriteString (path data : string) : M (option error) := fun s =>
  let (e, w') := os_writeString os path data (world s) in
  (Done e, {| world := w'; trace := trace s ++ [EvWriteString path data] |}).

Definition Stat (path : string) : M StatResult := fun s =>
  (Done (os_stat os path (world s)), emit (EvStat path) s).

Definition ReadDir (path : string) : M (list string) := fun s =>
  (Done (os_readDir os path (world s)), emit (EvReadDir path) s).

Definition MkdirTemp (dir pattern : string) : M (error + string) := fun s =>
  let (r, w') := os_mkdirTemp os dir pattern (world s) in
  (Done r, {| world := w'; trace := trace s ++ [EvMkdirTemp dir pattern r] |}).

Definition MkdirAll (path : string) : M (option error) := fun s =>
  let (e, w') := os_mkdirAll os path (world s) in
  (Done e, {| world := w'; trace := trace s ++ [EvMkdirAll path] |}).

Definition RemoveAll (path : string) : M unit := fun s =>
  (Done tt, {| world := os_removeAll os path (world s);
               trace := trace s ++ [EvRemoveAll path] |}).

(** *** [filepath.Walk] *)

Section Walk.

Context {Acc : Type}.

(** The walk function gets the variables it has captured, the path,
    the file info ([None] for Go's nil) and whether an error is
    passed, and returns the variables and its error value. *)
Variable walkFn :
  Acc -> string -> option FileInfo -> bool -> M (Acc * option WalkErr).

Fixpoint walk (path name : string) (node : WalkNode) (acc : Acc)
  {struct node} : M (Acc * option WalkErr) :=
  match node with
  | WLstatErr => walkFn acc path None true
  | WFile => walkFn acc path (Some (mkFileInfo name false)) false
  | WDir readErr entries =>
      r <- walkFn acc path (Some (mkFileInfo name true)) readErr ;;
      match snd r with
      | Some _ => ret r
      | None => if readErr then ret r else walkEntries path entries (fst r)
      end
  end
with walkEntries (path : string) (entries : WalkEntries) (acc : Acc)
  {struct entries} : M (Acc * option WalkErr) :=
  match entries with
  | WNil => ret (acc, None)
  | WCons name node rest =>
      r <- walk (filepath.Join [path; name]) name node acc ;;
      match snd r with
      | None => walkEntries path rest (fst r)
      | Some e =>
          if isSkipDir e && negb (isFile node)
          then walkEntries path rest (fst r)
          else ret r
      end
  end.

Definition Walk (root : string) (acc : Acc) : M (Acc * option WalkErr) :=
  fun s =>
    (r <- walk root (filepath.Base root) (os_walkTree os root (world s)) acc ;;
     ret (fst r, match snd r with
                 | Some SkipDir | Some SkipAll => None
                 | other => other
                 end)) (emit (EvWalk root) s).

End Walk.

End Program.

Arguments State W : clear implicits.
Arguments M W A : clear implicits.

Notation "x <- m ;; k" := (bind m (fun x => k))
  (at level 61, m at next level, right associativity) : go_scope.
Notation "m ;; k" := (bind m (fun _ => k))
  (at level 61, right associativity) : go_scope.

(* ================================================================== *)
(** ** internal/setup/setup.go *)

Section Setup.

Context {W : Type} (os : OS W).

Local Open Scope go_scope.

Local Notation "'Go' A" := (M W A) (at level 10, A at level 9).

(** *** Helpers (lines 329--390) *)

Definition isModuleLoaded (name : string) : Go bool :=
  content <- ReadFile os "/proc/modules" ;;
  match content with
  | None => ret false
  | Some content => ret (strings.Contains content name)
  end.

Definition checkWriteSupport : Go bool :=
  content <- ReadFile os "/sys/module/ec_sys/parameters/write_support" ;;
  match content with
  | None => ret false
  | Some content =>
      let val := strings.TrimSpace content in
      ret (String.eqb val "Y" || String.eqb val "1")
  end.

Definition unameR : Go string :=
  c <- Command os "uname" ["-r"] ;;
  r <- Output os c ;;
  ret (strings.TrimSpace (fst r)).

Definition unameM : Go string :=
  c <- Command os "uname" ["-m"] ;;
  r <- Output os c ;;
  ret (strings.TrimSpace (fst r)).

(** The loop of [replaceInFile]: the first line that starts with
    "EXTRAVERSION =" is replaced. *)
Fixpoint replaceFirst (lines : list string) (replacement : string)
  : list string :=
  match lines with
  | [] => []
  | line :: rest =>
      if strings.HasPrefix line "EXTRAVERSION ="
      then replacement :: rest
      else line :: replaceFirst rest replacement
  end.

Definition replaceInFile (path pattern replacement : string) : Go unit :=
  content <- ReadFile os path ;;
  match content with
  | None => ret tt
  | Some content =>
      let lines := strings.Split content nl in
      WriteFile os path (strings.Join (replaceFirst lines replacement) nl) ;;
      ret tt
  end.

(** *** [CheckAndSetup] (lines 15--39) *)

(** [isModuleLoaded("ec_sys") && checkWriteSupport()]: the second check
    is made only when the first holds. *)
Definition probe : Go bool :=
  loaded <- isModuleLoaded "ec_sys" ;;
  if loaded then checkWriteSupport else ret false.

Definition CheckAndSetup : Go unit :=
  loaded <- isModuleLoaded "ec_sys" ;;
  if loaded then
    ws <- checkWriteSupport ;;
    if ws then ret tt
    else
      unload <- Command os "sudo" ["modprobe"; "-r"; "ec_sys"] ;;
      Run os unload ;;
      reload <- Command os "sudo" ["modprobe"; "ec_sys"; "write_support=1"] ;;
      Run os reload ;;
      ws' <- checkWriteSupport ;;
      if ws' then ret tt
      else throw "ec_sys loaded but write support refused"
  else
    load <- Command os "sudo" ["modprobe"; "ec_sys"; "write_support=1"] ;;
    err <- Run os load ;;
    match err with
    | None =>
        ready <- probe ;;
        if ready then ret tt
        else throw "ec_sys module missing or failed to load"
    | Some _ => throw "ec_sys module missing or failed to load"
    end.

(** *** The closures of [RunFullSetup] (lines 44--97) *)

(** [log]: the line goes to the progress channel or, without one, to
    standard output; either way it is one progress event. *)
Definition log (msg : string) : Go unit := fun s => (Done tt, emit (EvLog msg) s).

(** [runCmd]: the command is announced, started, its output (standard
    output and standard error in one pipe) logged line by line, and
    waited for.  Making the pipe is taken to work. *)
Definition runCmd (cmd : Cmd) : Go unit :=
  log ("Running: " ++ filepath.Base (Path cmd) ++ " "
         ++ strings.Join (tl (Args cmd)) " ") ;;
  r <- start os cmd ;;
  match startErr r with
  | Some err => throw ("failed to start " ++ Path cmd ++ ": " ++ err)
  | None =>
      forEach (bufio.ScanLines (output r)) log ;;
      match waitErr r with
      | Some err => throw ("command failed: " ++ err)
      | None => ret tt
      end
  end.

Definition run (name : string) (args : list string) : Go unit :=
  cmd <- Command os name args ;;
  runCmd cmd.

Definition runInDir (dir name : string) (args : list string) : Go unit :=
  cmd <- Command os name args ;;
  runCmd {| Path := Path cmd; Args := Args cmd; Dir := dir; Env := Env cmd |}.

Definition installDeps : Go unit :=
  dnf <- LookPath os "dnf" ;;
  match dnf with
  | Some _ =>
      log "Detected dnf (Fedora/RHEL)..." ;;
      release <- unameR ;;
      run "sudo" ["dnf"; "install"; "-y"; "dnf-utils"; "rpmdevtools";
                  "ncurses-devel"; "pesign"; "elfutils-libelf-devel";
                  "openssl-devel"; "bison"; "flex";
                  "kernel-devel-" ++ release]
  | None =>
      apt <- LookPath os "apt-get" ;;
      match apt with
      | Some _ =>
          log "Detected apt (Ubuntu/Debian/Zorin)..." ;;
          run "sudo" ["apt-get"; "update"] ;;
          release <- unameR ;;
          run "sudo" ["apt-get"; "install"; "-y"; "build-essential";
                      "libncurses-dev"; "bison"; "flex"; "libssl-dev";
                      "libelf-dev"; "linux-headers-" ++ release]
      | None =>
          throw "could not find a supported package manager (dnf or apt)"
      end
  end.

(** *** [runFullSetupUbuntu] (lines 273--327) *)

Definition runFullSetupUbuntu
  (log : string -> Go unit) (runCmd : Cmd -> Go unit) : Go unit :=
  log "Starting Ubuntu-specific build for ec_sys module..." ;;
  tmp <- MkdirTemp os "" "ec_sys_ubuntu" ;;
  match tmp with
  | inl err => throw err
  | inr workDir =>
      defer (RemoveAll os workDir)
        (release <- unameR ;;
         let headerDir := "/lib/modules/" ++ release ++ "/build" in
         st <- Stat os headerDir ;;
         match st with
         | StatNotExist =>
             release <- unameR ;;
             throw ("kernel headers not found. run: sudo apt install linux-headers-"
                      ++ release)
         | _ =>
             log "Preparing source..." ;;
             release <- unameR ;;
             let sourceUrl :=
               "https://raw.githubusercontent.com/torvalds/linux/refs/tags/v"
                 ++ nth 0 (strings.Split release "-") ""
                 ++ "/drivers/acpi/ec_sys.c" in
             log "Downloading ec_sys.c from upstream..." ;;
             curl <- Command os "curl"
                       ["-L"; sourceUrl; "-o"; filepath.Join [workDir; "ec_sys.c"]] ;;
             wrapErr "failed to download ec_sys.c: " (runCmd curl) ;;
             let makefileContent :=
               "obj-m := ec_sys.o" ++ nl ++ "all:" ++ nl ++ tab ++ "make -C "
                 ++ headerDir ++ " M=$(PWD) modules" ++ nl in
             err <- WriteFile os (filepath.Join [workDir; "Makefile"]) makefileContent ;;
             check err ;;
             log "Building module..." ;;
             make <- Command os "make" [] ;;
             wrapErr "module build failed: "
               (runCmd {| Path := Path make; Args := Args make;
                          Dir := workDir; Env := Env make |}) ;;
             log "Installing module..." ;;
             let koFile := filepath.Join [workDir; "ec_sys.ko"] in
             release <- unameR ;;
             let destDir := "/lib/modules/" ++ release ++ "/extra" in
             mkdir <- Command os "sudo" ["mkdir"; "-p"; destDir] ;;
             err <- Run os mkdir ;;
             check err ;;
             cp <- Command os "sudo" ["cp"; koFile; filepath.Join [destDir; "ec_sys.ko"]] ;;
             err <- Run os cp ;;
             check err ;;
             depmod <- Command os "sudo" ["depmod"; "-a"] ;;
             err <- Run os depmod ;;
             check err ;;
             modprobe <- Command os "sudo" ["modprobe"; "ec_sys"; "write_support=1"] ;;
             err <- Run os modprobe ;;
             check err ;;
             log "Success! ec_sys module built and installed for Zorin/Ubuntu."
         end)
  end.

(** *** [RunFullSetup] (lines 43--271), Fedora/RHEL branch by steps *)

(** Step 4, download source (lines 128--140). *)
Definition downloadSource (workDir : string) : Go unit :=
  log "4/13 Downloading kernel source..." ;;
  dnf <- LookPath os "dnf" ;;
  match dnf with
  | Some _ =>
      ignoreErr (run "dnf" ["config-manager"; "--set-enabled";
                            "fedora-source"; "updates-source"]) ;;
      release <- unameR ;;
      cmd <- Command os "dnf" ["download"; "--source"; "kernel-" ++ release] ;;
      wrapErr "failed to download kernel source: "
        (runCmd {| Path := Path cmd; Args := Args cmd;
                   Dir := workDir; Env := Env cmd |})
  | None =>
      throw "dnf not found. automated kernel source download only supported on Fedora/RHEL"
  end.

(** Find SRC RPM (lines 142--153). *)
Definition findSrcRpm (workDir : string) : Go string :=
  files <- ReadDir os workDir ;;
  let srcRpm :=
    match find (fun f => strings.HasPrefix f "kernel-"
                         && strings.HasSuffix f ".src.rpm") files with
    | Some f => filepath.Join [workDir; f]
    | None => ""
    end in
  if String.eqb srcRpm "" then throw "failed to find downloaded src.rpm"
  else ret srcRpm.

(** The walk function of step 8 (lines 180--191); the captured variable
    is [kernelBuildDir].  Asking a nil [info] whether it is a directory
    panics. *)
Definition findBuildDir (kernelBuildDir path : string)
  (info : option FileInfo) (err : bool) : Go (string * option WalkErr) :=
  if negb (String.eqb kernelBuildDir "") then ret (kernelBuildDir, Some SkipDir)
  else
    match info with
    | None => panic
    | Some info =>
        if IsDir info && strings.HasPrefix (Name info) "linux-" then
          st <- Stat os (filepath.Join [path; "Makefile"]) ;;
          match st with
          | StatOk => ret (path, Some SkipDir)
          | _ => ret (kernelBuildDir, None)
          end
        else ret (kernelBuildDir, None)
    end.

(** Step 8, find build dir (lines 176--195). *)
Definition locateBuildDir (rpmbuildDir : string) : Go string :=
  log "8/13 Locating build directory..." ;;
  let buildRoot := filepath.Join [rpmbuildDir; "BUILD"] in
  r <- Walk os findBuildDir buildRoot "" ;;
  let kernelBuildDir := fst r in
  if String.eqb kernelBuildDir "" then throw "could not find kernel build directory"
  else ret kernelBuildDir.

(** Step 9, patch Makefile (lines 197--207). *)
Definition patchMakefile (kernelBuildDir : string) : Go unit :=
  log "9/13 Patching Makefile..." ;;
  fullVersion <- unameR ;;
  let parts := strings.SplitN fullVersion "-" 2 in
  if Nat.ltb (List.length parts) 2 then
    throw ("unexpected kernel version format: " ++ fullVersion)
  else
    let extraVersion := "-" ++ nth 1 parts "" in
    let makefile := filepath.Join [kernelBuildDir; "Makefile"] in
    replaceInFile makefile "^EXTRAVERSION =.*" ("EXTRAVERSION = " ++ extraVersion).

(** Step 10, configure (lines 209--228). *)
Definition configureKernel (kernelBuildDir : string) : Go unit :=
  log "10/13 Configuring kernel..." ;;
  release <- unameR ;;
  runInDir kernelBuildDir "cp" ["/boot/config-" ++ release; ".config"] ;;
  let config := filepath.Join [kernelBuildDir; ".config"] in
  err <- OpenAppend os config ;;
  match err with
  | None =>
      werr <- WriteString os config (nl ++ "CONFIG_ACPI_EC_DEBUGFS=m" ++ nl) ;;
      check werr
  | Some _ => ret tt
  end.

(** Step 11, prepare build (lines 230--241). *)
Definition prepareBuild (kernelBuildDir : string) : Go unit :=
  log "11/13 Preparing build..." ;;
  runInDir kernelBuildDir "make" ["modules_prepare"] ;;
  release <- unameR ;;
  let symvers := "/usr/src/kernels/" ++ release ++ "/Module.symvers" in
  st <- Stat os symvers ;;
  match st with
  | StatOk => runInDir kernelBuildDir "cp" [symvers; "."]
  | _ => ret tt
  end.

(** Step 12, build (lines 243--250). *)
Definition buildModule (kernelBuildDir : string) : Go unit :=
  log "12/13 Building module (this may take a while)..." ;;
  cmdBuild <- Command os "make" ["M=drivers/acpi"; "modules"] ;;
  env <- Environ os ;;
  wrapErr "build failed: "
    (runCmd {| Path := Path cmdBuild; Args := Args cmdBuild;
               Dir := kernelBuildDir;
               Env := Some (List.app env ["KBUILD_MODPOST_WARN=1"]) |}).

(** Step 13, install (lines 252--270). *)
Definition installModule (kernelBuildDir : string) : Go unit :=
  log "13/13 Installing module..." ;;
  let koFile := filepath.Join [kernelBuildDir; "drivers"; "acpi"; "ec_sys.ko"] in
  st <- Stat os koFile ;;
  match st with
  | StatOk =>
      release <- unameR ;;
      let destDir := "/lib/modules/" ++ release ++ "/extra" in
      run "mkdir" ["-p"; destDir] ;;
      run "cp" [koFile; filepath.Join [destDir; "ec_sys.ko"]] ;;
      run "depmod" ["-a"] ;;
      log "Success! ec_sys.ko installed."
  | _ => throw "ec_sys.ko not found after build"
  end.

(** Steps 9 to 13. *)
Definition patchBuildInstall (kernelBuildDir : string) : Go unit :=
  patchMakefile kernelBuildDir ;;
  configureKernel kernelBuildDir ;;
  prepareBuild kernelBuildDir ;;
  buildModule kernelBuildDir ;;
  installModule kernelBuildDir.

(** Lines 117--195: steps 3 to 8 in the workspace, up to the kernel
    build directory. *)
Definition prepareSource (workDir : string) : Go string :=
  log ("Working in " ++ workDir) ;;
  log "3/13 Setting up RPM build tree..." ;;
  let rpmbuildDir := filepath.Join [workDir; "rpmbuild"] in
  forEach ["BUILD"; "RPMS"; "SOURCES"; "SPECS"; "SRPMS"]
    (fun dir =>
       err <- MkdirAll os (filepath.Join [rpmbuildDir; dir]) ;;
       check err) ;;
  downloadSource workDir ;;
  srcRpm <- findSrcRpm workDir ;;
  log "5/13 Installing build dependencies..." ;;
  run "dnf" ["builddep"; "-y"; srcRpm] ;;
  log "6/13 Installing source RPM..." ;;
  run "rpm" ["-i"; "--define=_topdir " ++ rpmbuildDir; srcRpm] ;;
  log "7/13 Preparing kernel source tree..." ;;
  let specsDir := filepath.Join [rpmbuildDir; "SPECS"] in
  arch <- unameM ;;
  cmd <- Command os "rpmbuild"
           ["-bp"; "--define=_topdir " ++ rpmbuildDir;
            "--target=" ++ arch; "kernel.spec"] ;;
  wrapErr "failed to prepare kernel source: "
    (runCmd {| Path := Path cmd; Args := Args cmd;
               Dir := specsDir; Env := Env cmd |}) ;;
  locateBuildDir rpmbuildDir.

Definition RunFullSetup : Go unit :=
  euid <- Geteuid os ;;
  if negb (euid =? 0)%Z then
    throw "setup requires root privileges (run with sudo)"
  else
    log "Starting automated build of ec_sys module..." ;;
    log "1/13 Installing build tools..." ;;
    installDeps ;;
    apt <- LookPath os "apt-get" ;;
    match apt with
    | Some _ => runFullSetupUbuntu log runCmd
    | None =>
        log "2/13 Creating temporary directory..." ;;
        tmp <- MkdirTemp os "" "ec_sys_build" ;;
        match tmp with
        | inl err => throw err
        | inr workDir =>
            defer (RemoveAll os workDir)
              (kernelBuildDir <- prepareSource workDir ;;
               patchBuildInstall kernelBuildDir)
        end
    end.

End Setup.

(* ================================================================== *)
(** ** A simulated host, to run the code on *)

Module Sim.

(** Regular files with their content, directories, and the tree that a
    walk of the package build area finds. *)
Record World := mkWorld {
  files : list (string * string);
  dirs : list string;
  buildArea : WalkNode
}.

(** The fixed part of a host: the caller's effective user id, the names
    that resolve on the search path, what [uname] prints, and what every
    other command does. *)
Record Host := mkHost {
  euid : Z;
  onPath : list string;
  unameROut : string;
  unameMOut : string;
  behave : Cmd -> World -> ExecResult * World
}.

Definition succeed : ExecResult := mkExecResult None "" None.
Definition exitStatus1 : ExecResult := mkExecResult None "" (Some "exit status 1").

Fixpoint lookup (path : string) (l : list (string * string)) : option string :=
  match l with
  | [] => None
  | (p, c) :: rest => if String.eqb p path then Some c else lookup path rest
  end.

Definition hasString (x : string) (l : list string) : bool :=
  existsb (String.eqb x) l.

Definition setFile (path data : string) (w : World) : World :=
  mkWorld ((path, data) :: filter (fun f => negb (String.eqb (fst f) path)) (files w))
          (dirs w) (buildArea w).

Definition addDir (path : string) (w : World) : World :=
  mkWorld (files w) (path :: dirs w) (buildArea w).

(** [path] is [root] or lies below it. *)
Definition within (root path : string) : bool :=
  String.eqb path root || strings.HasPrefix path (root ++ "/").

(** The name of [path] when it lies directly in [dir]. *)
Definition childName (dir path : string) : option string :=
  if strings.HasPrefix path (dir ++ "/") then
    let name := strings.drop (String.length dir + 1) path in
    if strings.Contains name "/" || String.eqb name "" then None else Some name
  else None.

Fixpoint children (dir : string) (paths : list string) : list string :=
  match paths with
  | [] => []
  | p :: rest =>
      match childName dir p with
      | Some n => n :: children dir rest
      | None => children dir rest
      end
  end.

Definition os (h : Host) : OS World := {|
  os_geteuid := fun _ => euid h;
  os_lookPath := fun name _ =>
    if hasString name (onPath h) then Some ("/usr/bin/" ++ name) else None;
  os_environ := fun _ => ["PATH=/usr/bin"];
  os_exec := fun c w =>
    match Args c with
    | ["uname"; "-r"] => (mkExecResult None (unameROut h) None, w)
    | ["uname"; "-m"] => (mkExecResult None (unameMOut h) None, w)
    | _ => behave h c w
    end;
  os_readFile := fun path w => lookup path (files w);
  os_writeFile := fun path data w => (None, setFile path data w);
  os_openAppend := fun path w =>
    match lookup path (files w) with
    | Some _ => None
    | None => Some ("open " ++ path ++ ": no such file or directory")
    end;
  os_writeString := fun path data w =>
    match lookup path (files w) with
    | Some old => (None, setFile path (old ++ data) w)
    | None => (Some ("write " ++ path ++ ": bad file descriptor"), w)
    end;
  os_stat := fun path w =>
    match lookup path (files w) with
    | Some _ => StatOk
    | None => if hasString path (dirs w) then StatOk else StatNotExist
    end;
  os_readDir := fun dir w =>
    children dir (List.app (map fst (files w)) (dirs w));
  os_walkTree := fun _ w => buildArea w;
  os_mkdirTemp := fun _ pattern w =>
    let path := "/tmp/" ++ pattern ++ "1234" in
    (inr path, addDir path w);
  os_mkdirAll := fun path w => (None, addDir path w);
  os_removeAll := fun path w =>
    mkWorld (filter (fun f => negb (within path (fst f))) (files w))
            (filter (fun d => negb (within path d)) (dirs w))
            (buildArea w)
|}.

Definition initial (w : World) : State World := mkState w [].

(** *** A Fedora host on which the build works *)

Definition fedoraRelease : string := "6.8.0-200.fc39.x86_64".

Definition fedoraWorkDir : string := "/tmp/ec_sys_build1234".

Definition fedoraKernelDir : string :=
  fedoraWorkDir ++ "/rpmbuild/BUILD/kernel-6.8.0/linux-6.8.0-200.fc39.x86_64".

Definition fedoraBehave (c : Cmd) (w : World) : ExecResult * World :=
  match Args c with
  | "dnf" :: "download" :: _ =>
      (mkExecResult None ("kernel-6.8.0-200.fc39.src.rpm" ++ nl) None,
       setFile (Dir c ++ "/kernel-6.8.0-200.fc39.src.rpm") "rpm" w)
  | "rpmbuild" :: _ =>
      let w1 := setFile (fedoraKernelDir ++ "/Makefile")
                  ("VERSION = 6" ++ nl ++ "EXTRAVERSION =" ++ nl ++ "NAME = x" ++ nl) w in
      (succeed,
       mkWorld (files w1) (dirs w1)
         (WDir false
            (WCons "kernel-6.8.0"
               (WDir false
                  (WCons "linux-6.8.0-200.fc39.x86_64"
                     (WDir false (WCons "Makefile" WFile WNil)) WNil))
               WNil)))
  | ["cp"; _; ".config"] =>
      (succeed, setFile (Dir c ++ "/.config") ("CONFIG_X=y" ++ nl) w)
  | ["make"; "M=drivers/acpi"; "modules"] =>
      (mkExecResult None ("  LD [M]  drivers/acpi/ec_sys.ko" ++ nl) None,
       setFile (Dir c ++ "/drivers/acpi/ec_sys.ko") "ko" w)
  | _ => (succeed, w)
  end.

Definition fedora : Host :=
  mkHost 0 ["dnf"; "rpm"; "rpmbuild"; "make"; "cp"; "mkdir"; "depmod"; "sudo"; "uname"]
         (fedoraRelease ++ nl) ("x86_64" ++ nl) fedoraBehave.

Definition emptyWorld : World := mkWorld [] [] WLstatErr.

(** The same host, except that the package build leaves nothing that could
    be inspected where the build area should be. *)
Definition brokenBehave (c : Cmd) (w : World) : ExecResult * World :=
  match Args c with
  | "rpmbuild" :: _ => (succeed, w)
  | _ => fedoraBehave c w
  end.

Definition broken : Host :=
  mkHost 0 (onPath fedora) (unameROut fedora) (unameMOut fedora) brokenBehave.

(** The same host for a caller who is not root. *)
Definition fedoraUser : Host :=
  mkHost 1000 (onPath fedora) (unameROut fedora) (unameMOut fedora) fedoraBehave.

Definition idle (c : Cmd) (w : World) : ExecResult * World := (succeed, w).

Definition failing (c : Cmd) (w : World) : ExecResult * World := (exitStatus1, w).

(** A host with neither package manager. *)
Definition bare : Host :=
  mkHost 0 ["sudo"; "uname"; "make"] ("6.8.0-arch1-1" ++ nl) ("x86_64" ++ nl) idle.

(** A host whose release has no "-". *)
Definition plain : Host :=
  mkHost 0 (onPath fedora) ("6.8.0" ++ nl) ("x86_64" ++ nl) fedoraBehave.

(** An Ubuntu host on which every command works; in [emptyWorld] it has
    no kernel headers. *)
Definition ubuntuRelease : string := "6.8.0-45-generic".

Definition ubuntu : Host :=
  mkHost 0 ["apt-get"; "sudo"; "curl"; "make"; "uname"]
         (ubuntuRelease ++ nl) ("x86_64" ++ nl) idle.

(** *** Laptops for [CheckAndSetup] *)

Definition modulesPath : string := "/proc/modules".
Definition writeSupportPath : string :=
  "/sys/module/ec_sys/parameters/write_support".

Definition otherModule : string :=
  "snd_hda_intel 61440 4 - Live 0x0000000000000000" ++ nl.

Definition ecSysModule : string :=
  "ec_sys 16384 0 - Live 0x0000000000000000" ++ nl.

(** The module is not loaded, and cannot be: modprobe fails. *)
Definition noModuleWorld : World :=
  mkWorld [(modulesPath, otherModule)] [] WLstatErr.

Definition noModule : Host :=
  mkHost 1000 ["sudo"; "modprobe"] ("6.8.0-45-generic" ++ nl) ("x86_64" ++ nl) failing.

(** The module is loaded without write support; loading it again with
    the parameter turns write support on. *)
Definition readOnlyWorld : World :=
  mkWorld [(modulesPath, otherModule ++ ecSysModule); (writeSupportPath, "N" ++ nl)]
          [] WLstatErr.

Definition reloadBehave (c : Cmd) (w : World) : ExecResult * World :=
  match Args c with
  | ["sudo"; "modprobe"; "ec_sys"; "write_support=1"] =>
      (succeed, setFile writeSupportPath ("Y" ++ nl) w)
  | _ => (succeed, w)
  end.

Definition reloading : Host :=
  mkHost 1000 ["sudo"; "modprobe"] ("6.8.0-45-generic" ++ nl) ("x86_64" ++ nl)
         reloadBehave.

(** The module is loaded with write support. *)
Definition readyWorld : World :=
  mkWorld [(modulesPath, otherModule ++ ecSysModule); (writeSupportPath, "Y" ++ nl)]
          [] WLstatErr.

End Sim.

(** The events after the last child process of a trace (all of them when
    there is none). *)
Fixpoint afterLastExec (evs : list Event) : list Event :=
  match evs with
  | [] => []
  | e :: rest =>
      if existsb (fun e' => match e' with EvExec _ => true | _ => false end) rest
      then afterLastExec rest
      else match e with
           | EvExec _ => rest
           | _ => e :: rest
           end
  end.

Definition commands (evs : list Event) : list Cmd :=
  flat_map (fun e => match e with EvExec c => [c] | _ => [] end) evs.



(* ================================================================== *)
(** ** Words of the specification *)

(** An event filter that can only reject child processes and the creation
    of temporary directories. *)
Definition benign (P : Event -> bool) : Prop :=
  forall e,
    match e with
    | EvExec _ | EvMkdirTemp _ _ _ => True
    | _ => P e = true
    end.

(** Is the command the refresh of the module dependency index, run
    directly or through sudo? *)
Definition isDepmod (c : Cmd) : bool :=
  match Args c with
  | a0 :: rest =>
      String.eqb a0 "depmod"
      || (String.eqb a0 "sudo"
          && match rest with
             | a1 :: _ => String.eqb a1 "depmod"
             | [] => false
             end)
  | [] => false
  end.

(** Is the command the fetch of the driver source? *)
Definition isCurl (c : Cmd) : bool :=
  match Args c with
  | a0 :: _ => String.eqb a0 "curl"
  | [] => false
  end.

Definition notDepmod (e : Event) : bool :=
  match e with
  | EvExec c => negb (isDepmod c)
  | _ => true
  end.

Definition notCurl (e : Event) : bool :=
  match e with
  | EvExec c => negb (isCurl c)
  | _ => true
  end.

Definition notMkdirTemp (e : Event) : bool :=
  match e with
  | EvMkdirTemp _ _ _ => false
  | _ => true
  end.

(** The event is not the creation of a temporary directory that worked. *)
Definition notCreated (e : Event) : bool :=
  match e with
  | EvMkdirTemp _ _ (inr _) => false
  | _ => true
  end.

(** Some entry of a loaded-module list has [name] in its first column. *)
Definition namedInList (content name : string) : bool :=
  existsb (fun line => String.eqb (nth 0 (strings.Split line " ") "") name)
          (strings.Split content nl).

(** A loaded-module list in which "ec_sys" occurs only inside the name of
    another module and among the users of a second one. *)
Definition otherModules : string :=
  "msi_ec_sysfs 16384 0 - Live 0x0000000000000000" ++ nl
  ++ "wmi 36864 1 ec_sys_shim, Live 0x0000000000000000" ++ nl.


(** An Ubuntu host on which the installation of the tools in step 1 puts
    the kernel headers in place. *)
Definition installsHeaders : Sim.Host :=
  Sim.mkHost 0 (Sim.onPath Sim.ubuntu) (Sim.unameROut Sim.ubuntu)
    (Sim.unameMOut Sim.ubuntu)
    (fun c w =>
       match Args c with
       | "sudo" :: "apt-get" :: "install" :: _ =>
           (Sim.succeed, Sim.addDir "/lib/modules/6.8.0-45-generic/build" w)
       | _ => (Sim.succeed, w)
       end).

Definition modulesFile : string := "/proc/modules".

Definition writeSupportFile : string :=
  "/sys/module/ec_sys/parameters/write_support".

(** The base version of a release: the text before the first "-". *)
Definition baseVersion (release : string) : string :=
  nth 0 (strings.Split release "-") "".

(** The package that a "dnf download --source" among the commands asks for. *)
Definition downloadedPackage (cmds : list Cmd) : option string :=
  match
    find (fun c =>
            match Args c with
            | [a0; a1; a2; _] =>
                String.eqb a0 "dnf" && String.eqb a1 "download"
                && String.eqb a2 "--source"
            | _ => false
            end) cmds
  with
  | Some c => Some (nth 3 (Args c) "")
  | None => None
  end.

(** The header directory of a release, and the error of the Ubuntu strategy
    when it is missing. *)
Definition headerDir (release : string) : string :=
  ("/lib/modules/" ++ release ++ "/build")%string.

Definition headersMissing (release : string) : error :=
  ("kernel headers not found. run: sudo apt install linux-headers-" ++ release)%string.

Section Vocabulary.

Context {W : Type} (os : OS W).

Local Open Scope list_scope.

(** The command that [exec.Command(name, arg...)] builds in world [w]. *)
Definition commandAt (name : string) (arg : list string) (w : W) : Cmd :=
  mkCmd (match os_lookPath os name w with Some p => p | None => name end)
        (name :: arg) "" None.

Definition stdoutOf (r : ExecResult) : string :=
  match startErr r with
  | Some _ => ""
  | None => output r
  end.

(** The release string that a query in world [w] gets. *)
Definition releaseOf (w : W) : string :=
  strings.TrimSpace (stdoutOf (fst (os_exec os (commandAt "uname" ["-r"] w) w))).

(** The world after such a query. *)
Definition afterUname (w : W) : W :=
  snd (os_exec os (commandAt "uname" ["-r"] w) w).

(** The answer of [isModuleLoaded(name)] in world [w]. *)
Definition moduleListed (name : string) (w : W) : bool :=
  match os_readFile os "/proc/modules" w with
  | Some content => strings.Contains content name
  | None => false
  end.

(** The answer of [checkWriteSupport()] in world [w]. *)
Definition writeSupportOn (w : W) : bool :=
  match os_readFile os "/sys/module/ec_sys/parameters/write_support" w with
  | Some content =>
      String.eqb (strings.TrimSpace content) "Y"
      || String.eqb (strings.TrimSpace content) "1"
  | None => false
  end.

(** The error of [cmd.Run()]. *)
Definition runErr (r : ExecResult) : option error :=
  match startErr r with
  | Some e => Some e
  | None => waitErr r
  end.

(** What [runCmd] amounts to: the announcement, the child, its lines,
    and the error of [Start] or of [Wait]. *)
Definition ranCmd (c : Cmd) (s : State W) : Outcome unit * State W :=
  let r := fst (os_exec os c (world s)) in
  let w1 := snd (os_exec os c (world s)) in
  let announce :=
    EvLog ("Running: " ++ filepath.Base (Path c) ++ " "
             ++ strings.Join (tl (Args c)) " ")%string in
  match startErr r with
  | Some err =>
      (Fail ("failed to start " ++ Path c ++ ": " ++ err)%string,
       mkState w1 (trace s ++ [announce; EvExec c]))
  | None =>
      let s2 := mkState w1 (trace s ++ [announce; EvExec c]
                              ++ map EvLog (bufio.ScanLines (output r))) in
      match waitErr r with
      | Some err => (Fail ("command failed: " ++ err)%string, s2)
      | None => (Done tt, s2)
      end
  end.

(** How [runCmd] ends, given what the child did. *)
Definition cmdOutcome (c : Cmd) (r : ExecResult) : Outcome unit :=
  match startErr r with
  | Some err => Fail ("failed to start " ++ Path c ++ ": " ++ err)%string
  | None =>
      match waitErr r with
      | Some err => Fail ("command failed: " ++ err)%string
      | None => Done tt
      end
  end.

(** Every event that [m] adds to the trace passes the filter [P]. *)
Definition emits {A} (P : Event -> bool) (m : M W A) : Prop :=
  forall s, exists evs,
    trace (snd (m s)) = trace s ++ evs /\ forallb P evs = true.

(** The trace grew from [t] to [t1] without a refresh of the dependency
    index. *)
Definition quiet (t t1 : list Event) : Prop :=
  exists evs, t1 = t ++ evs /\ filter isDepmod (commands evs) = [].

(** A run is tidy when it has created no workspace, or one, which it
    removed with its last call. *)
Definition tidy (t t' : list Event) (w' : W) : Prop :=
  (exists evs, t' = t ++ evs /\ forallb notCreated evs = true)
  \/ (exists before dir pattern workDir mid w1,
         t' = t ++ before ++ EvMkdirTemp dir pattern (inr workDir)
                             :: mid ++ [EvRemoveAll workDir]
         /\ forallb notCreated before = true
         /\ forallb notCreated mid = true
         /\ w' = os_removeAll os workDir w1).

Definition tidyM {A} (m : M W A) : Prop :=
  forall s, tidy (trace s) (trace (snd (m s))) (world (snd (m s))).

End Vocabulary.

(* ================================================================== *)
(** ** Words for the properties of the single steps *)

(** The names that the search of lines 145--150 takes for the downloaded
    source package. *)
Definition isSrcRpm (name : string) : bool :=
  strings.HasPrefix name "kernel-" && strings.HasSuffix name ".src.rpm".

(** Is the line one that [replaceInFile] replaces? *)
Definition isExtraversion (line : string) : bool :=
  strings.HasPrefix line "EXTRAVERSION =".


Definition noNewline (l : string) : bool := negb (strings.Contains l nl).

(** What a search for the kernel build directory can come to. *)
Inductive Search :=
| NotFound
| FoundAt (path : string)
| Unreadable.

(** The first directory, parents before children and entries in their
    order, whose name starts with "linux-" and that has a Makefile; the
    search breaks off at an entry that cannot be inspected, and does not
    enter a directory that cannot be listed. *)
Section Search.

Variable hasMakefile : string -> bool.

Fixpoint searchNode (path name : string) (node : WalkNode) : Search :=
  match node with
  | WLstatErr => Unreadable
  | WFile => NotFound
  | WDir readErr entries =>
      if strings.HasPrefix name "linux-" && hasMakefile path then FoundAt path
      else if readErr then NotFound
      else searchEntries path entries
  end
with searchEntries (path : string) (entries : WalkEntries) : Search :=
  match entries with
  | WNil => NotFound
  | WCons name node rest =>
      match searchNode (filepath.Join [path; name]) name node with
      | NotFound => searchEntries path rest
      | r => r
      end
  end.

End Search.

Definition isStat (e : Event) : bool :=
  match e with
  | EvStat _ => true
  | _ => false
  end.

(** How the walk of step 8 ends for each result of the search. *)
Definition searchOutcome (r : Search) (out : Outcome (string * option WalkErr))
  : Prop :=
  match r with
  | NotFound => out = Done ("", None)
  | FoundAt p => p <> "" /\ exists e, out = Done (p, e)
  | Unreadable => out = Panic
  end.

Section StepWords.

Context {W : Type} (os : OS W).

(** Does [os.Stat] find a Makefile in the directory [path] of world [w]? *)
Definition hasMakefileAt (w : W) (path : string) : bool :=
  match os_stat os (filepath.Join [path; "Makefile"]) w with
  | StatOk => true
  | _ => false
  end.

End StepWords.


(** Is the command a modprobe, run directly or through sudo? *)
Definition isModprobe (c : Cmd) : bool :=
  match Args c with
  | a0 :: rest =>
      String.eqb a0 "modprobe"
      || (String.eqb a0 "sudo"
          && match rest with
             | a1 :: _ => String.eqb a1 "modprobe"
             | [] => false
             end)
  | [] => false
  end.

Definition notModprobe (e : Event) : bool :=
  match e with
  | EvExec c => negb (isModprobe c)
  | _ => true
  end.

(** The events that the Ubuntu strategy and the installation of the tools
    can leave: of the child processes only uname, sudo, curl and a make
    without arguments, and of the temporary directories only those of the
    pattern "ec_sys_ubuntu". *)
Definition ubuntuRoute (e : Event) : bool :=
  match e with
  | EvExec c =>
      match Args c with
      | a0 :: rest =>
          String.eqb a0 "uname" || String.eqb a0 "sudo" || String.eqb a0 "curl"
          || (String.eqb a0 "make" && match rest with [] => true | _ => false end)
      | [] => false
      end
  | EvMkdirTemp _ pattern _ => String.eqb pattern "ec_sys_ubuntu"
  | _ => true
  end.

(** The events that a check of the module can leave: reads of the two
    files of the probe, and the two modprobe commands through sudo. *)
Definition checkOnly (e : Event) : bool :=
  match e with
  | EvReadFile path =>
      String.eqb path modulesFile || String.eqb path writeSupportFile
  | EvExec c =>
      match Args c with
      | ["sudo"; "modprobe"; "-r"; "ec_sys"] => true
      | ["sudo"; "modprobe"; "ec_sys"; "write_support=1"] => true
      | _ => false
      end
  | _ => false
  end.

(** The Makefile that the Ubuntu strategy writes for a release. *)
Definition ubuntuMakefile (release : string) : string :=
  "obj-m := ec_sys.o" ++ nl ++ "all:" ++ nl ++ tab ++ "make -C "
    ++ ("/lib/modules/" ++ release ++ "/build") ++ " M=$(PWD) modules" ++ nl.

(** Where the driver source of a base version is fetched from. *)
Definition sourceUrl (base : string) : string :=
  "https://raw.githubusercontent.com/torvalds/linux/refs/tags/v"
    ++ base ++ "/drivers/acpi/ec_sys.c".

(** Is the command an apt-get, run directly or through sudo? *)
Definition isAptGet (c : Cmd) : bool :=
  match Args c with
  | a0 :: rest =>
      String.eqb a0 "apt-get"
      || (String.eqb a0 "sudo"
          && match rest with
             | a1 :: _ => String.eqb a1 "apt-get"
             | [] => false
             end)
  | [] => false
  end.

Definition notAptGet (e : Event) : bool :=
  match e with
  | EvExec c => negb (isAptGet c)
  | _ => true
  end.

(** The argument vector and the working directory of a command. *)
Definition argsDir (c : Cmd) : list string * string := (Args c, Dir c).

(** *** Hosts and files for the properties of the steps *)

(** A Makefile with two lines that start with "EXTRAVERSION =". *)
Definition sampleMakefile : string :=
  strings.Join ["VERSION = 6"; "EXTRAVERSION ="; "NAME = x";
                "EXTRAVERSION = -old"; ""] nl.

Definition makefileWorld : Sim.World :=
  Sim.mkWorld [("/k/Makefile", sampleMakefile)] [] WLstatErr.

(** A workspace with the downloaded source package beside another file. *)
Definition downloadWorld : Sim.World :=
  Sim.mkWorld [("/tmp/w/notes.txt", "x");
               ("/tmp/w/kernel-6.8.0-200.fc39.src.rpm", "rpm")] [] WLstatErr.

(** An Ubuntu host with the headers of its kernel. *)
Definition headersWorld : Sim.World :=
  Sim.mkWorld [] ["/lib/modules/6.8.0-45-generic/build"] WLstatErr.

(** A host on which both package managers are installed. *)
Definition hybrid : Sim.Host :=
  Sim.mkHost 0 ["dnf"; "apt-get"; "sudo"; "curl"; "make"; "uname"]
             (Sim.ubuntuRelease ++ nl) ("x86_64" ++ nl) Sim.idle.



(* ================================================================== *)
(** ** internal/ec/ec.go: the embedded controller *)

From Stdlib Require DecimalString HexadecimalString.
From Stdlib.Strings Require Byte.

(** The debug file of the embedded controller, as ec.go uses it: the file
    is opened for reading and writing, the handle is positioned, and one
    call writes a byte or reads some bytes at that position.  Only a
    write changes the controller. *)
Record Controller (D : Type) := mkController {
  ctl_open : D -> option error;
  ctl_seek : Z -> D -> option error;
  ctl_write : Z -> Byte.byte -> D -> option error * D;
  ctl_read : Z -> nat -> D -> option error * list Byte.byte
}.

Arguments ctl_open {D}.
Arguments ctl_seek {D}.
Arguments ctl_write {D}.
Arguments ctl_read {D}.

(** What was done with the file, in order, and whether it worked. *)
Inductive EcOp :=
| OpOpen (ok : bool)
| OpSeek (offset : Z) (ok : bool)
| OpWrite (offset : Z) (value : Byte.byte) (ok : bool)
| OpRead (offset : Z) (size : nat) (ok : bool)
| OpClose.

(** The world of the fan code: the controller and the record of the
    accesses to its file. *)
Record EcWorld (D : Type) := mkEcWorld { device : D; ops : list EcOp }.

Arguments mkEcWorld {D}.
Arguments device {D}.
Arguments ops {D}.

Definition isNone {A} (o : option A) : bool :=
  match o with
  | None => true
  | Some _ => false
  end.

(** [%x] of an [int64] and [%d] of an [int]. *)
Definition hex (z : Z) : string :=
  if (z <? 0)%Z
  then "-" ++ HexadecimalString.NilZero.string_of_uint (N.to_hex_uint (Z.to_N (- z)))
  else HexadecimalString.NilZero.string_of_uint (N.to_hex_uint (Z.to_N z)).

Definition decimal (z : Z) : string :=
  DecimalString.NilZero.string_of_int (Z.to_int z).

(** The number that a byte stands for. *)
Definition byteValue (b : Byte.byte) : Z := Z.of_N (Byte.to_N b).

(** The conversion [byte(x)] of an [int]: the low eight bits. *)
Definition toByte (x : Z) : Byte.byte :=
  match Byte.of_N (Z.to_N (x mod 256)) with
  | Some b => b
  | None => Byte.x00
  end.

Module ec.

Definition EcIoFile : string := "/sys/kernel/debug/ec/ec0/io".

Section Ec.

Context {D : Type} (ctl : Controller D).

Local Open Scope go_scope.

Local Notation "'Go' A" := (M (EcWorld D) A) (at level 10, A at level 9).

Definition record (d : D) (op : EcOp) (s : State (EcWorld D)) : State (EcWorld D) :=
  mkState (mkEcWorld d (List.app (ops (world s)) [op])) (trace s).

(** [os.OpenFile(EcIoFile, os.O_RDWR, 0)]. *)
Definition OpenFile : Go (option error) := fun s =>
  let d := device (world s) in
  (Done (ctl_open ctl d), record d (OpOpen (isNone (ctl_open ctl d))) s).

(** [f.Seek(offset, 0)]. *)
Definition Seek (offset : Z) : Go (option error) := fun s =>
  let d := device (world s) in
  (Done (ctl_seek ctl offset d), record d (OpSeek offset (isNone (ctl_seek ctl offset d))) s).

(** [f.Write([]byte{value})] on a handle positioned at [offset]. *)
Definition WriteByte (offset : Z) (value : Byte.byte) : Go (option error) := fun s =>
  let r := ctl_write ctl offset value (device (world s)) in
  (Done (fst r), record (snd r) (OpWrite offset value (isNone (fst r))) s).

(** [f.Read(buf)] for a fresh buffer of [size] bytes, on a handle positioned
    at [offset]: the buffer afterwards, what was not read being zero. *)
Definition ReadBuf (offset : Z) (size : nat) : Go (option error * list Byte.byte) :=
  fun s =>
    let d := device (world s) in
    let r := ctl_read ctl offset size d in
    (Done (fst r, firstn size (List.app (snd r) (repeat Byte.x00 size))),
     record d (OpRead offset size (isNone (fst r))) s).

(** [f.Close()]. *)
Definition Close : Go unit := fun s =>
  (Done tt, record (device (world s)) OpClose s).

(** [Write] (lines 24--42). *)
Definition Write (byteAddr : Z) (value : Byte.byte) : Go unit :=
  err <- OpenFile ;;
  match err with
  | Some err => throw ("failed to open EC file: " ++ err)
  | None =>
      defer Close
        (err <- Seek byteAddr ;;
         match err with
         | Some err => throw ("failed to seek to byte " ++ hex byteAddr ++ ": " ++ err)
         | None =>
             err <- WriteByte byteAddr value ;;
             match err with
             | Some err =>
                 throw ("failed to write value " ++ decimal (byteValue value)
                          ++ " to byte " ++ hex byteAddr ++ ": " ++ err)
             | None => ret tt
             end
         end)
  end.

(** [Read] (lines 53--81).  Making a buffer of negative length panics. *)
Definition Read (byteAddr : Z) (size : Z) : Go Z :=
  err <- OpenFile ;;
  match err with
  | Some err => throw ("failed to open EC file: " ++ err)
  | None =>
      defer Close
        (err <- Seek byteAddr ;;
         match err with
         | Some err => throw ("failed to seek to byte " ++ hex byteAddr ++ ": " ++ err)
         | None =>
             if (size <? 0)%Z then panic
             else
               r <- ReadBuf byteAddr (Z.to_nat size) ;;
               match fst r with
               | Some err =>
                   throw ("failed to read from byte " ++ hex byteAddr ++ ": " ++ err)
               | None =>
                   let buf := snd r in
                   if (size =? 1)%Z then ret (byteValue (nth 0 buf Byte.x00))
                   else if (size =? 2)%Z then
                     ret (Z.lor (Z.shiftl (byteValue (nth 0 buf Byte.x00)) 8)
                                (byteValue (nth 1 buf Byte.x00)))
                   else ret 0%Z
               end
         end)
  end.

End Ec.

End ec.

(* ================================================================== *)
(** ** internal/config/config.go: the configuration *)

Module config.

(** [Config]; Go's [int] is taken to have 64 bits, so that [int64(x)] is
    [x]. *)
Record Config := mkConfig { Profile : Z;
  AutoSpeed : list (list Z);
  AdvSpeed : list (list Z);
  BasicOffset : Z;
  CPU : Z;
  AutoAdvValues : list Z;
  CoolerBoosterOffOnValues : list Z;
  CpuGpuFanSpeedAddress : list (list Z);
  CpuGpuTempAddress : list Z;
  CpuGpuRpmAddress : list Z;
  BatteryThresholdValue : Z
}.

(** [DefaultConfig] (lines 84--107). *)
Definition DefaultConfig : Config :=
  (mkConfig 1
     [[0; 40; 48; 56; 64; 72; 80]; [0; 48; 56; 64; 72; 79; 86]]
     [[0; 40; 48; 56; 64; 72; 80]; [0; 48; 56; 64; 72; 79; 86]]
     0 1
     [0xd4; 13; 141]
     [0x98; 2; 130]
     [[0x72; 0x73; 0x74; 0x75; 0x76; 0x77; 0x78];
      [0x8a; 0x8b; 0x8c; 0x8d; 0x8e; 0x8f; 0x90]]
     [0x68; 0x80]
     [0xc8; 0xca]
     100)%Z.

End config.

(* ================================================================== *)
(** ** internal/fan/fan.go *)

Module fan.

Section Fan.

Context {D : Type} (ctl : Controller D).

Local Open Scope go_scope.

Local Notation "'Go' A" := (M (EcWorld D) A) (at level 10, A at level 9).

(** [l[i]]: an index out of range panics. *)
Definition index (l : list Z) (i : nat) : Go Z :=
  match nth_error l i with
  | Some x => ret x
  | None => panic
  end.

(** [m[row][col]]. *)
Definition index2 (m : list (list Z)) (row col : nat) : Go Z :=
  match nth_error m row with
  | Some r => index r col
  | None => panic
  end.

(** [writeSpeeds] (lines 299--312). *)
Definition writeSpeeds (addresses speeds : list (list Z)) : Go unit :=
  forEach [0; 1]%nat
    (fun row =>
       forEach [0; 1; 2; 3; 4; 5; 6]%nat
         (fun col =>
            addr <- index2 addresses row col ;;
            val <- index2 speeds row col ;;
            ec.Write ctl addr (toByte val))).

(** The speed of every point of the curve in Basic mode (lines 232--254):
    the offset, kept between -30 and 30 and then between 0 and 150. *)
Definition basicSpeed (basicOffset : Z) : Z :=
  let offset := if (30 <? basicOffset)%Z then 30%Z else basicOffset in
  let offset := if (offset <? -30)%Z then (-30)%Z else offset in
  let val := if (offset <? 0)%Z then 0%Z else offset in
  if (150 <? val)%Z then 150%Z else val.

(** [ApplyProfile] (lines 183--291). *)
Definition ApplyProfile (cfg : config.Config) : Go unit :=
  autoAdvAddr <- index (config.AutoAdvValues cfg) 0 ;;
  autoVal <- index (config.AutoAdvValues cfg) 1 ;;
  advVal <- index (config.AutoAdvValues cfg) 2 ;;
  cbAddr <- index (config.CoolerBoosterOffOnValues cfg) 0 ;;
  cbOffVal <- index (config.CoolerBoosterOffOnValues cfg) 1 ;;
  cbOnVal <- index (config.CoolerBoosterOffOnValues cfg) 2 ;;
  match config.Profile cfg with
  | 1%Z =>
      ec.Write ctl cbAddr (toByte cbOffVal) ;;
      ec.Write ctl autoAdvAddr (toByte autoVal) ;;
      writeSpeeds (config.CpuGpuFanSpeedAddress cfg) (config.AutoSpeed cfg)
  | 2%Z =>
      ec.Write ctl cbAddr (toByte cbOffVal) ;;
      ec.Write ctl autoAdvAddr (toByte advVal) ;;
      let val := basicSpeed (config.BasicOffset cfg) in
      let basicSpeeds := repeat (repeat val 7) 2 in
      writeSpeeds (config.CpuGpuFanSpeedAddress cfg) basicSpeeds
  | 3%Z =>
      ec.Write ctl cbAddr (toByte cbOffVal) ;;
      ec.Write ctl autoAdvAddr (toByte advVal) ;;
      writeSpeeds (config.CpuGpuFanSpeedAddress cfg) (config.AdvSpeed cfg)
  | 4%Z => ec.Write ctl cbAddr (toByte cbOnVal)
  | other => throw ("unknown profile: " ++ decimal other)
  end.

(** [GetTemps] (lines 316--328). *)
Definition GetTemps (cfg : config.Config) : Go (Z * Z) :=
  cpuAddr <- index (config.CpuGpuTempAddress cfg) 0 ;;
  cpuTemp <- ec.Read ctl cpuAddr 1 ;;
  gpuAddr <- index (config.CpuGpuTempAddress cfg) 1 ;;
  gpuTemp <- ec.Read ctl gpuAddr 1 ;;
  ret (cpuTemp, gpuTemp).

(** [GetRPMs] (lines 332--346). *)
Definition GetRPMs (cfg : config.Config) : Go (Z * Z) :=
  cpuAddr <- index (config.CpuGpuRpmAddress cfg) 0 ;;
  cpuRpm <- ec.Read ctl cpuAddr 2 ;;
  gpuAddr <- index (config.CpuGpuRpmAddress cfg) 1 ;;
  gpuRpm <- ec.Read ctl gpuAddr 2 ;;
  ret (cpuRpm, gpuRpm).

End Fan.

End fan.

(* ================================================================== *)
(** ** Words for the properties of the fan code *)

(** The state after more accesses [l] to a controller that is now [d]. *)
Definition after {D} (s : State (EcWorld D)) (d : D) (l : list EcOp)
  : State (EcWorld D) :=
  mkState (mkEcWorld d (List.app (ops (world s)) l)) (trace s).

(** The accesses of a write, and of a read, that works. *)
Definition writeOps (w : Z * Byte.byte) : list EcOp :=
  [OpOpen true; OpSeek (fst w) true; OpWrite (fst w) (snd w) true; OpClose].

Definition readOps (offset : Z) (size : nat) : list EcOp :=
  [OpOpen true; OpSeek offset true; OpRead offset size true; OpClose].

(** The bytes that were written, with their addresses. *)
Definition writesOf (l : list EcOp) : list (Z * Byte.byte) :=
  flat_map (fun op =>
              match op with
              | OpWrite offset value true => [(offset, value)]
              | _ => []
              end) l.

(** The file is handled in sessions: it is opened only while it is not
    open, accessed and closed only while it is open, and not left open. *)
Fixpoint bracketed (isOpen : bool) (l : list EcOp) : bool :=
  match l with
  | [] => negb isOpen
  | OpOpen ok :: rest => negb isOpen && bracketed ok rest
  | OpClose :: rest => isOpen && bracketed false rest
  | _ :: rest => isOpen && bracketed isOpen rest
  end.

(** The entry of a table, 0 where there is none. *)
Definition cell (m : list (list Z)) (rc : nat * nat) : Z :=
  nth (snd rc) (nth (fst rc) m []) 0%Z.

(** The points of the two fan curves, in the order of [writeSpeeds]. *)
Definition grid : list (nat * nat) :=
  flat_map (fun row => map (fun col => (row, col)) [0; 1; 2; 3; 4; 5; 6]%nat)
           [0; 1]%nat.

(** The writes of a whole table of speeds. *)

(** The write of one point of a curve. *)
Definition pointWrite (addresses speeds : list (list Z)) (rc : nat * nat)
  : Z * Byte.byte :=
  (cell addresses rc, toByte (cell speeds rc)).

(** The body of the loops of [writeSpeeds], for one point. *)
Definition writePoint {D} (ctl : Controller D) (addresses speeds : list (list Z))
  (rc : nat * nat) : M (EcWorld D) unit :=
  bind (fan.index2 addresses (fst rc) (snd rc))
    (fun addr =>
       bind (fan.index2 speeds (fst rc) (snd rc))
         (fun val => ec.Write ctl addr (toByte val))).

(** The writes of a whole table of speeds. *)
Definition curve (addresses speeds : list (list Z)) : list (Z * Byte.byte) :=
  map (pointWrite addresses speeds) grid.

(** The writes that a profile stands for. *)
Definition profileWrites (cfg : config.Config) : list (Z * Byte.byte) :=
  let autoAdv i := nth i (config.AutoAdvValues cfg) 0%Z in
  let booster i := nth i (config.CoolerBoosterOffOnValues cfg) 0%Z in
  let addresses := config.CpuGpuFanSpeedAddress cfg in
  match config.Profile cfg with
  | 1%Z => (booster 0%nat, toByte (booster 1%nat))
           :: (autoAdv 0%nat, toByte (autoAdv 1%nat))
           :: curve addresses (config.AutoSpeed cfg)
  | 2%Z => (booster 0%nat, toByte (booster 1%nat))
           :: (autoAdv 0%nat, toByte (autoAdv 2%nat))
           :: curve addresses
                (repeat (repeat (fan.basicSpeed (config.BasicOffset cfg)) 7) 2)
  | 3%Z => (booster 0%nat, toByte (booster 1%nat))
           :: (autoAdv 0%nat, toByte (autoAdv 2%nat))
           :: curve addresses (config.AdvSpeed cfg)
  | 4%Z => [(booster 0%nat, toByte (booster 2%nat))]
  | _ => []
  end.

(** The buffer after a read that delivered [data]. *)
Definition bufferOf (size : nat) (data : list Byte.byte) : list Byte.byte :=
  firstn size (List.app data (repeat Byte.x00 size)).

(** The number that [Read] makes of the buffer. *)
Definition decode (size : Z) (buf : list Byte.byte) : Z :=
  if (size =? 1)%Z then byteValue (nth 0 buf Byte.x00)
  else if (size =? 2)%Z then
    (256 * byteValue (nth 0 buf Byte.x00) + byteValue (nth 1 buf Byte.x00))%Z
  else 0%Z.

(** From [s] to [s'] the bytes [ws] were written, in this order and each
    in a session of its own; after them came at most accesses [tail], in
    sessions, that wrote nothing. *)
Definition wrote {D} (s s' : State (EcWorld D)) (ws : list (Z * Byte.byte))
  (tail : list EcOp) : Prop :=
  ops (world s') = List.app (ops (world s)) (List.app (flat_map writeOps ws) tail)
  /\ trace s' = trace s
  /\ bracketed false tail = true
  /\ writesOf tail = [].

(** Every run of [m] handles the file in sessions. *)
Definition closes {D A} (m : M (EcWorld D) A) : Prop :=
  forall s, exists l,
    ops (world (snd (m s))) = List.app (ops (world s)) l
    /\ bracketed false l = true.

(** Every run of [m] handles the file in sessions, writes nothing and
    leaves the controller as it was. *)
Definition reads {D A} (m : M (EcWorld D) A) : Prop :=
  forall s, exists l,
    snd (m s) = after s (device (world s)) l
    /\ bracketed false l = true
    /\ writesOf l = [].

(** *** A simulated controller *)

(** The registers that were written, the last write first; a register
    that was never written reads as zero.  Negative positions are
    refused. *)
Definition Registers := list (Z * Byte.byte).

Definition register (d : Registers) (offset : Z) : Byte.byte :=
  match find (fun e => (fst e =? offset)%Z) d with
  | Some e => snd e
  | None => Byte.x00
  end.

Definition simController : Controller Registers := {|
  ctl_open := fun _ => None;
  ctl_seek := fun offset _ =>
    if (offset <? 0)%Z then Some "seek /sys/kernel/debug/ec/ec0/io: invalid argument"
    else None;
  ctl_write := fun offset value d => (None, (offset, value) :: d);
  ctl_read := fun offset size d =>
    (None, map (fun i => register d (offset + Z.of_nat i)) (seq 0 size))
|}.

(** A controller whose file cannot be written. *)
Definition readOnlyController : Controller Registers := {|
  ctl_open := ctl_open simController;
  ctl_seek := ctl_seek simController;
  ctl_write := fun _ _ d => (Some "write /sys/kernel/debug/ec/ec0/io: operation not permitted", d);
  ctl_read := ctl_read simController
|}.

Definition initialEc (d : Registers) : State (EcWorld Registers) :=
  mkState (mkEcWorld d []) [].

(** The default configuration with Basic mode and an offset of -10, with
    one of the mode values missing, and with a profile that does not
    exist. *)
Definition basicConfig : config.Config :=
  (config.mkConfig 2
     (config.AutoSpeed config.DefaultConfig) (config.AdvSpeed config.DefaultConfig)
     (-10) 1 [0xd4; 13; 141] [0x98; 2; 130]
     (config.CpuGpuFanSpeedAddress config.DefaultConfig)
     [0x68; 0x80] [0xc8; 0xca] 100)%Z.

Definition shortConfig : config.Config :=
  (config.mkConfig 4
     (config.AutoSpeed config.DefaultConfig) (config.AdvSpeed config.DefaultConfig)
     0 1 [0xd4; 13] [0x98; 2; 130]
     (config.CpuGpuFanSpeedAddress config.DefaultConfig)
     [0x68; 0x80] [0xc8; 0xca] 100)%Z.

Definition unknownConfig : config.Config :=
  (config.mkConfig 7
     (config.AutoSpeed config.DefaultConfig) (config.AdvSpeed config.DefaultConfig)
     0 1 [0xd4; 13; 141] [0x98; 2; 130]
     (config.CpuGpuFanSpeedAddress config.DefaultConfig)
     [0x68; 0x80] [0xc8; 0xca] 100)%Z.

(** A controller that reports 45 and 50 degrees and fans at 3000 and 3100
    revolutions. *)
Definition sensorRegisters : Registers :=
  [(0x68, toByte 45); (0x80, toByte 50);
   (0xc8, toByte 0x0b); (0xc9, toByte 0xb8);
   (0xca, toByte 0x0c); (0xcb, toByte 0x1c)]%Z.


(* ================================================================== *)
(** ** internal/ui/ui.go: the model and its update *)

Module ui.

(** The messages that [Update] tells apart; a key comes as the text of
    [msg.String()]. *)
Inductive Msg (SpinnerTick : Type) :=
| WindowSizeMsg (width height : Z)
| KeyMsg (key : string)
| setupLogMsg (line : string)
| setupFinishedMsg (err : option error)
| SpinnerTickMsg (t : SpinnerTick)
| tickMsg
| OtherMsg.

Arguments WindowSizeMsg {SpinnerTick}.
Arguments KeyMsg {SpinnerTick}.
Arguments setupLogMsg {SpinnerTick}.
Arguments setupFinishedMsg {SpinnerTick}.
Arguments SpinnerTickMsg {SpinnerTick}.
Arguments tickMsg {SpinnerTick}.
Arguments OtherMsg {SpinnerTick}.

(** The commands that [Update] and [Init] hand back: nil, [tea.Quit],
    [runSetupCmd(ch)], [waitForSetupLog(ch)], [tickCmd()], a command of the
    spinner, and what [tea.Batch] is given. *)
#[warnings="-register-all"]
Inductive Cmd (Chan SpinnerCmd : Type) :=
| CmdNil
| Quit
| RunSetup (ch : option Chan)
| WaitForSetupLog (ch : option Chan)
| Tick
| SpinnerCmdOf (c : SpinnerCmd)
| Batch (cmds : list (Cmd Chan SpinnerCmd)).

Arguments CmdNil {Chan SpinnerCmd}.
Arguments Quit {Chan SpinnerCmd}.
Arguments RunSetup {Chan SpinnerCmd}.
Arguments WaitForSetupLog {Chan SpinnerCmd}.
Arguments Tick {Chan SpinnerCmd}.
Arguments SpinnerCmdOf {Chan SpinnerCmd}.
Arguments Batch {Chan SpinnerCmd}.

(** [model] (lines 101--121); a nil error and a nil channel are [None]. *)
Record model (Spinner Viewport Chan : Type) := mkModel {
  config : config.Config;
  spinner : Spinner;
  cursor : Z;
  profiles : list string;
  cpuTemp : Z;
  gpuTemp : Z;
  cpuRpm : Z;
  gpuRpm : Z;
  statusMsg : string;
  err : option error;
  width : Z;
  height : Z;
  needsSetup : bool;
  setupRunning : bool;
  setupErr : option error;
  setupLog : string;
  fullLog : string;
  setupChan : option Chan;
  viewport : Viewport
}.

Arguments mkModel {Spinner Viewport Chan}.
Arguments config {Spinner Viewport Chan}.
Arguments spinner {Spinner Viewport Chan}.
Arguments cursor {Spinner Viewport Chan}.
Arguments profiles {Spinner Viewport Chan}.
Arguments cpuTemp {Spinner Viewport Chan}.
Arguments gpuTemp {Spinner Viewport Chan}.
Arguments cpuRpm {Spinner Viewport Chan}.
Arguments gpuRpm {Spinner Viewport Chan}.
Arguments statusMsg {Spinner Viewport Chan}.
Arguments err {Spinner Viewport Chan}.
Arguments width {Spinner Viewport Chan}.
Arguments height {Spinner Viewport Chan}.
Arguments needsSetup {Spinner Viewport Chan}.
Arguments setupRunning {Spinner Viewport Chan}.
Arguments setupErr {Spinner Viewport Chan}.
Arguments setupLog {Spinner Viewport Chan}.
Arguments fullLog {Spinner Viewport Chan}.
Arguments setupChan {Spinner Viewport Chan}.
Arguments viewport {Spinner Viewport Chan}.

(** The three signs of the status messages, as their UTF-8 bytes: the
    high voltage sign, the sparkles, and the warning sign with its
    variation selector. *)
Definition bytes (l : list N) : string :=
  fold_right (fun n s => String (ascii_of_N n) s) EmptyString l.

Definition highVoltage : string := bytes [0xE2; 0x9A; 0xA1]%N.
Definition sparkles : string := bytes [0xE2; 0x9C; 0xA8]%N.
Definition warning : string := bytes [0xE2; 0x9A; 0xA0; 0xEF; 0xB8; 0x8F]%N.

(** What [Update] uses of the libraries: the spinner and the viewport of
    bubbles, and Go's [make] of a channel. *)
Record Widgets (U Spinner SpinnerTick SpinnerCmd Viewport Chan : Type) := mkWidgets {
  spinnerUpdate : Spinner -> SpinnerTick -> Spinner * SpinnerCmd;
  setWidth : Viewport -> Z -> Viewport;
  setHeight : Viewport -> Z -> Viewport;
  SetContent : Viewport -> string -> Viewport;
  GotoBottom : Viewport -> Viewport;
  makeChan : M U Chan
}.

Arguments mkWidgets {U Spinner SpinnerTick SpinnerCmd Viewport Chan}.
Arguments spinnerUpdate {U Spinner SpinnerTick SpinnerCmd Viewport Chan}.
Arguments setWidth {U Spinner SpinnerTick SpinnerCmd Viewport Chan}.
Arguments setHeight {U Spinner SpinnerTick SpinnerCmd Viewport Chan}.
Arguments SetContent {U Spinner SpinnerTick SpinnerCmd Viewport Chan}.
Arguments GotoBottom {U Spinner SpinnerTick SpinnerCmd Viewport Chan}.
Arguments makeChan {U Spinner SpinnerTick SpinnerCmd Viewport Chan}.

(** The functions of the packages fan and config that [Update] calls; an
    error that they return is a [Fail]. *)
Record Packages (U : Type) := mkPackages {
  ApplyProfile : config.Config -> M U unit;
  Save : config.Config -> M U unit;
  GetTemps : config.Config -> M U (Z * Z);
  GetRPMs : config.Config -> M U (Z * Z)
}.

Arguments mkPackages {U}.
Arguments ApplyProfile {U}.
Arguments Save {U}.
Arguments GetTemps {U}.
Arguments GetRPMs {U}.

(** Go's [int] has 64 bits here: the result of an addition or a
    subtraction, brought back into its range. *)
Definition int (z : Z) : Z := ((z + 2 ^ 63) mod 2 ^ 64 - 2 ^ 63)%Z.

Section Ui.

Context {U Spinner SpinnerTick SpinnerCmd Viewport Chan : Type}.

Variable w : Widgets U Spinner SpinnerTick SpinnerCmd Viewport Chan.
Variable p : Packages U.

Local Open Scope go_scope.


(** [err := f()]: the error is a value again. *)
Definition attempt {A} (m : M U A) : M U (error + A) := fun s =>
  match m s with
  | (Done a, s') => (Done (inr a), s')
  | (Fail e, s') => (Done (inl e), s')
  | (Panic, s') => (Panic, s')
  end.

(** [profiles[cursor]]. *)
Definition profileAt (profiles : list string) (cursor : Z) : M U string :=
  if (cursor <? 0)%Z then panic
  else match nth_error profiles (Z.to_nat cursor) with
       | Some p => ret p
       | None => panic
       end.

Definition withProfile (cfg : config.Config) (p : Z) : config.Config :=
  config.mkConfig p (config.AutoSpeed cfg) (config.AdvSpeed cfg)
    (config.BasicOffset cfg) (config.CPU cfg) (config.AutoAdvValues cfg)
    (config.CoolerBoosterOffOnValues cfg) (config.CpuGpuFanSpeedAddress cfg)
    (config.CpuGpuTempAddress cfg) (config.CpuGpuRpmAddress cfg)
    (config.BatteryThresholdValue cfg).

(** Assignments to the fields of the model. *)
Definition withSize (m : model Spinner Viewport Chan) (width height : Z) : model Spinner Viewport Chan :=
  mkModel (config m) (spinner m) (cursor m) (profiles m) (cpuTemp m) (gpuTemp m)
    (cpuRpm m) (gpuRpm m) (statusMsg m) (err m) width height (needsSetup m)
    (setupRunning m) (setupErr m) (setupLog m) (fullLog m) (setupChan m)
    (setHeight w (setWidth w (viewport m) (int (width - 20))) (int (height - 10))).

Definition withCursor (m : model Spinner Viewport Chan) (c : Z) : model Spinner Viewport Chan :=
  mkModel (config m) (spinner m) c (profiles m) (cpuTemp m) (gpuTemp m)
    (cpuRpm m) (gpuRpm m) (statusMsg m) (err m) (width m) (height m) (needsSetup m)
    (setupRunning m) (setupErr m) (setupLog m) (fullLog m) (setupChan m)
    (viewport m).

Definition withConfig (m : model Spinner Viewport Chan) (cfg : config.Config) : model Spinner Viewport Chan :=
  mkModel cfg (spinner m) (cursor m) (profiles m) (cpuTemp m) (gpuTemp m)
    (cpuRpm m) (gpuRpm m) (statusMsg m) (err m) (width m) (height m) (needsSetup m)
    (setupRunning m) (setupErr m) (setupLog m) (fullLog m) (setupChan m)
    (viewport m).

Definition withStatus (m : model Spinner Viewport Chan) (msg : string) : model Spinner Viewport Chan :=
  mkModel (config m) (spinner m) (cursor m) (profiles m) (cpuTemp m) (gpuTemp m)
    (cpuRpm m) (gpuRpm m) msg (err m) (width m) (height m) (needsSetup m)
    (setupRunning m) (setupErr m) (setupLog m) (fullLog m) (setupChan m)
    (viewport m).

Definition withSpinner (m : model Spinner Viewport Chan) (sp : Spinner) : model Spinner Viewport Chan :=
  mkModel (config m) sp (cursor m) (profiles m) (cpuTemp m) (gpuTemp m)
    (cpuRpm m) (gpuRpm m) (statusMsg m) (err m) (width m) (height m) (needsSetup m)
    (setupRunning m) (setupErr m) (setupLog m) (fullLog m) (setupChan m)
    (viewport m).

Definition withTemps (m : model Spinner Viewport Chan) (cpu gpu : Z) : model Spinner Viewport Chan :=
  mkModel (config m) (spinner m) (cursor m) (profiles m) cpu gpu
    (cpuRpm m) (gpuRpm m) (statusMsg m) (err m) (width m) (height m) (needsSetup m)
    (setupRunning m) (setupErr m) (setupLog m) (fullLog m) (setupChan m)
    (viewport m).

Definition withRpms (m : model Spinner Viewport Chan) (cpu gpu : Z) : model Spinner Viewport Chan :=
  mkModel (config m) (spinner m) (cursor m) (profiles m) (cpuTemp m) (gpuTemp m)
    cpu gpu (statusMsg m) (err m) (width m) (height m) (needsSetup m)
    (setupRunning m) (setupErr m) (setupLog m) (fullLog m) (setupChan m)
    (viewport m).

Definition withErr (m : model Spinner Viewport Chan) (e : option error) : model Spinner Viewport Chan :=
  mkModel (config m) (spinner m) (cursor m) (profiles m) (cpuTemp m) (gpuTemp m)
    (cpuRpm m) (gpuRpm m) (statusMsg m) e (width m) (height m) (needsSetup m)
    (setupRunning m) (setupErr m) (setupLog m) (fullLog m) (setupChan m)
    (viewport m).

(** The fields of the setup screen: [needsSetup], [setupRunning],
    [setupErr], [setupLog], [fullLog], [setupChan] and the viewport. *)
Definition withSetup (m : model Spinner Viewport Chan) (needs running : bool) (e : option error)
  (log full : string) (ch : option Chan) (vp : Viewport) : model Spinner Viewport Chan :=
  mkModel (config m) (spinner m) (cursor m) (profiles m) (cpuTemp m) (gpuTemp m)
    (cpuRpm m) (gpuRpm m) (statusMsg m) (err m) (width m) (height m) needs
    running e log full ch vp.

Definition isKey (key : string) (names : list string) : bool :=
  existsb (String.eqb key) names.

(** [InitialModel] (lines 124--143), for the spinner and the viewport that
    it makes. *)
Definition InitialModel (s : Spinner) (vp : Viewport) (cfg : config.Config)
  (needsSetup : bool) : model Spinner Viewport Chan :=
  mkModel cfg s (int (config.Profile cfg - 1))
    ["Auto"; "Basic"; "Advanced"; "Cooler Booster"]
    0 0 0 0 "" None 0 0 needsSetup false None "" "" None vp.

(** [Init] (lines 147--156), for the command [m.spinner.Tick]. *)
Definition Init (spinnerTick : SpinnerCmd) (m : model Spinner Viewport Chan) : Cmd Chan SpinnerCmd :=
  if needsSetup m then SpinnerCmdOf spinnerTick
  else Batch [SpinnerCmdOf spinnerTick; Tick].

(** [Update] (lines 161--287). *)
Definition Update (m : model Spinner Viewport Chan) (msg : Msg SpinnerTick)
  : M U (model Spinner Viewport Chan * Cmd Chan SpinnerCmd) :=
  match msg with
  | WindowSizeMsg width height => ret (withSize m width height, Batch [])
  | KeyMsg key =>
      if isKey key ["ctrl+c"; "q"] then ret (m, Quit)
      else if isKey key ["up"; "k"] then
        if needsSetup m then ret (m, CmdNil)
        else if (0 <? cursor m)%Z then ret (withCursor m (int (cursor m - 1)), Batch [])
        else ret (withCursor m (Z.of_nat (List.length (profiles m)) - 1), Batch [])
      else if isKey key ["down"; "j"] then
        if needsSetup m then ret (m, CmdNil)
        else if (cursor m <? Z.of_nat (List.length (profiles m)) - 1)%Z
        then ret (withCursor m (int (cursor m + 1)), Batch [])
        else ret (withCursor m 0, Batch [])
      else if isKey key ["enter"; " "] then
        if needsSetup m then
          if negb (setupRunning m) then
            let full := "Initializing setup..." ++ nl in
            ch <- makeChan w ;;
            ret (withSetup m (needsSetup m) true None "Initializing..." full (Some ch)
                   (SetContent w (viewport m) full),
                 Batch [RunSetup (Some ch); WaitForSetupLog (Some ch)])
          else ret (m, CmdNil)
        else
          let m := withConfig m (withProfile (config m) (int (cursor m + 1))) in
          applied <- attempt (ApplyProfile p (config m)) ;;
          match applied with
          | inl e => ret (withStatus m (highVoltage ++ " Error: " ++ e), Batch [])
          | inr _ =>
              name <- profileAt (profiles m) (cursor m) ;;
              let m := withStatus m (sparkles ++ " Applied: " ++ name) in
              saved <- attempt (Save p (config m)) ;;
              match saved with
              | inl e => ret (withStatus m (warning ++ " Saved failed: " ++ e), Batch [])
              | inr _ => ret (m, Batch [])
              end
          end
      else if isKey key ["R"] then
        if negb (needsSetup m)
        then ret (withSetup m true (setupRunning m) None (setupLog m) (fullLog m)
                    (setupChan m) (viewport m),
                  CmdNil)
        else ret (m, Batch [])
      else ret (m, Batch [])
  | setupLogMsg line =>
      let full := fullLog m ++ line ++ nl in
      ret (withSetup m (needsSetup m) (setupRunning m) (setupErr m) line full
             (setupChan m) (GotoBottom w (SetContent w (viewport m) full)),
           WaitForSetupLog (setupChan m))
  | setupFinishedMsg e =>
      match e with
      | Some _ =>
          ret (withSetup m (needsSetup m) false e (setupLog m) (fullLog m)
                 (setupChan m) (viewport m),
               Batch [])
      | None =>
          ret (withSetup m false false (setupErr m) (setupLog m) (fullLog m)
                 (setupChan m) (viewport m),
               Tick)
      end
  | SpinnerTickMsg t =>
      let r := spinnerUpdate w (spinner m) t in
      ret (withSpinner m (fst r), Batch [SpinnerCmdOf (snd r)])
  | tickMsg =>
      if needsSetup m then ret (m, CmdNil)
      else
        temps <- attempt (GetTemps p (config m)) ;;
        let m := match temps with
                 | inl e => withErr (withTemps m 0 0) (Some e)
                 | inr t => withTemps m (fst t) (snd t)
                 end in
        rpms <- attempt (GetRPMs p (config m)) ;;
        let m := match rpms with
                 | inl e => withErr (withRpms m 0 0) (Some e)
                 | inr r => withRpms m (fst r) (snd r)
                 end in
        ret (m, Batch [Tick])
  | OtherMsg => ret (m, Batch [])
  end.

End Ui.

End ui.

(** The program's wiring of [Update]: the fan package on a controller,
    and [config.Save]. *)
Definition fanPackages {D} (ctl : Controller D)
  (save : config.Config -> M (EcWorld D) unit) : ui.Packages (EcWorld D) :=
  ui.mkPackages (fan.ApplyProfile ctl) save (fan.GetTemps ctl) (fan.GetRPMs ctl).

(** Packages that answer with a panic, for runs that must not call them. *)
Definition noPackages {U} : ui.Packages U :=
  ui.mkPackages (fun _ => panic) (fun _ => panic) (fun _ => panic) (fun _ => panic).

(** A window for the simulated controller: the spinner counts its frames,
    the viewport keeps its size and its content, channels are numbered. *)
Definition simWidgets
  : ui.Widgets (EcWorld Registers) nat unit unit (Z * Z * string) nat :=
  ui.mkWidgets
    (fun frame _ => (S frame, tt))
    (fun vp width => (width, snd (fst vp), snd vp))
    (fun vp height => (fst (fst vp), height, snd vp))
    (fun vp content => (fst vp, content))
    (fun vp => vp)
    (ret 7%nat).

Definition simModel (cfg : config.Config) (needsSetup : bool)
  : ui.model nat (Z * Z * string) nat :=
  ui.InitialModel 0%nat (0%Z, 0%Z, ""%string) cfg needsSetup.

(* ================================================================== *)
(** ** Facts about the string functions *)

Section StringFacts.

Example TrimSpace_uname :
  strings.TrimSpace ("6.8.0-200.fc39.x86_64" ++ nl) = "6.8.0-200.fc39.x86_64".
Proof. reflexivity. Qed.

Example TrimSpace_parameter :
  strings.TrimSpace (" " ++ tab ++ "Y" ++ String "013"%char nl) = "Y"
  /\ strings.TrimSpace ("Y es" ++ nl) = "Y es".
Proof. split; reflexivity. Qed.

(** A no-break space (U+00A0) in front and an en quad (U+2000) behind are
    trimmed as well; a lone continuation byte is not. *)
Example TrimSpace_unicode :
  strings.TrimSpace
    (String (ascii_of_N 0xC2) (String (ascii_of_N 0xA0)
       ("1" ++ String (ascii_of_N 0xE2) (String (ascii_of_N 0x80)
                 (String (ascii_of_N 0x80) "")))))
  = "1"
  /\ strings.TrimSpace (String (ascii_of_N 0xA0) "1") = String (ascii_of_N 0xA0) "1".
Proof. split; reflexivity. Qed.

Example SplitN_release :
  strings.SplitN "6.8.0-200.fc39.x86_64" "-" 2 = ["6.8.0"; "200.fc39.x86_64"]
  /\ strings.SplitN "6.8.0-45-generic" "-" 2 = ["6.8.0"; "45-generic"]
  /\ strings.SplitN "6.8.0" "-" 2 = ["6.8.0"]
  /\ strings.Split "6.8.0-45-generic" "-" = ["6.8.0"; "45"; "generic"]
  /\ strings.Split "" "-" = [""].
Proof. repeat split; reflexivity. Qed.

Example Join_Clean :
  filepath.Join ["/tmp/ec_sys_build1234"; "rpmbuild"] = "/tmp/ec_sys_build1234/rpmbuild"
  /\ filepath.Clean "/a/b/../c//d/./" = "/a/c/d"
  /\ filepath.Clean "a/../../b" = "../b"
  /\ filepath.Clean "" = "."
  /\ filepath.Base "/usr/bin/sudo" = "sudo"
  /\ filepath.Base "/" = "/".
Proof. repeat split; reflexivity. Qed.

Example ScanLines_output :
  bufio.ScanLines ("a" ++ nl ++ "b" ++ String "013"%char nl ++ nl ++ "c")
  = ["a"; "b"; ""; "c"].
Proof. reflexivity. Qed.

Example suffix_of_source_package :
  strings.HasSuffix "kernel-6.8.0-200.fc39.src.rpm" ".src.rpm" = true
  /\ strings.HasSuffix "rpm" ".src.rpm" = false.
Proof. split; reflexivity. Qed.

Lemma prefix_iff (p s : string) :
  String.prefix p s = true <-> exists t, s = p ++ t.
Proof.
  revert s; induction p as [|c p IH]; intros [|d s]; simpl.
  - split; eauto.
  - split; eauto.
  - split; [discriminate | intros [t Ht]; discriminate].
  - destruct (ascii_dec c d) as [->|Hne].
    + rewrite IH. split; intros [t Ht]; exists t; congruence.
    + split; [discriminate | intros [t Ht]; congruence].
Qed.

Lemma Contains_iff (s sub : string) :
  strings.Contains s sub = true <-> exists pre post, s = pre ++ sub ++ post.
Proof.
  split.
  - induction s as [|c s IH]; cbn [strings.Contains]; intros H.
    + rewrite orb_false_r in H. apply prefix_iff in H as [t Ht].
      exists "", t. exact Ht.
    + apply orb_true_iff in H as [H|H].
      * apply prefix_iff in H as [t Ht]. exists "", t. exact Ht.
      * destruct (IH H) as (pre & post & ->).
        exists (String c pre), post. reflexivity.
  - intros (pre & post & ->).
    induction pre as [|c pre IH]; cbn [append strings.Contains].
    + assert (H : String.prefix sub (sub ++ post) = true)
        by (apply prefix_iff; eauto).
      destruct (sub ++ post); cbn [strings.Contains]; rewrite H; reflexivity.
    + rewrite IH. apply orb_true_r.
Qed.

Lemma Contains_tail (c : ascii) (s sub : string) :
  strings.Contains (String c s) sub = false -> strings.Contains s sub = false.
Proof. cbn [strings.Contains]. intros H. apply orb_false_iff in H. tauto. Qed.

Lemma Contains_head (c d : ascii) (s : string) :
  strings.Contains (String d s) (String c "") = false -> d <> c.
Proof.
  simpl. intros H Heq. subst d.
  destruct (ascii_dec c c) as [_|Hne]; [|congruence].
  destruct s; discriminate.
Qed.

(** Cutting at a one-byte separator that does not occur. *)
Lemma cut_absent (c : ascii) (s : string) :
  strings.Contains s (String c "") = false ->
  strings.cut s (String c "") = None.
Proof.
  induction s as [|d s IH]; intros H.
  - reflexivity.
  - pose proof (Contains_head _ _ _ H) as Hne.
    apply Contains_tail in H. specialize (IH H).
    cbn [strings.cut String.prefix].
    destruct (ascii_dec c d) as [->|_]; [congruence|].
    rewrite IH. reflexivity.
Qed.

(** Cutting at the first occurrence of a one-byte separator. *)
Lemma cut_first (c : ascii) (before after : string) :
  strings.Contains before (String c "") = false ->
  strings.cut (before ++ String c after) (String c "") = Some (before, after).
Proof.
  induction before as [|d s IH]; intros H.
  - cbn [append strings.cut String.prefix].
    destruct (ascii_dec c c) as [_|Hne]; [|congruence].
    destruct after; reflexivity.
  - pose proof (Contains_head _ _ _ H) as Hne.
    apply Contains_tail in H. specialize (IH H).
    cbn [append strings.cut String.prefix].
    destruct (ascii_dec c d) as [->|_]; [congruence|].
    rewrite IH. reflexivity.
Qed.

Lemma SplitN_2_absent (c : ascii) (s : string) :
  strings.Contains s (String c "") = false ->
  strings.SplitN s (String c "") 2 = [s].
Proof.
  intros H.
  change (strings.SplitN s (String c "") 2)
    with (strings.splitLoop 1 s (String c "")).
  cbn [strings.splitLoop]. rewrite (cut_absent _ _ H). reflexivity.
Qed.

Lemma SplitN_2_first (c : ascii) (before after : string) :
  strings.Contains before (String c "") = false ->
  strings.SplitN (before ++ String c after) (String c "") 2 = [before; after].
Proof.
  intros H.
  change (strings.SplitN (before ++ String c after) (String c "") 2)
    with (strings.splitLoop 1 (before ++ String c after) (String c "")).
  cbn [strings.splitLoop]. rewrite (cut_first _ _ _ H). reflexivity.
Qed.

End StringFacts.

(* ================================================================== *)
(** ** Reasoning about runs and their traces *)

Section Traces.

Context {W : Type} (os : OS W).

Local Open Scope go_scope.
Local Open Scope list_scope.

Lemma emits_intro0 {A} P (m : M W A) :
  (forall s, trace (snd (m s)) = trace s) -> emits P m.
Proof. intros H s. exists []. rewrite H, app_nil_r. auto. Qed.

Lemma emits_intro1 {A} P (m : M W A) (e : State W -> Event) :
  (forall s, trace (snd (m s)) = trace s ++ [e s]) ->
  (forall s, P (e s) = true) -> emits P m.
Proof.
  intros H HP s. exists [e s]. rewrite H. cbn. rewrite HP. auto.
Qed.

Lemma emits_ret {A} P (a : A) : emits P (ret (W:=W) a).
Proof. apply emits_intro0. reflexivity. Qed.

Lemma emits_throw {A} P e : emits P (throw (W:=W) (A:=A) e).
Proof. apply emits_intro0. reflexivity. Qed.

Lemma emits_panic {A} P : emits P (panic (W:=W) (A:=A)).
Proof. apply emits_intro0. reflexivity. Qed.

Lemma emits_bind {A B} P (m : M W A) (f : A -> M W B) :
  emits P m -> (forall a, emits P (f a)) -> emits P (bind m f).
Proof.
  intros Hm Hf s. unfold bind.
  destruct (Hm s) as (e1 & H1 & F1).
  destruct (m s) as [[a|e|] s1]; cbn [snd] in *.
  - destruct (Hf a s1) as (e2 & H2 & F2).
    exists (e1 ++ e2). rewrite H2, H1, app_assoc, forallb_app, F1, F2. auto.
  - exists e1. auto.
  - exists e1. auto.
Qed.

Lemma emits_defer {A} P (cleanup : M W unit) (body : M W A) :
  emits P body -> emits P cleanup -> emits P (defer cleanup body).
Proof.
  intros Hb Hc s. unfold defer.
  destruct (Hb s) as (e1 & H1 & F1).
  destruct (body s) as [r s1]; cbn [snd] in *.
  destruct (Hc s1) as (e2 & H2 & F2).
  destruct (cleanup s1) as [r2 s2]; cbn [snd] in *.
  exists (e1 ++ e2). rewrite H2, H1, app_assoc, forallb_app, F1, F2. auto.
Qed.

Lemma emits_wrapErr {A} P pre (m : M W A) :
  emits P m -> emits P (wrapErr pre m).
Proof.
  intros Hm s. unfold wrapErr. destruct (Hm s) as (e1 & H1 & F1).
  destruct (m s) as [[a|e|] s1]; exists e1; auto.
Qed.

Lemma emits_ignoreErr P (m : M W unit) :
  emits P m -> emits P (ignoreErr m).
Proof.
  intros Hm s. unfold ignoreErr. destruct (Hm s) as (e1 & H1 & F1).
  destruct (m s) as [[a|e|] s1]; exists e1; auto.
Qed.

Lemma emits_check P err : emits P (check (W:=W) err).
Proof. destruct err; [apply emits_throw | apply emits_ret]. Qed.

Lemma emits_forEach {A} P (l : list A) (body : A -> M W unit) :
  (forall a, emits P (body a)) -> emits P (forEach l body).
Proof.
  intros Hb. induction l as [|a l IH]; cbn [forEach].
  - apply emits_ret.
  - apply emits_bind; auto.
Qed.

Lemma emits_Geteuid P : emits P (Geteuid os).
Proof. apply emits_intro0. reflexivity. Qed.

Lemma emits_Environ P : emits P (Environ os).
Proof. apply emits_intro0. reflexivity. Qed.

Lemma emits_bind_Command {B} P name arg (f : Cmd -> M W B) :
  (forall p, emits P (f (mkCmd p (name :: arg) "" None))) ->
  emits P (bind (Command os name arg) f).
Proof. intros H s. unfold bind, Command. apply H. Qed.

Lemma emits_log P msg : benign P -> emits P (log (W:=W) msg).
Proof.
  intros HP. apply (emits_intro1 P _ (fun _ => EvLog msg)); [reflexivity|].
  intros _. apply (HP (EvLog msg)).
Qed.

Lemma emits_LookPath P file : benign P -> emits P (LookPath os file).
Proof.
  intros HP. apply (emits_intro1 P _ (fun _ => EvLookPath file)); [reflexivity|].
  intros _. apply (HP (EvLookPath file)).
Qed.

Lemma emits_ReadFile P path : benign P -> emits P (ReadFile os path).
Proof.
  intros HP. apply (emits_intro1 P _ (fun _ => EvReadFile path)); [reflexivity|].
  intros _. apply (HP (EvReadFile path)).
Qed.

Lemma emits_Stat P path : benign P -> emits P (Stat os path).
Proof.
  intros HP. apply (emits_intro1 P _ (fun _ => EvStat path)); [reflexivity|].
  intros _. apply (HP (EvStat path)).
Qed.

Lemma emits_ReadDir P path : benign P -> emits P (ReadDir os path).
Proof.
  intros HP. apply (emits_intro1 P _ (fun _ => EvReadDir path)); [reflexivity|].
  intros _. apply (HP (EvReadDir path)).
Qed.

Lemma emits_OpenAppend P path : benign P -> emits P (OpenAppend os path).
Proof.
  intros HP. apply (emits_intro1 P _ (fun _ => EvOpenAppend path)); [reflexivity|].
  intros _. apply (HP (EvOpenAppend path)).
Qed.

Lemma emits_WriteFile P path data : benign P -> emits P (WriteFile os path data).
Proof.
  intros HP. apply (emits_intro1 P _ (fun _ => EvWriteFile path data)).
  - intros s. unfold WriteFile. destruct (os_writeFile os path data (world s)). reflexivity.
  - intros _. apply (HP (EvWriteFile path data)).
Qed.

Lemma emits_WriteString P path data :
  benign P -> emits P (WriteString os path data).
Proof.
  intros HP. apply (emits_intro1 P _ (fun _ => EvWriteString path data)).
  - intros s. unfold WriteString. destruct (os_writeString os path data (world s)). reflexivity.
  - intros _. apply (HP (EvWriteString path data)).
Qed.

Lemma emits_MkdirAll P path : benign P -> emits P (MkdirAll os path).
Proof.
  intros HP. apply (emits_intro1 P _ (fun _ => EvMkdirAll path)).
  - intros s. unfold MkdirAll. destruct (os_mkdirAll os path (world s)). reflexivity.
  - intros _. apply (HP (EvMkdirAll path)).
Qed.

Lemma emits_RemoveAll P path : benign P -> emits P (RemoveAll os path).
Proof.
  intros HP. apply (emits_intro1 P _ (fun _ => EvRemoveAll path)); [reflexivity|].
  intros _. apply (HP (EvRemoveAll path)).
Qed.

Lemma emits_MkdirTemp P dir pattern :
  (forall r, P (EvMkdirTemp dir pattern r) = true) ->
  emits P (MkdirTemp os dir pattern).
Proof.
  intros HP. apply (emits_intro1 P _
    (fun s => EvMkdirTemp dir pattern (fst (os_mkdirTemp os dir pattern (world s))))).
  - intros s. unfold MkdirTemp. destruct (os_mkdirTemp os dir pattern (world s)). reflexivity.
  - intros s. apply HP.
Qed.

Lemma emits_start P c : P (EvExec c) = true -> emits P (start os c).
Proof.
  intros HP. apply (emits_intro1 P _ (fun _ => EvExec c)); [|auto].
  intros s. unfold start. destruct (os_exec os c (world s)). reflexivity.
Qed.

Lemma emits_Run P c : P (EvExec c) = true -> emits P (Run os c).
Proof.
  intros HP. unfold Run. apply emits_bind; [apply emits_start; auto|].
  intros r. apply emits_ret.
Qed.

Lemma emits_Output P c : P (EvExec c) = true -> emits P (Output os c).
Proof.
  intros HP. unfold Output. apply emits_bind; [apply emits_start; auto|].
  intros r. apply emits_ret.
Qed.

Lemma emits_runCmd P c :
  benign P -> P (EvExec c) = true -> emits P (runCmd os c).
Proof.
  intros HP Hc. unfold runCmd.
  apply emits_bind; [apply emits_log; auto|]. intros _.
  apply emits_bind; [apply emits_start; auto|]. intros r.
  destruct (startErr r); [apply emits_throw|].
  apply emits_bind.
  - apply emits_forEach. intros l. apply emits_log; auto.
  - intros _. destruct (waitErr r); [apply emits_throw | apply emits_ret].
Qed.

(** The walk adds what its walk function adds. *)
Lemma emits_walk {Acc} P
  (fn : Acc -> string -> option FileInfo -> bool -> M W (Acc * option WalkErr)) :
  (forall acc path info err, emits P (fn acc path info err)) ->
  (forall node path name acc, emits P (walk fn path name node acc)) /\
  (forall entries path acc, emits P (walkEntries fn path entries acc)).
Proof.
  intros Hfn. apply WalkNode_WalkEntries_ind.
  - intros path name acc. apply Hfn.
  - intros path name acc. apply Hfn.
  - intros readErr entries IH path name acc. cbn [walk].
    apply emits_bind; [apply Hfn|]. intros r.
    destruct (snd r); [apply emits_ret|].
    destruct readErr; [apply emits_ret | apply IH].
  - intros path acc. apply emits_ret.
  - intros name node IHn rest IHr path acc. cbn [walkEntries].
    apply emits_bind; [apply IHn|]. intros r.
    destruct (snd r) as [e|]; [|apply IHr].
    destruct (isSkipDir e && negb (isFile node)); [apply IHr | apply emits_ret].
Qed.

Lemma emits_Walk {Acc} P
  (fn : Acc -> string -> option FileInfo -> bool -> M W (Acc * option WalkErr))
  root acc :
  benign P ->
  (forall acc path info err, emits P (fn acc path info err)) ->
  emits P (Walk os fn root acc).
Proof.
  intros HP Hfn s. unfold Walk.
  destruct (emits_walk P fn Hfn) as [Hw _].
  assert (Hb : emits P
    (bind (walk fn root (filepath.Base root) (os_walkTree os root (world s)) acc)
       (fun r => ret (fst r, match snd r with
                             | Some SkipDir | Some SkipAll => None
                             | other => other
                             end)))).
  { apply emits_bind; [apply Hw|]. intros r. apply emits_ret. }
  destruct (Hb (emit (EvWalk root) s)) as (evs & H & F).
  exists (EvWalk root :: evs). rewrite H. cbn [emit trace forallb].
  rewrite <- app_assoc. cbn [app]. rewrite (HP (EvWalk root)), F. auto.
Qed.

End Traces.

Lemma benign_notDepmod : benign notDepmod.
Proof. intros []; exact I || reflexivity. Qed.

Lemma benign_notCurl : benign notCurl.
Proof. intros []; exact I || reflexivity. Qed.

Lemma benign_notMkdirTemp : benign notMkdirTemp.
Proof. intros []; exact I || reflexivity. Qed.

Create HintDb emits.

#[export] Hint Resolve benign_notDepmod benign_notCurl benign_notMkdirTemp : emits.

Ltac emits_side := solve [ eauto with emits | intros; cbn; reflexivity ].

Ltac emits_step :=
  lazymatch goal with
  | |- emits _ (bind (Command _ _ _) _) => apply emits_bind_Command; intros ?
  | |- emits _ (bind _ _) => apply emits_bind; [ | intros ? ]
  | |- emits _ (ret _) => apply emits_ret
  | |- emits _ (throw _) => apply emits_throw
  | |- emits _ panic => apply emits_panic
  | |- emits _ (check _) => apply emits_check
  | |- emits _ (defer _ _) => apply emits_defer
  | |- emits _ (wrapErr _ _) => apply emits_wrapErr
  | |- emits _ (ignoreErr _) => apply emits_ignoreErr
  | |- emits _ (forEach _ _) => apply emits_forEach; intros ?
  | |- emits _ (log _) => apply emits_log; emits_side
  | |- emits _ (Geteuid _) => apply emits_Geteuid
  | |- emits _ (Environ _) => apply emits_Environ
  | |- emits _ (LookPath _ _) => apply emits_LookPath; emits_side
  | |- emits _ (ReadFile _ _) => apply emits_ReadFile; emits_side
  | |- emits _ (WriteFile _ _ _) => apply emits_WriteFile; emits_side
  | |- emits _ (OpenAppend _ _) => apply emits_OpenAppend; emits_side
  | |- emits _ (WriteString _ _ _) => apply emits_WriteString; emits_side
  | |- emits _ (Stat _ _) => apply emits_Stat; emits_side
  | |- emits _ (ReadDir _ _) => apply emits_ReadDir; emits_side
  | |- emits _ (MkdirAll _ _) => apply emits_MkdirAll; emits_side
  | |- emits _ (RemoveAll _ _) => apply emits_RemoveAll; emits_side
  | |- emits _ (MkdirTemp _ _ _) => apply emits_MkdirTemp; emits_side
  | |- emits _ (Run _ _) => apply emits_Run; emits_side
  | |- emits _ (Output _ _) => apply emits_Output; emits_side
  | |- emits _ (runCmd _ _) => apply emits_runCmd; emits_side
  | |- emits _ (Walk _ _ _ _) => apply emits_Walk; [ emits_side | intros ? ? ? ? ]
  | |- emits _ (match ?x with _ => _ end) => destruct x
  | |- emits _ (unameR _) => unfold unameR
  | |- emits _ (unameM _) => unfold unameM
  | |- emits _ (run _ _ _) => unfold run
  | |- emits _ (runInDir _ _ _ _) => unfold runInDir
  | |- emits _ (isModuleLoaded _ _) => unfold isModuleLoaded
  | |- emits _ (checkWriteSupport _) => unfold checkWriteSupport
  | |- emits _ (probe _) => unfold probe
  | |- emits _ (replaceInFile _ _ _ _) => unfold replaceInFile
  | |- emits _ (findBuildDir _ _ _ _ _) => unfold findBuildDir
  | |- emits _ (installDeps _) => unfold installDeps
  | |- emits _ (downloadSource _ _) => unfold downloadSource
  | |- emits _ (findSrcRpm _ _) => unfold findSrcRpm
  | |- emits _ (locateBuildDir _ _) => unfold locateBuildDir
  | |- emits _ (patchMakefile _ _) => unfold patchMakefile
  | |- emits _ (configureKernel _ _) => unfold configureKernel
  | |- emits _ (prepareBuild _ _) => unfold prepareBuild
  | |- emits _ (buildModule _ _) => unfold buildModule
  | |- emits _ (prepareSource _ _) => unfold prepareSource
  end.

Ltac emits_auto := cbv zeta; repeat (emits_step; cbv zeta).

Section Filters.

Context {W : Type} (os : OS W).

(** Steps 3 to 12 of the Fedora branch never refresh the dependency
    index. *)
Lemma prepareSource_notDepmod workDir :
  emits notDepmod (prepareSource os workDir).
Proof. emits_auto. Qed.

End Filters.

(** ** Running the code step by step *)

Section Steps.

Context {W : Type} (os : OS W).

Local Open Scope list_scope.

Lemma bind_ret {A B} (a : A) (k : A -> M W B) s : bind (ret a) k s = k a s.
Proof. reflexivity. Qed.

Lemma bind_throw {A B} e (k : A -> M W B) s :
  bind (throw e) k s = (Fail e, s).
Proof. reflexivity. Qed.

Lemma bind_bind {A B C} (m : M W A) (f : A -> M W B) (g : B -> M W C) s :
  bind (bind m f) g s = bind m (fun a => bind (f a) g) s.
Proof. unfold bind. destruct (m s) as [[a|e|] s1]; reflexivity. Qed.

Lemma bind_Done {A B} (m : M W A) (k : A -> M W B) s a s1 :
  m s = (Done a, s1) -> bind m k s = k a s1.
Proof. intros H. unfold bind. rewrite H. reflexivity. Qed.

Lemma bind_Done_inv {A B} (m : M W A) (k : A -> M W B) s b s2 :
  bind m k s = (Done b, s2) ->
  exists a s1, m s = (Done a, s1) /\ k a s1 = (Done b, s2).
Proof.
  unfold bind. destruct (m s) as [[a|e|] s1]; intros H; try discriminate.
  exists a, s1. auto.
Qed.

Lemma bind_check {B} err (k : unit -> M W B) s :
  bind (check err) k s
  = match err with
    | Some e => (Fail e, s)
    | None => k tt s
    end.
Proof. destruct err; reflexivity. Qed.

Lemma bind_log {B} msg (k : unit -> M W B) s :
  bind (log msg) k s = k tt (mkState (world s) (trace s ++ [EvLog msg])).
Proof. reflexivity. Qed.

Lemma bind_Geteuid {B} (k : Z -> M W B) s :
  bind (Geteuid os) k s = k (os_geteuid os (world s)) s.
Proof. reflexivity. Qed.

Lemma bind_LookPath {B} file (k : option string -> M W B) s :
  bind (LookPath os file) k s
  = k (os_lookPath os file (world s))
      (mkState (world s) (trace s ++ [EvLookPath file])).
Proof. reflexivity. Qed.

Lemma bind_Command {B} name arg (k : Cmd -> M W B) s :
  bind (Command os name arg) k s = k (commandAt os name arg (world s)) s.
Proof. reflexivity. Qed.

Lemma bind_ReadFile {B} path (k : option string -> M W B) s :
  bind (ReadFile os path) k s
  = k (os_readFile os path (world s))
      (mkState (world s) (trace s ++ [EvReadFile path])).
Proof. reflexivity. Qed.

Lemma bind_Stat {B} path (k : StatResult -> M W B) s :
  bind (Stat os path) k s
  = k (os_stat os path (world s))
      (mkState (world s) (trace s ++ [EvStat path])).
Proof. reflexivity. Qed.

Lemma bind_start {B} c (k : ExecResult -> M W B) s :
  bind (start os c) k s
  = k (fst (os_exec os c (world s)))
      (mkState (snd (os_exec os c (world s))) (trace s ++ [EvExec c])).
Proof.
  unfold bind, start. destruct (os_exec os c (world s)). reflexivity.
Qed.

Lemma bind_Run {B} c (k : option error -> M W B) s :
  bind (Run os c) k s
  = k (match startErr (fst (os_exec os c (world s))) with
       | Some e => Some e
       | None => waitErr (fst (os_exec os c (world s)))
       end)
      (mkState (snd (os_exec os c (world s))) (trace s ++ [EvExec c])).
Proof. unfold Run. rewrite bind_bind, bind_start. reflexivity. Qed.

Lemma bind_MkdirTemp {B} dir pattern (k : error + string -> M W B) s :
  bind (MkdirTemp os dir pattern) k s
  = k (fst (os_mkdirTemp os dir pattern (world s)))
      (mkState (snd (os_mkdirTemp os dir pattern (world s)))
         (trace s ++ [EvMkdirTemp dir pattern
                        (fst (os_mkdirTemp os dir pattern (world s)))])).
Proof.
  unfold bind, MkdirTemp. destruct (os_mkdirTemp os dir pattern (world s)).
  reflexivity.
Qed.

Lemma bind_unameR {B} (k : string -> M W B) s :
  bind (unameR os) k s
  = k (releaseOf os (world s))
      (mkState (afterUname os (world s))
         (trace s ++ [EvExec (commandAt os "uname" ["-r"] (world s))])).
Proof.
  unfold unameR, Output, bind, Command, start, ret, releaseOf, afterUname,
    stdoutOf, commandAt.
  destruct (os_exec os _ (world s)) as [r w1]. cbn [fst snd].
  destruct (startErr r); reflexivity.
Qed.

Lemma forEach_log (lines : list string) (s : State W) :
  forEach lines log s = (Done tt, mkState (world s) (trace s ++ map EvLog lines)).
Proof.
  revert s. induction lines as [|l lines IH]; intros s; cbn [forEach map].
  - rewrite app_nil_r. destruct s; reflexivity.
  - rewrite bind_log, IH. cbn [world trace].
    rewrite <- app_assoc. reflexivity.
Qed.

Lemma runCmd_eq c s : runCmd os c s = ranCmd os c s.
Proof.
  unfold runCmd, ranCmd. rewrite bind_log, bind_start. cbn [world trace].
  destruct (startErr _).
  - unfold throw. rewrite <- app_assoc. reflexivity.
  - unfold bind at 1. rewrite forEach_log. cbn [world trace].
    rewrite <- !app_assoc. cbn [app].
    destruct (waitErr _); reflexivity.
Qed.

End Steps.

Ltac go_step :=
  first
    [ rewrite bind_bind | rewrite bind_ret | rewrite bind_throw
    | rewrite bind_log | rewrite bind_Geteuid | rewrite bind_LookPath
    | rewrite bind_Command | rewrite bind_ReadFile | rewrite bind_Stat
    | rewrite bind_unameR | rewrite bind_Run | rewrite bind_MkdirTemp
    | rewrite bind_check | rewrite bind_start ];
  cbn [world trace].

Ltac go := repeat go_step.

Section EarlyExits.

Context {W : Type} (os : OS W).

Local Open Scope list_scope.

Lemma RunFullSetup_not_root (s : State W) :
  os_geteuid os (world s) <> 0%Z ->
  RunFullSetup os s
  = (Fail "setup requires root privileges (run with sudo)", s).
Proof.
  intros Hne. unfold RunFullSetup. go.
  apply Z.eqb_neq in Hne. rewrite Hne. reflexivity.
Qed.

(** C9.  A caller whose effective user id is not 0 gets the
    root-privileges error at once: the run leaves no event at all (no
    progress line, no look-up, no command, no directory) and the world
    is the one before the call. *)
Theorem RunFullSetup_requires_root (s : State W) :
  os_geteuid os (world s) <> 0%Z ->
  RunFullSetup os s
  = (Fail "setup requires root privileges (run with sudo)", s).
Proof.
  intros Hne. unfold RunFullSetup. rewrite bind_Geteuid.
  destruct (Z.eqb_spec (os_geteuid os (world s)) 0) as [H0|_]; [contradiction|].
  reflexivity.
Qed.

(** C8.  When neither "dnf" nor "apt-get" resolves on the search path,
    the detection ([installDeps]) looks the two names up, "dnf" first, and
    returns the unsupported-platform error.  A run of the pipeline then
    ends without any temporary directory having been asked for and with
    the world untouched; for a root caller its result is that error, and
    all the run did was to log two lines and to look the two names up. *)
Theorem RunFullSetup_unsupported (s : State W) :
  os_lookPath os "dnf" (world s) = None ->
  os_lookPath os "apt-get" (world s) = None ->
  installDeps os s
  = (Fail "could not find a supported package manager (dnf or apt)",
     mkState (world s) (trace s ++ [EvLookPath "dnf"; EvLookPath "apt-get"]))
  /\ (exists evs,
      trace (snd (RunFullSetup os s)) = trace s ++ evs
      /\ forallb notMkdirTemp evs = true)
  /\ world (snd (RunFullSetup os s)) = world s
  /\ (os_geteuid os (world s) = 0%Z ->
      RunFullSetup os s
      = (Fail "could not find a supported package manager (dnf or apt)",
         mkState (world s)
           (trace s ++ [EvLog "Starting automated build of ec_sys module...";
                        EvLog "1/13 Installing build tools...";
                        EvLookPath "dnf"; EvLookPath "apt-get"]))).
Proof.
  intros Hdnf Hapt.
  assert (Hrun : os_geteuid os (world s) = 0%Z ->
    RunFullSetup os s
    = (Fail "could not find a supported package manager (dnf or apt)",
       mkState (world s)
         (trace s ++ [EvLog "Starting automated build of ec_sys module...";
                      EvLog "1/13 Installing build tools...";
                      EvLookPath "dnf"; EvLookPath "apt-get"]))).
  { intros H0. unfold RunFullSetup, installDeps. go.
    rewrite H0. cbn [Z.eqb negb]. go. rewrite Hdnf. go. rewrite Hapt.
    unfold throw. rewrite <- !app_assoc. reflexivity. }
  split.
  { unfold installDeps. go. rewrite Hdnf. go. rewrite Hapt.
    unfold throw. rewrite <- !app_assoc. reflexivity. }
  destruct (Z.eq_dec (os_geteuid os (world s)) 0) as [H0|Hne].
  - rewrite (Hrun H0). cbn [snd trace world]. repeat split; auto.
    eexists. split; [reflexivity|reflexivity].
  - rewrite (RunFullSetup_not_root s Hne). cbn [snd].
    repeat split; [|congruence].
    exists []. rewrite app_nil_r. auto.
Qed.

End EarlyExits.

Section Probe.

Context {W : Type} (os : OS W).

Local Open Scope list_scope.

Lemma isModuleLoaded_eq name (s : State W) :
  isModuleLoaded os name s
  = (Done (moduleListed os name (world s)),
     mkState (world s) (trace s ++ [EvReadFile "/proc/modules"])).
Proof.
  unfold isModuleLoaded, moduleListed. go.
  destruct (os_readFile os "/proc/modules" (world s)); reflexivity.
Qed.

Lemma checkWriteSupport_eq (s : State W) :
  checkWriteSupport os s
  = (Done (writeSupportOn os (world s)),
     mkState (world s)
       (trace s ++ [EvReadFile "/sys/module/ec_sys/parameters/write_support"])).
Proof.
  unfold checkWriteSupport, writeSupportOn. go.
  destruct (os_readFile os _ (world s)); reflexivity.
Qed.

Lemma probe_eq (s : State W) :
  probe os s
  = (Done (moduleListed os "ec_sys" (world s) && writeSupportOn os (world s)),
     mkState (world s)
       (trace s ++ EvReadFile "/proc/modules"
          :: if moduleListed os "ec_sys" (world s)
             then [EvReadFile "/sys/module/ec_sys/parameters/write_support"]
             else [])).
Proof.
  unfold probe. rewrite (bind_Done _ _ _ _ _ (isModuleLoaded_eq _ s)).
  destruct (moduleListed os "ec_sys" (world s)); cbn [andb].
  - rewrite checkWriteSupport_eq. cbn [world trace].
    rewrite <- app_assoc. reflexivity.
  - reflexivity.
Qed.

Lemma moduleListed_iff name w :
  moduleListed os name w = true <->
  exists pre post,
    os_readFile os "/proc/modules" w = Some (pre ++ name ++ post)%string.
Proof.
  unfold moduleListed. destruct (os_readFile os "/proc/modules" w) as [c|].
  - rewrite Contains_iff. split; intros (pre & post & H); exists pre, post; congruence.
  - split; [discriminate | intros (pre & post & H); discriminate].
Qed.



End Probe.

(** C10.  [isModuleLoaded] reads the whole list and answers whether the
    name occurs anywhere in it; so "ec_sys" counts as loaded on a list where
    it is only part of another module's name and of a list of users, and
    no entry is named "ec_sys". *)
Theorem isModuleLoaded_substring :
  (forall W (os : OS W) name (s : State W),
      exists loaded,
        isModuleLoaded os name s
        = (Done loaded, mkState (world s) (trace s ++ [EvReadFile "/proc/modules"])%list)
        /\ (loaded = true <->
            exists pre post,
              os_readFile os "/proc/modules" (world s) = Some (pre ++ name ++ post)))
  /\ namedInList otherModules "ec_sys" = false
  /\ (forall W (os : OS W) (s : State W),
         os_readFile os "/proc/modules" (world s) = Some otherModules ->
         fst (isModuleLoaded os "ec_sys" s) = Done true).
Proof.
  split; [|split].
  - intros W os name s. eexists. split; [apply isModuleLoaded_eq|].
    apply moduleListed_iff.
  - vm_compute. reflexivity.
  - intros W os s H. rewrite isModuleLoaded_eq. unfold moduleListed.
    rewrite H. vm_compute. reflexivity.
Qed.

Section VersionPatch.

Context {W : Type} (os : OS W).

Local Open Scope list_scope.

Lemma bind_WriteFile {B} path data (k : option error -> M W B) s :
  bind (WriteFile os path data) k s
  = k (fst (os_writeFile os path data (world s)))
      (mkState (snd (os_writeFile os path data (world s)))
         (trace s ++ [EvWriteFile path data])).
Proof.
  unfold bind, WriteFile. destruct (os_writeFile os path data (world s)).
  reflexivity.
Qed.

(** [replaceInFile] reads the file and, when that works, writes it back
    with the first "EXTRAVERSION =" line replaced; it reports nothing. *)
Lemma replaceInFile_eq path pattern replacement (s : State W) :
  replaceInFile os path pattern replacement s
  = (Done tt,
     match os_readFile os path (world s) with
     | None => mkState (world s) (trace s ++ [EvReadFile path])
     | Some content =>
         let data :=
           strings.Join (replaceFirst (strings.Split content nl) replacement) nl in
         mkState (snd (os_writeFile os path data (world s)))
                 (trace s ++ [EvReadFile path; EvWriteFile path data])
     end).
Proof.
  unfold replaceInFile. go.
  destruct (os_readFile os path (world s)) as [content|]; [|reflexivity].
  cbv zeta. rewrite bind_WriteFile. cbn [world trace].
  rewrite <- app_assoc. reflexivity.
Qed.

Lemma replaceFirst_spec before line after replacement :
  forallb (fun l => negb (strings.HasPrefix l "EXTRAVERSION =")) before = true ->
  strings.HasPrefix line "EXTRAVERSION =" = true ->
  replaceFirst (before ++ line :: after) replacement
  = before ++ replacement :: after.
Proof.
  intros Hb Hl. induction before as [|l before IH]; cbn [app replaceFirst].
  - rewrite Hl. reflexivity.
  - cbn [forallb] in Hb. apply andb_true_iff in Hb as [Hl' Hb].
    apply negb_true_iff in Hl'. rewrite Hl', (IH Hb). reflexivity.
Qed.

(** C1.  Step 9 on a release "<base>-<suffix>", [base] free of "-":
    the line handed to [replaceInFile] for the Makefile of the build
    directory is exactly "EXTRAVERSION = -<suffix>".  On a release
    without "-" the step returns the version-format error, and steps 9
    to 13 together have done nothing but announce step 9 and ask for the
    release. *)
Theorem patchMakefile_extraversion (kernelBuildDir : string) (s : State W) :
  let s1 :=
    mkState (afterUname os (world s))
      (trace s ++ [EvLog "9/13 Patching Makefile...";
                   EvExec (commandAt os "uname" ["-r"] (world s))]) in
  (forall base suffix,
      strings.Contains base "-" = false ->
      releaseOf os (world s) = (base ++ "-" ++ suffix)%string ->
      patchMakefile os kernelBuildDir s
      = replaceInFile os (filepath.Join [kernelBuildDir; "Makefile"])
          "^EXTRAVERSION =.*" ("EXTRAVERSION = -" ++ suffix)%string s1)
  /\ (strings.Contains (releaseOf os (world s)) "-" = false ->
      patchMakefile os kernelBuildDir s
      = (Fail ("unexpected kernel version format: " ++ releaseOf os (world s))%string, s1)
      /\ patchBuildInstall os kernelBuildDir s
         = (Fail ("unexpected kernel version format: " ++ releaseOf os (world s))%string, s1)).
Proof.
  cbv zeta.
  assert (Hstep : forall k : string -> M W unit,
    bind (log "9/13 Patching Makefile...") (fun _ => bind (unameR os) k) s
    = k (releaseOf os (world s))
        (mkState (afterUname os (world s))
           (trace s ++ [EvLog "9/13 Patching Makefile...";
                        EvExec (commandAt os "uname" ["-r"] (world s))]))).
  { intros k. go. rewrite <- app_assoc. reflexivity. }
  split.
  - intros base suffix Hbase Hrel. unfold patchMakefile. rewrite Hstep, Hrel.
    cbv zeta. change (base ++ "-" ++ suffix)%string with (base ++ String "-" suffix)%string.
    rewrite (SplitN_2_first _ _ _ Hbase). reflexivity.
  - intros Hnone.
    assert (Hp : patchMakefile os kernelBuildDir s
      = (Fail ("unexpected kernel version format: " ++ releaseOf os (world s))%string,
         mkState (afterUname os (world s))
           (trace s ++ [EvLog "9/13 Patching Makefile...";
                        EvExec (commandAt os "uname" ["-r"] (world s))]))).
    { unfold patchMakefile. rewrite Hstep. cbv zeta.
      rewrite (SplitN_2_absent _ _ Hnone). reflexivity. }
    split; [exact Hp|].
    unfold patchBuildInstall, bind at 1. rewrite Hp. reflexivity.
Qed.

End VersionPatch.

Section Activation.

Context {W : Type} (os : OS W).

Local Open Scope list_scope.

Lemma bind_isModuleLoaded {B} name (k : bool -> M W B) s :
  bind (isModuleLoaded os name) k s
  = k (moduleListed os name (world s))
      (mkState (world s) (trace s ++ [EvReadFile modulesFile])).
Proof. apply bind_Done, isModuleLoaded_eq. Qed.

Lemma bind_checkWriteSupport {B} (k : bool -> M W B) s :
  bind (checkWriteSupport os) k s
  = k (writeSupportOn os (world s))
      (mkState (world s) (trace s ++ [EvReadFile writeSupportFile])).
Proof. apply bind_Done, checkWriteSupport_eq. Qed.

Lemma bind_probe {B} (k : bool -> M W B) s :
  bind (probe os) k s
  = k (moduleListed os "ec_sys" (world s) && writeSupportOn os (world s))
      (mkState (world s)
         (trace s ++ EvReadFile modulesFile
            :: if moduleListed os "ec_sys" (world s)
               then [EvReadFile writeSupportFile]
               else [])).
Proof. apply bind_Done, probe_eq. Qed.

(** C4, as the code has it.  With the module listed and write support
    on, nothing is run.  With the module listed and write support off,
    the unload and the reload are run whatever their results, then only
    the write-support parameter is read again and decides.  With the
    module not listed, the load is run; when it fails the answer is
    NotReady with no further check, when it succeeds both checks of the
    probe are made again and decide. *)
Theorem CheckAndSetup_verdict (s : State W) :
  let w := world s in
  let unload := commandAt os "sudo" ["modprobe"; "-r"; "ec_sys"] w in
  let w1 := snd (os_exec os unload w) in
  let reload := commandAt os "sudo" ["modprobe"; "ec_sys"; "write_support=1"] w1 in
  let w2 := snd (os_exec os reload w1) in
  let load := commandAt os "sudo" ["modprobe"; "ec_sys"; "write_support=1"] w in
  let w3 := snd (os_exec os load w) in
  (moduleListed os "ec_sys" w = true -> writeSupportOn os w = true ->
   CheckAndSetup os s
   = (Done tt,
      mkState w (trace s ++ [EvReadFile modulesFile; EvReadFile writeSupportFile])))
  /\ (moduleListed os "ec_sys" w = true -> writeSupportOn os w = false ->
      CheckAndSetup os s
      = (if writeSupportOn os w2 then Done tt
         else Fail "ec_sys loaded but write support refused",
         mkState w2
           (trace s ++ [EvReadFile modulesFile; EvReadFile writeSupportFile;
                        EvExec unload; EvExec reload;
                        EvReadFile writeSupportFile])))
  /\ (moduleListed os "ec_sys" w = false ->
      CheckAndSetup os s
      = match runErr (fst (os_exec os load w)) with
        | Some _ =>
            (Fail "ec_sys module missing or failed to load",
             mkState w3 (trace s ++ [EvReadFile modulesFile; EvExec load]))
        | None =>
            (if moduleListed os "ec_sys" w3 && writeSupportOn os w3 then Done tt
             else Fail "ec_sys module missing or failed to load",
             mkState w3
               (trace s ++ [EvReadFile modulesFile; EvExec load;
                            EvReadFile modulesFile]
                  ++ if moduleListed os "ec_sys" w3
                     then [EvReadFile writeSupportFile]
                     else []))
        end).
Proof.
  cbv zeta. split; [|split].
  - intros Hl Hw. unfold CheckAndSetup.
    rewrite bind_isModuleLoaded, Hl. cbn [world trace].
    rewrite bind_checkWriteSupport. cbn [world trace]. rewrite Hw.
    unfold ret. rewrite <- app_assoc. reflexivity.
  - intros Hl Hw. unfold CheckAndSetup.
    rewrite bind_isModuleLoaded, Hl. cbn [world trace].
    rewrite bind_checkWriteSupport. cbn [world trace]. rewrite Hw.
    go. rewrite bind_checkWriteSupport. cbn [world trace].
    rewrite <- !app_assoc. cbn [app].
    match goal with |- context [if ?b then _ else _] => destruct b end;
      reflexivity.
  - intros Hl. unfold CheckAndSetup.
    rewrite bind_isModuleLoaded, Hl. cbn [world trace].
    go. fold (runErr (fst (os_exec os
      (commandAt os "sudo" ["modprobe"; "ec_sys"; "write_support=1"] (world s))
      (world s)))).
    destruct (runErr _).
    + unfold throw. rewrite <- !app_assoc. reflexivity.
    + rewrite bind_probe. cbn [world trace].
      rewrite <- !app_assoc. cbn [app].
      match goal with |- context [if ?b && ?c then _ else _] => destruct (b && c) end;
        reflexivity.
Qed.

End Activation.

Section Commands.

Context {W : Type} (os : OS W).

Local Open Scope list_scope.

Lemma commands_app l1 l2 : commands (l1 ++ l2) = commands l1 ++ commands l2.
Proof. apply flat_map_app. Qed.

Lemma commands_logs lines : commands (map EvLog lines) = [].
Proof. induction lines; auto. Qed.

Lemma ranCmd_outcome c (s : State W) :
  fst (ranCmd os c s) = cmdOutcome c (fst (os_exec os c (world s))).
Proof.
  unfold ranCmd, cmdOutcome. destruct (startErr _); [reflexivity|].
  destruct (waitErr _); reflexivity.
Qed.

Lemma ranCmd_world c (s : State W) :
  world (snd (ranCmd os c s)) = snd (os_exec os c (world s)).
Proof.
  unfold ranCmd. destruct (startErr _); [reflexivity|].
  destruct (waitErr _); reflexivity.
Qed.

Lemma ranCmd_trace c (s : State W) :
  exists evs,
    trace (snd (ranCmd os c s)) = trace s ++ evs /\ commands evs = [c].
Proof.
  unfold ranCmd. destruct (startErr _).
  - eexists. split; [reflexivity|reflexivity].
  - destruct (waitErr _); (eexists; split; [reflexivity|]);
      rewrite commands_app, commands_logs; reflexivity.
Qed.

Lemma ranCmd_commands c (s : State W) :
  commands (trace (snd (ranCmd os c s))) = commands (trace s) ++ [c].
Proof.
  destruct (ranCmd_trace c s) as (evs & -> & H).
  rewrite commands_app, H. reflexivity.
Qed.

Lemma snd_wrapErr {A} pre (m : M W A) s : snd (wrapErr pre m s) = snd (m s).
Proof. unfold wrapErr. destruct (m s) as [[a|e|] s1]; reflexivity. Qed.

Lemma fst_wrapErr {A} pre (m : M W A) s :
  fst (wrapErr pre m s)
  = match fst (m s) with
    | Fail e => Fail (pre ++ e)%string
    | other => other
    end.
Proof. unfold wrapErr. destruct (m s) as [[a|e|] s1]; reflexivity. Qed.

Lemma run_eq name arg (s : State W) :
  run os name arg s = ranCmd os (commandAt os name arg (world s)) s.
Proof. unfold run. rewrite bind_Command. apply runCmd_eq. Qed.

Lemma bind_ignoreErr_run {B} name arg (k : unit -> M W B) s :
  bind (ignoreErr (run os name arg)) k s
  = k tt (snd (ranCmd os (commandAt os name arg (world s)) s)).
Proof.
  unfold bind, ignoreErr. rewrite run_eq.
  pose proof (ranCmd_outcome (commandAt os name arg (world s)) s) as H.
  unfold cmdOutcome in H.
  destruct (ranCmd os _ s) as [[[]|e|] s1]; cbn [fst snd] in *; try reflexivity.
  destruct (startErr _); [discriminate|]. destruct (waitErr _); discriminate.
Qed.

(** C6, as the code has it.  With "dnf" on the search path, step 4
    enables the source repositories, asks for the release, and, whatever
    became of the first command, runs in the workspace
    "dnf download --source kernel-<release>" with the whole release
    string; the step fails exactly when this last command fails. *)
Theorem downloadSource_full_release (workDir : string) (s : State W) :
  let enable :=
    commandAt os "dnf" ["config-manager"; "--set-enabled";
                        "fedora-source"; "updates-source"] (world s) in
  let w1 := snd (os_exec os enable (world s)) in
  let w2 := afterUname os w1 in
  let download :=
    mkCmd (Path (commandAt os "dnf" [] w2))
          ["dnf"; "download"; "--source"; ("kernel-" ++ releaseOf os w1)%string]
          workDir None in
  os_lookPath os "dnf" (world s) <> None ->
  (exists evs,
      trace (snd (downloadSource os workDir s)) = trace s ++ evs
      /\ commands evs = [enable; commandAt os "uname" ["-r"] w1; download])
  /\ fst (downloadSource os workDir s)
     = match cmdOutcome download (fst (os_exec os download w2)) with
       | Fail e => Fail ("failed to download kernel source: " ++ e)%string
       | other => other
       end.
Proof.
  cbv zeta. intros Hdnf. unfold downloadSource. go.
  destruct (os_lookPath os "dnf" (world s)) as [p|] eqn:Hp; [clear Hdnf|congruence].
  rewrite bind_ignoreErr_run. cbn [world].
  set (enable := commandAt os "dnf" _ (world s)).
  set (s0 := mkState (world s) _).
  destruct (ranCmd_trace enable s0) as (evs1 & Ht1 & Hc1).
  pose proof (ranCmd_world enable s0) as Hw1. cbn [world] in Hw1.
  go. rewrite Hw1, Ht1. subst s0. cbn [world trace].
  set (w1 := snd (os_exec os enable (world s))).
  change (Path (commandAt os "dnf" ?a ?w)) with (Path (commandAt os "dnf" [] w)).
  cbn [Args Env commandAt].
  set (download := mkCmd _ _ workDir None).
  set (s2 := mkState _ _).
  split.
  - rewrite snd_wrapErr, runCmd_eq.
    destruct (ranCmd_trace download s2) as (evs2 & Ht2 & Hc2).
    rewrite Ht2. subst s2. cbn [trace].
    eexists. split.
    + rewrite <- !app_assoc. reflexivity.
    + rewrite !commands_app, Hc1, Hc2. reflexivity.
  - rewrite fst_wrapErr, runCmd_eq, ranCmd_outcome. subst s2. cbn [world].
    reflexivity.
Qed.

End Commands.

Section MissingHeaders.

Context {W : Type} (os : OS W).

Local Open Scope list_scope.

(** The Ubuntu strategy when, at the moment of its check (line 283), the
    header directory does not exist: the workspace is made, the release
    asked for, the directory checked, the release asked for again for
    the message, and the workspace removed. *)
Lemma runFullSetupUbuntu_stops (s : State W) (workDir : string) :
  let w1 := snd (os_mkdirTemp os "" "ec_sys_ubuntu" (world s)) in
  let w2 := afterUname os w1 in
  fst (os_mkdirTemp os "" "ec_sys_ubuntu" (world s)) = inr workDir ->
  os_stat os (headerDir (releaseOf os w1)) w2 = StatNotExist ->
  runFullSetupUbuntu os log (runCmd os) s
  = (Fail (headersMissing (releaseOf os w2)),
     mkState (os_removeAll os workDir (afterUname os w2))
       (trace s ++ [EvLog "Starting Ubuntu-specific build for ec_sys module...";
                    EvMkdirTemp "" "ec_sys_ubuntu" (inr workDir);
                    EvExec (commandAt os "uname" ["-r"] w1);
                    EvStat (headerDir (releaseOf os w1));
                    EvExec (commandAt os "uname" ["-r"] w2);
                    EvRemoveAll workDir])).
Proof.
  cbv zeta. intros Htmp Hst. unfold headerDir in *.
  unfold runFullSetupUbuntu. go. rewrite Htmp.
  unfold defer. go. rewrite Hst. go.
  unfold throw, RemoveAll, headersMissing. cbn [world trace].
  rewrite <- !app_assoc. reflexivity.
Qed.

Lemma installDeps_notCurl : emits notCurl (installDeps os).
Proof. emits_auto. Qed.

Lemma run_Done name arg (s s1 : State W) :
  run os name arg s = (Done tt, s1) ->
  world s1 = snd (os_exec os (commandAt os name arg (world s)) (world s))
  /\ exists evs,
      trace s1 = trace s ++ evs
      /\ commands evs = [commandAt os name arg (world s)].
Proof.
  rewrite run_eq. intros H.
  pose proof (ranCmd_world os (commandAt os name arg (world s)) s) as Hw.
  destruct (ranCmd_trace os (commandAt os name arg (world s)) s) as (evs & Ht & Hc).
  rewrite H in Hw, Ht. cbn [snd] in Hw, Ht. eauto.
Qed.

(** Step 1 on a host without "dnf": when it succeeds it has run
    "apt-get update" and then asked apt-get for the build tools and for
    the headers of the release that the host reported after the update. *)
Lemma installDeps_requests_headers (s s1 : State W) :
  let update := commandAt os "sudo" ["apt-get"; "update"] (world s) in
  os_lookPath os "dnf" (world s) = None ->
  installDeps os s = (Done tt, s1) ->
  exists evs,
    trace s1 = trace s ++ evs
    /\ map Args (commands evs)
       = [["sudo"; "apt-get"; "update"];
          ["uname"; "-r"];
          ["sudo"; "apt-get"; "install"; "-y"; "build-essential";
           "libncurses-dev"; "bison"; "flex"; "libssl-dev"; "libelf-dev";
           ("linux-headers-"
              ++ releaseOf os (snd (os_exec os update (world s))))%string]].
Proof.
  cbv zeta. intros Hdnf. unfold installDeps. go. rewrite Hdnf. go.
  destruct (os_lookPath os "apt-get" (world s)); [|discriminate]. go.
  intros H. apply bind_Done_inv in H as ([] & s2 & Hupd & H).
  apply run_Done in Hupd as (Hw2 & evs2 & Ht2 & Hc2).
  revert H. go. intros H.
  apply run_Done in H as (Hw3 & evs3 & Ht3 & Hc3).
  cbn [world trace] in *. rewrite Ht3, Ht2.
  eexists. split.
  - rewrite <- !app_assoc. reflexivity.
  - rewrite !commands_app, Hc2, Hc3, Hw2. reflexivity.
Qed.

(** C7, as the code has it.  The condition is the one of line 283: the
    header directory /lib/modules/<release>/build does not exist in the
    world in which the strategy checks it, that is after step 1 of the
    pipeline, the making of the workspace and the query for the release.
    Then the Ubuntu strategy fails with the message that names the
    install command "sudo apt install linux-headers-<release>" (and not
    the path), having done nothing but ask for the release, check the
    directory and ask for the release again; the workspace is removed.
    A run of the pipeline that comes to this check, after its step 1 has
    succeeded and "apt-get" was found, ends with this failure and with
    these events, and none of the events of the whole run, before or
    after the check, is a curl.  The headers were asked for before, in
    step 1: on a host without "dnf" its successful end means that
    "apt-get install ... linux-headers-<release>" ran. *)
Theorem ubuntu_missing_headers (s : State W) :
  (forall workDir,
      let w1 := snd (os_mkdirTemp os "" "ec_sys_ubuntu" (world s)) in
      let w2 := afterUname os w1 in
      fst (os_mkdirTemp os "" "ec_sys_ubuntu" (world s)) = inr workDir ->
      os_stat os (headerDir (releaseOf os w1)) w2 = StatNotExist ->
      runFullSetupUbuntu os log (runCmd os) s
      = (Fail (headersMissing (releaseOf os w2)),
         mkState (os_removeAll os workDir (afterUname os w2))
           (trace s ++ [EvLog "Starting Ubuntu-specific build for ec_sys module...";
                        EvMkdirTemp "" "ec_sys_ubuntu" (inr workDir);
                        EvExec (commandAt os "uname" ["-r"] w1);
                        EvStat (headerDir (releaseOf os w1));
                        EvExec (commandAt os "uname" ["-r"] w2);
                        EvRemoveAll workDir])))
  /\ (forall s1 p workDir,
         let w1 := snd (os_mkdirTemp os "" "ec_sys_ubuntu" (world s1)) in
         let w2 := afterUname os w1 in
         os_geteuid os (world s) = 0%Z ->
         installDeps os
           (mkState (world s)
              (trace s ++ [EvLog "Starting automated build of ec_sys module...";
                           EvLog "1/13 Installing build tools..."]))
         = (Done tt, s1) ->
         os_lookPath os "apt-get" (world s1) = Some p ->
         fst (os_mkdirTemp os "" "ec_sys_ubuntu" (world s1)) = inr workDir ->
         os_stat os (headerDir (releaseOf os w1)) w2 = StatNotExist ->
         RunFullSetup os s
         = (Fail (headersMissing (releaseOf os w2)),
            mkState (os_removeAll os workDir (afterUname os w2))
              (trace s1
                 ++ [EvLookPath "apt-get";
                     EvLog "Starting Ubuntu-specific build for ec_sys module...";
                     EvMkdirTemp "" "ec_sys_ubuntu" (inr workDir);
                     EvExec (commandAt os "uname" ["-r"] w1);
                     EvStat (headerDir (releaseOf os w1));
                     EvExec (commandAt os "uname" ["-r"] w2);
                     EvRemoveAll workDir]))
         /\ exists evs,
             trace (snd (RunFullSetup os s)) = trace s ++ evs
             /\ forallb notCurl evs = true)
  /\ (forall s1,
         let update := commandAt os "sudo" ["apt-get"; "update"] (world s) in
         os_lookPath os "dnf" (world s) = None ->
         installDeps os s = (Done tt, s1) ->
         exists evs,
           trace s1 = trace s ++ evs
           /\ map Args (commands evs)
              = [["sudo"; "apt-get"; "update"];
                 ["uname"; "-r"];
                 ["sudo"; "apt-get"; "install"; "-y"; "build-essential";
                  "libncurses-dev"; "bison"; "flex"; "libssl-dev"; "libelf-dev";
                  ("linux-headers-"
                     ++ releaseOf os (snd (os_exec os update (world s))))%string]]).
Proof.
  split; [|split].
  - intros workDir. apply runFullSetupUbuntu_stops.
  - intros s1 p workDir. cbv zeta. intros Hroot Hdeps Hapt Htmp Hst.
    assert (Hrun : RunFullSetup os s
      = runFullSetupUbuntu os log (runCmd os)
          (mkState (world s1) (trace s1 ++ [EvLookPath "apt-get"]))).
    { unfold RunFullSetup. go. rewrite Hroot. cbn [Z.eqb negb]. go.
      rewrite <- app_assoc. cbn [app].
      rewrite (bind_Done _ _ _ _ _ Hdeps). go. rewrite Hapt. reflexivity. }
    rewrite Hrun,
      (runFullSetupUbuntu_stops
         (mkState (world s1) (trace s1 ++ [EvLookPath "apt-get"])) workDir Htmp Hst).
    cbn [world trace snd]. split.
    + rewrite <- !app_assoc. reflexivity.
    + destruct (installDeps_notCurl
                  (mkState (world s)
                     (trace s ++ [EvLog "Starting automated build of ec_sys module...";
                                  EvLog "1/13 Installing build tools..."])))
        as (evs1 & Ht1 & Hn1).
      rewrite Hdeps in Ht1. cbn [snd trace] in Ht1. rewrite Ht1.
      eexists. split.
      * rewrite <- !app_assoc. reflexivity.
      * cbn [app forallb notCurl]. rewrite forallb_app, Hn1. reflexivity.
  - intros s1. apply installDeps_requests_headers.
Qed.

End MissingHeaders.

Section Install.

Context {W : Type} (os : OS W).

Local Open Scope list_scope.

Lemma quiet_refl t : quiet t t.
Proof. exists []. rewrite app_nil_r. auto. Qed.

Lemma quiet_trans t t1 t2 : quiet t t1 -> quiet t1 t2 -> quiet t t2.
Proof.
  intros (e1 & -> & H1) (e2 & -> & H2). exists (e1 ++ e2).
  rewrite app_assoc, commands_app, filter_app, H1, H2. auto.
Qed.

Lemma quiet_snoc t e : notDepmod e = true -> quiet t (t ++ [e]).
Proof.
  intros H. exists [e]. split; [reflexivity|].
  destruct e; try reflexivity. cbn in *.
  apply negb_true_iff in H. rewrite H. reflexivity.
Qed.

Lemma filter_notDepmod evs :
  forallb notDepmod evs = true -> filter isDepmod (commands evs) = [].
Proof.
  induction evs as [|e evs IH]; cbn [forallb]; [reflexivity|].
  intros H. apply andb_true_iff in H as [He H].
  change (e :: evs) with ([e] ++ evs). rewrite commands_app, filter_app, (IH H).
  destruct e; try reflexivity. cbn in *.
  apply negb_true_iff in He. rewrite He. reflexivity.
Qed.

Lemma quiet_emits {A} (m : M W A) s :
  emits notDepmod m -> quiet (trace s) (trace (snd (m s))).
Proof.
  intros Hm. destruct (Hm s) as (evs & Ht & Hf).
  exists evs. split; [exact Ht|]. apply filter_notDepmod, Hf.
Qed.

Lemma defer_inv {A} (cleanup : M W unit) (body : M W A) s r s' :
  defer cleanup body s = (r, s') ->
  exists s1, body s = (r, s1) /\ s' = snd (cleanup s1).
Proof.
  unfold defer. destruct (body s) as [r1 s1].
  destruct (cleanup s1) as [u s2] eqn:Hc. intros [= <- <-].
  exists s1. rewrite Hc. split; reflexivity.
Qed.

Variable release : string.

Hypothesis release_fixed : forall w, releaseOf os w = release.

(** A successful step 13: the release is asked for, then the directory
    is made, the artifact copied, and the index refreshed. *)
Lemma installModule_Done kernelBuildDir (s s1 : State W) :
  installModule os kernelBuildDir s = (Done tt, s1) ->
  exists evs query mkdir cp depmod,
    trace s1 = trace s ++ evs
    /\ commands evs = [query; mkdir; cp; depmod]
    /\ Args query = ["uname"; "-r"]
    /\ Args mkdir = ["mkdir"; "-p"; ("/lib/modules/" ++ release ++ "/extra")%string]
    /\ Args cp = ["cp";
                  filepath.Join [kernelBuildDir; "drivers"; "acpi"; "ec_sys.ko"];
                  filepath.Join [("/lib/modules/" ++ release ++ "/extra")%string;
                                 "ec_sys.ko"]]
    /\ Args depmod = ["depmod"; "-a"].
Proof.
  unfold installModule. go. cbv zeta.
  destruct (os_stat os _ (world s)); try discriminate.
  go. rewrite release_fixed. intros H.
  apply bind_Done_inv in H as ([] & s2 & Hmk & H).
  apply bind_Done_inv in H as ([] & s3 & Hcp & H).
  apply bind_Done_inv in H as ([] & s4 & Hdep & H).
  apply run_Done in Hmk as (_ & e2 & Ht2 & Hc2).
  apply run_Done in Hcp as (_ & e3 & Ht3 & Hc3).
  apply run_Done in Hdep as (_ & e4 & Ht4 & Hc4).
  unfold log, emit in H. injection H as <-. cbn [trace] in *.
  rewrite Ht4, Ht3, Ht2.
  eexists _, _, _, _, _. split.
  - rewrite <- !app_assoc. reflexivity.
  - rewrite !commands_app, Hc2, Hc3, Hc4. cbn [commands flat_map app].
    repeat split; reflexivity.
Qed.

End Install.

Section FedoraInstall.

Context {W : Type} (os : OS W).

Local Open Scope list_scope.

Hypothesis no_apt : forall w, os_lookPath os "apt-get" w = None.

Hypothesis release_fixed : forall w, releaseOf os w = "6.8.0-200.fc39.x86_64".

Lemma quiet_snoc' t t1 e :
  quiet t t1 -> notDepmod e = true -> quiet t (t1 ++ [e]).
Proof. intros H He. eapply quiet_trans; [exact H|]. apply quiet_snoc, He. Qed.

Lemma quiet_run {A} (m : M W A) s r s1 t :
  emits notDepmod m -> m s = (r, s1) -> quiet t (trace s) -> quiet t (trace s1).
Proof.
  intros Hm Hrun Ht. eapply quiet_trans; [exact Ht|].
  pose proof (quiet_emits m s Hm) as H. rewrite Hrun in H. exact H.
Qed.

Lemma installDeps_notDepmod : emits notDepmod (installDeps os).
Proof. emits_auto. Qed.

Lemma patchMakefile_notDepmod dir : emits notDepmod (patchMakefile os dir).
Proof. emits_auto. Qed.

Lemma configureKernel_notDepmod dir : emits notDepmod (configureKernel os dir).
Proof. emits_auto. Qed.

Lemma prepareBuild_notDepmod dir : emits notDepmod (prepareBuild os dir).
Proof. emits_auto. Qed.

Lemma buildModule_notDepmod dir : emits notDepmod (buildModule os dir).
Proof. emits_auto. Qed.

(** C5.  On a host without "apt-get" whose release is
    6.8.0-200.fc39.x86_64, a run that succeeds has ended its commands
    with "mkdir -p /lib/modules/6.8.0-200.fc39.x86_64/extra", the copy
    of the built ec_sys.ko to
    /lib/modules/6.8.0-200.fc39.x86_64/extra/ec_sys.ko and "depmod -a",
    in this order, and that depmod is the only one of the run. *)
Theorem fedora_install_destination (s s' : State W) :
  RunFullSetup os s = (Done tt, s') ->
  exists evs before mkdir cp depmod kernelBuildDir,
    trace s' = trace s ++ evs
    /\ commands evs = before ++ [mkdir; cp; depmod]
    /\ Args mkdir = ["mkdir"; "-p"; "/lib/modules/6.8.0-200.fc39.x86_64/extra"]
    /\ Args cp = ["cp";
                  filepath.Join [kernelBuildDir; "drivers"; "acpi"; "ec_sys.ko"];
                  "/lib/modules/6.8.0-200.fc39.x86_64/extra/ec_sys.ko"]
    /\ Args depmod = ["depmod"; "-a"]
    /\ filter isDepmod (commands evs) = [depmod].
Proof.
  unfold RunFullSetup. go. destruct (negb _); [discriminate|]. go. intros H.
  apply bind_Done_inv in H as ([] & s2 & Hdeps & H).
  revert H. go. rewrite no_apt. go.
  destruct (fst (os_mkdirTemp os "" "ec_sys_build" (world s2))) as [err|workDir];
    [discriminate|].
  intros H. apply defer_inv in H as (s3 & H & ->).
  apply bind_Done_inv in H as (kernelBuildDir & s4 & Hsrc & H).
  unfold patchBuildInstall in H.
  apply bind_Done_inv in H as ([] & s5 & Hpatch & H).
  apply bind_Done_inv in H as ([] & s6 & Hconf & H).
  apply bind_Done_inv in H as ([] & s7 & Hprep & H).
  apply bind_Done_inv in H as ([] & s8 & Hbuild & H).
  apply (installModule_Done os _ release_fixed) in H
    as (evsI & query & mkdir & cp & depmod & Ht & Hc & Hq & Hmk & Hcp & Hdep).
  assert (Hquiet : quiet (trace s) (trace s8)).
  { eapply quiet_run; [apply buildModule_notDepmod | exact Hbuild |].
    eapply quiet_run; [apply prepareBuild_notDepmod | exact Hprep |].
    eapply quiet_run; [apply configureKernel_notDepmod | exact Hconf |].
    eapply quiet_run; [apply patchMakefile_notDepmod | exact Hpatch |].
    eapply quiet_run; [apply prepareSource_notDepmod | exact Hsrc |].
    cbn [trace]. repeat (apply quiet_snoc'; [|reflexivity]).
    eapply quiet_run; [apply installDeps_notDepmod | exact Hdeps |].
    cbn [trace]. repeat (apply quiet_snoc'; [|reflexivity]).
    apply quiet_refl. }
  destruct Hquiet as (evs0 & Ht0 & Hf0).
  exists (evs0 ++ evsI ++ [EvRemoveAll workDir]), (commands evs0 ++ [query]),
    mkdir, cp, depmod, kernelBuildDir.
  unfold RemoveAll. cbn [snd trace]. rewrite Ht, Ht0.
  assert (Hnq : isDepmod query = false) by (unfold isDepmod; rewrite Hq; reflexivity).
  assert (Hnm : isDepmod mkdir = false) by (unfold isDepmod; rewrite Hmk; reflexivity).
  assert (Hnc : isDepmod cp = false) by (unfold isDepmod; rewrite Hcp; reflexivity).
  assert (Hyd : isDepmod depmod = true) by (unfold isDepmod; rewrite Hdep; reflexivity).
  repeat split.
  - rewrite <- !app_assoc. reflexivity.
  - rewrite !commands_app, Hc. cbn [commands flat_map app].
    rewrite <- !app_assoc. reflexivity.
  - exact Hmk.
  - exact Hcp.
  - exact Hdep.
  - rewrite !commands_app, Hc, !filter_app, Hf0. cbn [commands flat_map app filter].
    rewrite Hnq, Hnm, Hnc, Hyd. reflexivity.
Qed.

End FedoraInstall.

Lemma benign_notCreated : benign notCreated.
Proof. intros []; exact I || reflexivity. Qed.

#[export] Hint Resolve benign_notCreated : emits.

Section Workspace.

Context {W : Type} (os : OS W).

Local Open Scope list_scope.

Lemma tidyM_emits {A} (m : M W A) : emits notCreated m -> tidyM os m.
Proof. intros Hm s. left. apply Hm. Qed.

Lemma tidyM_bind {A B} (m : M W A) (f : A -> M W B) :
  emits notCreated m -> (forall a, tidyM os (f a)) -> tidyM os (bind m f).
Proof.
  intros Hm Hf s. unfold bind.
  destruct (Hm s) as (e1 & H1 & F1).
  destruct (m s) as [[a|e|] s1]; cbn [snd] in *.
  - destruct (Hf a s1) as [(evs & Ht & Hn)
                          |(before & dir & pattern & workDir & mid & w1 & Ht & Hb & Hmid & Hw)].
    + left. exists (e1 ++ evs). rewrite Ht, H1, app_assoc, forallb_app, F1, Hn. auto.
    + right. exists (e1 ++ before), dir, pattern, workDir, mid, w1.
      rewrite Ht, H1, forallb_app, F1, Hb, <- !app_assoc. auto.
  - left. eauto.
  - left. eauto.
Qed.

Lemma tidyM_workspace {A} dir pattern (body : string -> M W A) :
  (forall workDir, emits notCreated (body workDir)) ->
  tidyM os (bind (MkdirTemp os dir pattern)
           (fun tmp =>
              match tmp with
              | inl err => throw err
              | inr workDir => defer (RemoveAll os workDir) (body workDir)
              end)).
Proof.
  intros Hbody s. rewrite bind_MkdirTemp.
  destruct (fst (os_mkdirTemp os dir pattern (world s))) as [err|workDir].
  - left. eexists. split; [reflexivity|reflexivity].
  - right. unfold defer, RemoveAll.
    set (s0 := mkState _ _).
    destruct (Hbody workDir s0) as (mid & Ht & Hn).
    destruct (body workDir s0) as [r s1]. cbn [snd trace world] in *.
    exists [], dir, pattern, workDir, mid, (world s1).
    rewrite Ht. subst s0. cbn [trace app].
    rewrite <- !app_assoc. auto.
Qed.

Lemma fedoraBody_notCreated workDir :
  emits notCreated
    (bind (prepareSource os workDir) (fun dir => patchBuildInstall os dir)).
Proof. unfold patchBuildInstall, installModule. emits_auto. Qed.

Lemma RunFullSetup_tidy : tidyM os (RunFullSetup os).
Proof.
  unfold RunFullSetup.
  apply tidyM_bind; [emits_auto|]. intros euid.
  destruct (negb _); [apply tidyM_emits; emits_auto|].
  apply tidyM_bind; [emits_auto|]. intros _.
  apply tidyM_bind; [emits_auto|]. intros _.
  apply tidyM_bind; [emits_auto|]. intros _.
  apply tidyM_bind; [emits_auto|]. intros [path|].
  - unfold runFullSetupUbuntu.
    apply tidyM_bind; [emits_auto|]. intros _.
    apply tidyM_workspace. intros workDir. emits_auto.
  - apply tidyM_bind; [emits_auto|]. intros _.
    apply tidyM_workspace. intros workDir. apply fedoraBody_notCreated.
Qed.

Lemma creation_unique (before mid before' after' : list Event) (x x' : Event) :
  forallb notCreated before = true ->
  forallb notCreated mid = true ->
  notCreated x' = false ->
  before ++ x :: mid = before' ++ x' :: after' ->
  x' = x /\ after' = mid.
Proof.
  intros Hb Hm Hx'. revert before' Hb.
  induction before as [|a before IH]; intros [|b before'] Hb Heq;
    cbn [app] in Heq; injection Heq as -> Heq.
  - auto.
  - exfalso. rewrite Heq, forallb_app in Hm. cbn [forallb] in Hm.
    rewrite Hx', andb_false_r in Hm. discriminate.
  - exfalso. cbn [forallb] in Hb. rewrite Hx' in Hb. discriminate.
  - cbn [forallb] in Hb. apply andb_true_iff in Hb as [_ Hb].
    apply (IH before' Hb Heq).
Qed.

(** C2.  In every run of the pipeline, of either strategy and whatever
    its result, a temporary directory that was created is removed by the
    last call of the run: the trace ends with the removal of that very
    directory, and the world at the end is the one this removal left. *)
Theorem workspace_removed (s : State W) :
  exists evs,
    trace (snd (RunFullSetup os s)) = trace s ++ evs
    /\ forall before dir pattern workDir after,
        evs = before ++ EvMkdirTemp dir pattern (inr workDir) :: after ->
        (exists mid, after = mid ++ [EvRemoveAll workDir])
        /\ (exists w1, world (snd (RunFullSetup os s)) = os_removeAll os workDir w1).
Proof.
  destruct (RunFullSetup_tidy s)
    as [(evs & Ht & Hn)
       |(before0 & dir0 & pattern0 & workDir0 & mid0 & w1 & Ht & Hb & Hmid & Hw)].
  - exists evs. split; [exact Ht|].
    intros before dir pattern workDir after ->. exfalso.
    rewrite forallb_app in Hn. cbn [forallb notCreated] in Hn.
    rewrite andb_false_r in Hn. discriminate.
  - eexists. split; [exact Ht|].
    intros before dir pattern workDir after Heq.
    apply creation_unique in Heq as [Hx Hafter]; auto.
    + injection Hx as -> -> ->. split; [exists mid0; auto | exists w1; auto].
    + rewrite forallb_app, Hmid. reflexivity.
Qed.

(** On a host where a removed path is gone, the workspace does not exist
    when the run is over. *)
Corollary workspace_gone (s : State W) before dir pattern workDir after :
  (forall path w, os_stat os path (os_removeAll os path w) = StatNotExist) ->
  trace (snd (RunFullSetup os s))
  = trace s ++ before ++ EvMkdirTemp dir pattern (inr workDir) :: after ->
  os_stat os workDir (world (snd (RunFullSetup os s))) = StatNotExist.
Proof.
  intros Hlaw Ht.
  destruct (RunFullSetup_tidy s)
    as [(evs & Ht' & Hn)
       |(before0 & dir0 & pattern0 & workDir0 & mid0 & w1 & Ht' & Hb & Hmid & Hw)];
    rewrite Ht' in Ht; apply app_inv_head in Ht.
  - exfalso. rewrite Ht, forallb_app in Hn. cbn [forallb notCreated] in Hn.
    rewrite andb_false_r in Hn. discriminate.
  - apply creation_unique in Ht as [Hx _]; auto.
    + injection Hx as _ _ <-. rewrite Hw. apply Hlaw.
    + rewrite forallb_app, Hmid. reflexivity.
Qed.

End Workspace.


(* ================================================================== *)
(** ** The theorems on the simulated hosts *)

Section Examples.

Local Open Scope list_scope.

Lemma RunFullSetup_requires_root_witness :
  RunFullSetup (Sim.os Sim.fedoraUser) (Sim.initial Sim.emptyWorld)
  = (Fail "setup requires root privileges (run with sudo)",
     Sim.initial Sim.emptyWorld).
Proof.
  apply (RunFullSetup_requires_root (Sim.os Sim.fedoraUser)). cbn. lia.
Defined.

Lemma within_refl path : Sim.within path path = true.
Proof. unfold Sim.within. rewrite String.eqb_refl. reflexivity. Qed.

(** On the simulated hosts a removed path is gone. *)
Lemma Sim_removed_gone h path w :
  os_stat (Sim.os h) path (os_removeAll (Sim.os h) path w) = StatNotExist.
Proof.
  cbn [os_stat os_removeAll Sim.os Sim.files Sim.dirs].
  assert (Hf : Sim.lookup path
                 (filter (fun f => negb (Sim.within path (fst f))) (Sim.files w))
               = None).
  { induction (Sim.files w) as [|[p c] l IH]; cbn [filter fst]; [reflexivity|].
    destruct (Sim.within path p) eqn:E; cbn [negb Sim.lookup]; [exact IH|].
    destruct (String.eqb_spec p path) as [->|_]; [|exact IH].
    rewrite within_refl in E. discriminate. }
  assert (Hd : Sim.hasString path
                 (filter (fun d => negb (Sim.within path d)) (Sim.dirs w))
               = false).
  { unfold Sim.hasString.
    induction (Sim.dirs w) as [|d l IH]; cbn [filter]; [reflexivity|].
    destruct (Sim.within path d) eqn:E; cbn [negb existsb]; [exact IH|].
    destruct (String.eqb_spec path d) as [<-|_]; [|exact IH].
    rewrite within_refl in E. discriminate. }
  rewrite Hf, Hd. reflexivity.
Qed.

Example workspace_gone_on_fedora :
  os_stat (Sim.os Sim.fedora) Sim.fedoraWorkDir
    (world (snd (RunFullSetup (Sim.os Sim.fedora) (Sim.initial Sim.emptyWorld))))
  = StatNotExist.
Proof.
  apply (workspace_gone (Sim.os Sim.fedora) (Sim.initial Sim.emptyWorld)
           (firstn 9 (trace (snd (RunFullSetup (Sim.os Sim.fedora)
                                    (Sim.initial Sim.emptyWorld)))))
           "" "ec_sys_build" Sim.fedoraWorkDir
           (skipn 10 (trace (snd (RunFullSetup (Sim.os Sim.fedora)
                                    (Sim.initial Sim.emptyWorld)))))).
  - apply Sim_removed_gone.
  - vm_compute. reflexivity.
Qed.

(** A run that panics in step 8 (the walk function is handed no file
    info) still removes its workspace. *)
Example panic_still_cleans :
  let run := RunFullSetup (Sim.os Sim.broken) (Sim.initial Sim.emptyWorld) in
  fst run = Panic
  /\ last (trace (snd run)) (EvLog "") = EvRemoveAll Sim.fedoraWorkDir
  /\ os_stat (Sim.os Sim.broken) Sim.fedoraWorkDir (world (snd run)) = StatNotExist.
Proof. vm_compute. repeat split. Qed.

Lemma RunFullSetup_unsupported_witness :
  RunFullSetup (Sim.os Sim.bare) (Sim.initial Sim.emptyWorld)
  = (Fail "could not find a supported package manager (dnf or apt)",
     mkState Sim.emptyWorld
       [EvLog "Starting automated build of ec_sys module...";
        EvLog "1/13 Installing build tools...";
        EvLookPath "dnf"; EvLookPath "apt-get"]).
Proof.
  apply (RunFullSetup_unsupported (Sim.os Sim.bare) (Sim.initial Sim.emptyWorld));
    reflexivity.
Defined.



Lemma isModuleLoaded_substring_witness :
  fst (isModuleLoaded (Sim.os Sim.reloading) "ec_sys"
         (Sim.initial (Sim.mkWorld [(Sim.modulesPath, otherModules)] [] WLstatErr)))
  = Done true.
Proof.
  apply (proj2 (proj2 isModuleLoaded_substring)). reflexivity.
Defined.

Lemma patchMakefile_extraversion_witness :
  patchMakefile (Sim.os Sim.fedora) Sim.fedoraKernelDir (Sim.initial Sim.emptyWorld)
  = replaceInFile (Sim.os Sim.fedora)
      (filepath.Join [Sim.fedoraKernelDir; "Makefile"])
      "^EXTRAVERSION =.*" "EXTRAVERSION = -200.fc39.x86_64"
      (mkState Sim.emptyWorld
         [EvLog "9/13 Patching Makefile...";
          EvExec (mkCmd "/usr/bin/uname" ["uname"; "-r"] "" None)])
  /\ patchBuildInstall (Sim.os Sim.plain) Sim.fedoraKernelDir (Sim.initial Sim.emptyWorld)
     = (Fail "unexpected kernel version format: 6.8.0",
        mkState Sim.emptyWorld
          [EvLog "9/13 Patching Makefile...";
           EvExec (mkCmd "/usr/bin/uname" ["uname"; "-r"] "" None)]).
Proof.
  split.
  - apply (proj1 (patchMakefile_extraversion (Sim.os Sim.fedora) Sim.fedoraKernelDir
                    (Sim.initial Sim.emptyWorld)) "6.8.0" "200.fc39.x86_64");
      reflexivity.
  - apply (proj2 (patchMakefile_extraversion (Sim.os Sim.plain) Sim.fedoraKernelDir
                    (Sim.initial Sim.emptyWorld))).
    reflexivity.
Defined.

Lemma workspace_removed_witness :
  exists mid,
    skipn 10 (trace (snd (RunFullSetup (Sim.os Sim.fedora) (Sim.initial Sim.emptyWorld))))
    = mid ++ [EvRemoveAll Sim.fedoraWorkDir].
Proof.
  destruct (workspace_removed (Sim.os Sim.fedora) (Sim.initial Sim.emptyWorld))
    as (evs & Ht & H).
  cbn [Sim.initial trace app] in Ht. subst evs.
  apply (H (firstn 9 (trace (snd (RunFullSetup (Sim.os Sim.fedora)
                                    (Sim.initial Sim.emptyWorld)))))
           "" "ec_sys_build" Sim.fedoraWorkDir).
  vm_compute. reflexivity.
Defined.

Lemma fedora_install_destination_witness :
  exists evs before mkdir cp depmod kernelBuildDir,
    trace (snd (RunFullSetup (Sim.os Sim.fedora) (Sim.initial Sim.emptyWorld)))
    = trace (Sim.initial Sim.emptyWorld) ++ evs
    /\ commands evs = before ++ [mkdir; cp; depmod]
    /\ Args mkdir = ["mkdir"; "-p"; "/lib/modules/6.8.0-200.fc39.x86_64/extra"]
    /\ Args cp = ["cp";
                  filepath.Join [kernelBuildDir; "drivers"; "acpi"; "ec_sys.ko"];
                  "/lib/modules/6.8.0-200.fc39.x86_64/extra/ec_sys.ko"]
    /\ Args depmod = ["depmod"; "-a"]
    /\ filter isDepmod (commands evs) = [depmod].
Proof.
  apply (fedora_install_destination (Sim.os Sim.fedora)).
  - intros w. reflexivity.
  - intros w. vm_compute. reflexivity.
  - vm_compute. reflexivity.
Defined.

Lemma CheckAndSetup_verdict_witness :
  fst (CheckAndSetup (Sim.os Sim.reloading) (Sim.initial Sim.readyWorld)) = Done tt
  /\ fst (CheckAndSetup (Sim.os Sim.reloading) (Sim.initial Sim.readOnlyWorld)) = Done tt
  /\ fst (CheckAndSetup (Sim.os Sim.noModule) (Sim.initial Sim.noModuleWorld))
     = Fail "ec_sys module missing or failed to load".
Proof.
  split; [|split].
  - rewrite (proj1 (CheckAndSetup_verdict (Sim.os Sim.reloading)
                      (Sim.initial Sim.readyWorld)));
      reflexivity.
  - rewrite (proj1 (proj2 (CheckAndSetup_verdict (Sim.os Sim.reloading)
                             (Sim.initial Sim.readOnlyWorld))));
      reflexivity.
  - rewrite (proj2 (proj2 (CheckAndSetup_verdict (Sim.os Sim.noModule)
                             (Sim.initial Sim.noModuleWorld))));
      reflexivity.
Defined.

(** C4 as stated fails.  Where the load command fails, the run ends
    with that command: nothing is read afterwards.  Where the module was
    loaded without write support, only the parameter is read again after
    the reload, not the list of modules. *)
Lemma CheckAndSetup_recheck_counterexample :
  let failed := CheckAndSetup (Sim.os Sim.noModule) (Sim.initial Sim.noModuleWorld) in
  let reloaded := CheckAndSetup (Sim.os Sim.reloading) (Sim.initial Sim.readOnlyWorld) in
  (fst failed = Fail "ec_sys module missing or failed to load"
   /\ map Args (commands (trace (snd failed)))
      = [["sudo"; "modprobe"; "ec_sys"; "write_support=1"]]
   /\ afterLastExec (trace (snd failed)) = [])
  /\ (fst reloaded = Done tt
      /\ map Args (commands (trace (snd reloaded)))
         = [["sudo"; "modprobe"; "-r"; "ec_sys"];
            ["sudo"; "modprobe"; "ec_sys"; "write_support=1"]]
      /\ afterLastExec (trace (snd reloaded))
         = [EvReadFile "/sys/module/ec_sys/parameters/write_support"]).
Proof. vm_compute. repeat split. Qed.

Lemma downloadSource_full_release_witness :
  exists evs,
    trace (snd (downloadSource (Sim.os Sim.fedora) Sim.fedoraWorkDir
                  (Sim.initial Sim.emptyWorld)))
    = evs
    /\ commands evs
       = [mkCmd "/usr/bin/dnf"
            ["dnf"; "config-manager"; "--set-enabled"; "fedora-source"; "updates-source"]
            "" None;
          mkCmd "/usr/bin/uname" ["uname"; "-r"] "" None;
          mkCmd "/usr/bin/dnf"
            ["dnf"; "download"; "--source"; "kernel-6.8.0-200.fc39.x86_64"]
            Sim.fedoraWorkDir None].
Proof.
  apply (proj1 (downloadSource_full_release (Sim.os Sim.fedora) Sim.fedoraWorkDir
                  (Sim.initial Sim.emptyWorld) ltac:(discriminate))).
Defined.

(** C6 as stated fails.  On the Fedora host the release is
    6.8.0-200.fc39.x86_64 and its base version 6.8.0; the package asked
    for is the one of the whole release, not of the base version. *)
Lemma downloadSource_base_version_counterexample :
  let run := downloadSource (Sim.os Sim.fedora) Sim.fedoraWorkDir
               (Sim.initial Sim.emptyWorld) in
  releaseOf (Sim.os Sim.fedora) Sim.emptyWorld = "6.8.0-200.fc39.x86_64"
  /\ baseVersion "6.8.0-200.fc39.x86_64" = "6.8.0"
  /\ downloadedPackage (commands (trace (snd run)))
     = Some "kernel-6.8.0-200.fc39.x86_64"
  /\ downloadedPackage (commands (trace (snd run)))
     <> Some ("kernel-" ++ baseVersion "6.8.0-200.fc39.x86_64")%string.
Proof. vm_compute. repeat split. discriminate. Qed.

Lemma ubuntu_missing_headers_witness :
  fst (RunFullSetup (Sim.os Sim.ubuntu) (Sim.initial Sim.emptyWorld))
  = Fail "kernel headers not found. run: sudo apt install linux-headers-6.8.0-45-generic"
  /\ exists evs,
      trace (snd (RunFullSetup (Sim.os Sim.ubuntu) (Sim.initial Sim.emptyWorld))) = evs
      /\ forallb notCurl evs = true.
Proof.
  destruct (proj1 (proj2 (ubuntu_missing_headers (Sim.os Sim.ubuntu)
                            (Sim.initial Sim.emptyWorld)))
              (snd (installDeps (Sim.os Sim.ubuntu)
                      (mkState Sim.emptyWorld
                         [EvLog "Starting automated build of ec_sys module...";
                          EvLog "1/13 Installing build tools..."])))
              "/usr/bin/apt-get" "/tmp/ec_sys_ubuntu1234"
              eq_refl eq_refl eq_refl eq_refl eq_refl) as [Hrun Hquiet].
  split; [rewrite Hrun; reflexivity | exact Hquiet].
Defined.

(** C7 as stated fails.  On the Ubuntu host without headers the run
    fails with a message that does not contain the missing path
    /lib/modules/6.8.0-45-generic/build, and before that, in step 1, it
    has asked apt-get to install the headers. *)
Lemma ubuntu_headers_counterexample :
  let run := RunFullSetup (Sim.os Sim.ubuntu) (Sim.initial Sim.emptyWorld) in
  os_stat (Sim.os Sim.ubuntu) "/lib/modules/6.8.0-45-generic/build" Sim.emptyWorld
  = StatNotExist
  /\ fst run
     = Fail "kernel headers not found. run: sudo apt install linux-headers-6.8.0-45-generic"
  /\ strings.Contains
       "kernel headers not found. run: sudo apt install linux-headers-6.8.0-45-generic"
       "/lib/modules/6.8.0-45-generic/build" = false
  /\ In ["sudo"; "apt-get"; "install"; "-y"; "build-essential"; "libncurses-dev";
         "bison"; "flex"; "libssl-dev"; "libelf-dev";
         "linux-headers-6.8.0-45-generic"]
        (map Args (commands (trace (snd run)))).
Proof. vm_compute. repeat split. auto. Qed.

(** The condition of C7 is the one at the moment of the check.  On a
    host without headers at the start on which step 1 installs them, the
    check finds them and the run goes on to fetch the driver source. *)
Example headers_installed_by_step_1 :
  let run := RunFullSetup (Sim.os installsHeaders) (Sim.initial Sim.emptyWorld) in
  os_stat (Sim.os installsHeaders) "/lib/modules/6.8.0-45-generic/build" Sim.emptyWorld
  = StatNotExist
  /\ fst run = Done tt
  /\ existsb isCurl (commands (trace (snd run))) = true.
Proof. vm_compute. repeat split. Qed.

End Examples.

(* ================================================================== *)
(** ** Splitting and joining *)

Section RoundTrips.

Local Open Scope list_scope.

Lemma drop_app (p t : string) :
  strings.drop (String.length p) (p ++ t)%string = t.
Proof. induction p as [|c p IH]; [destruct t|]; auto. Qed.

Lemma prefix_drop (sep s : string) :
  String.prefix sep s = true ->
  s = (sep ++ strings.drop (String.length sep) s)%string.
Proof.
  intros H. apply prefix_iff in H as [t ->]. rewrite drop_app. reflexivity.
Qed.

(** A cut takes the string apart at an occurrence of the separator. *)
Lemma cut_Some (s sep a b : string) :
  strings.cut s sep = Some (a, b) -> s = (a ++ sep ++ b)%string.
Proof.
  revert a b. induction s as [|c s IH]; intros a b; cbn [strings.cut].
  - destruct (String.prefix sep "") eqn:Hp; [|discriminate].
    intros [= <- <-]. apply (prefix_drop _ _ Hp).
  - destruct (String.prefix sep (String c s)) eqn:Hp.
    + intros [= <- <-]. apply (prefix_drop _ _ Hp).
    + destruct (strings.cut s sep) as [[a' b']|]; [|discriminate].
      intros [= <- <-]. rewrite (IH a' b' eq_refl) at 1. reflexivity.
Qed.

Lemma splitLoop_cons k s sep :
  exists a l, strings.splitLoop k s sep = a :: l.
Proof.
  destruct k; cbn [strings.splitLoop]; [eauto|].
  destruct (strings.cut s sep) as [[a b]|]; eauto.
Qed.

Lemma Join_cons a b l sep :
  strings.Join (a :: b :: l) sep = (a ++ sep ++ strings.Join (b :: l) sep)%string.
Proof. reflexivity. Qed.

(** Joining what a split gave restores the string. *)
Lemma Join_splitLoop k s sep :
  strings.Join (strings.splitLoop k s sep) sep = s.
Proof.
  revert s. induction k as [|k IH]; intros s; cbn [strings.splitLoop].
  - reflexivity.
  - destruct (strings.cut s sep) as [[a b]|] eqn:Hc; [|reflexivity].
    specialize (IH b). destruct (splitLoop_cons k b sep) as (x & l & Hx).
    rewrite Hx in *. rewrite Join_cons, IH. symmetry. apply cut_Some, Hc.
Qed.

Lemma Split_eq s sep :
  strings.Split s sep = strings.splitLoop (String.length s) s sep.
Proof. reflexivity. Qed.

Lemma Join_Split s sep : strings.Join (strings.Split s sep) sep = s.
Proof. rewrite Split_eq. apply Join_splitLoop. Qed.

Lemma splitLoop_Join c l rest k :
  forallb (fun x => negb (strings.Contains x (String c ""))) (l :: rest) = true ->
  List.length rest <= k ->
  strings.splitLoop k (strings.Join (l :: rest) (String c "")) (String c "")
  = l :: rest.
Proof.
  revert l k. induction rest as [|l2 rest IH]; intros l k Hall Hk.
  - cbn [forallb] in Hall. apply andb_true_iff in Hall as [Hl _].
    apply negb_true_iff in Hl.
    destruct k; cbn [strings.splitLoop]; [reflexivity|].
    change (strings.Join [l] (String c "")) with l.
    rewrite (cut_absent _ _ Hl). reflexivity.
  - destruct k as [|k]; [cbn in Hk; lia|].
    cbn [forallb] in Hall. apply andb_true_iff in Hall as [Hl Hall].
    apply negb_true_iff in Hl.
    rewrite Join_cons. cbn [strings.splitLoop].
    change (l ++ String c "" ++ strings.Join (l2 :: rest) (String c ""))%string
      with (l ++ String c (strings.Join (l2 :: rest) (String c "")))%string.
    rewrite (cut_first _ _ _ Hl). f_equal.
    apply IH; [exact Hall | cbn in Hk; lia].
Qed.

Lemma length_append (a b : string) :
  String.length (a ++ b)%string = String.length a + String.length b.
Proof. induction a as [|c a IH]; cbn; [reflexivity | rewrite IH; reflexivity]. Qed.

Lemma length_Join c l rest :
  List.length rest <= String.length (strings.Join (l :: rest) (String c "")).
Proof.
  revert l. induction rest as [|l2 rest IH]; intros l; [cbn; lia|].
  rewrite Join_cons, !length_append. specialize (IH l2). cbn [List.length String.length].
  cbn [List.length String.length] in IH. lia.
Qed.

(** Splitting a text that was joined from lines without the separator
    gives the lines back. *)
Lemma Split_Join c l rest :
  forallb (fun x => negb (strings.Contains x (String c ""))) (l :: rest) = true ->
  strings.Split (strings.Join (l :: rest) (String c "")) (String c "") = l :: rest.
Proof.
  intros Hall. rewrite Split_eq. apply splitLoop_Join; [exact Hall|].
  apply length_Join.
Qed.

Lemma replaceFirst_none lines replacement :
  existsb isExtraversion lines = false ->
  replaceFirst lines replacement = lines.
Proof.
  induction lines as [|l lines IH]; cbn [existsb replaceFirst]; [reflexivity|].
  intros H. apply orb_false_iff in H as [Hl H]. unfold isExtraversion in Hl.
  rewrite Hl, (IH H). reflexivity.
Qed.

Lemma Clean_nonempty p : filepath.Clean p <> "".
Proof.
  unfold filepath.Clean. destruct (strings.HasPrefix p "/"); [discriminate|].
  match goal with |- context [String.eqb ?b ""] => destruct (String.eqb_spec b "") end;
    [discriminate | assumption].
Qed.

Lemma Join_nonempty dir name : name <> "" -> filepath.Join [dir; name] <> "".
Proof.
  intros Hn. unfold filepath.Join. cbn [filepath.dropEmpty].
  destruct (String.eqb dir ""); [|apply Clean_nonempty].
  destruct (String.eqb_spec name ""); [contradiction | apply Clean_nonempty].
Qed.

Lemma isSrcRpm_nonempty name : isSrcRpm name = true -> name <> "".
Proof. intros H ->. discriminate. Qed.

End RoundTrips.

Section SourceFiles.

Context {W : Type} (os : OS W).

Local Open Scope list_scope.

(** X1.  [replaceInFile] never reports anything and ignores its pattern
    argument.  A file that cannot be read is not written.  A file without
    a line that starts with "EXTRAVERSION =" is written back byte for
    byte.  In a file made of lines, the first line that starts with
    "EXTRAVERSION =" is replaced and every other line, also a later one
    that starts so, is written back as it was. *)
Theorem replaceInFile_first_line (path pattern replacement : string) (s : State W) :
  (forall pattern',
      replaceInFile os path pattern replacement s
      = replaceInFile os path pattern' replacement s)
  /\ (os_readFile os path (world s) = None ->
      replaceInFile os path pattern replacement s
      = (Done tt, mkState (world s) (trace s ++ [EvReadFile path])))
  /\ (forall content,
         os_readFile os path (world s) = Some content ->
         existsb isExtraversion (strings.Split content nl) = false ->
         replaceInFile os path pattern replacement s
         = (Done tt,
            mkState (snd (os_writeFile os path content (world s)))
              (trace s ++ [EvReadFile path; EvWriteFile path content])))
  /\ (forall before line after,
         forallb noNewline (before ++ line :: after) = true ->
         existsb isExtraversion before = false ->
         isExtraversion line = true ->
         os_readFile os path (world s)
         = Some (strings.Join (before ++ line :: after) nl) ->
         let data := strings.Join (before ++ replacement :: after) nl in
         replaceInFile os path pattern replacement s
         = (Done tt,
            mkState (snd (os_writeFile os path data (world s)))
              (trace s ++ [EvReadFile path; EvWriteFile path data]))).
Proof.
  split; [reflexivity|]. split; [|split].
  - intros Hr. rewrite replaceInFile_eq, Hr. reflexivity.
  - intros content Hr Hnone. rewrite replaceInFile_eq, Hr. cbv zeta.
    rewrite (replaceFirst_none _ _ Hnone), Join_Split. reflexivity.
  - intros before line after Hnl Hb Hl Hr. cbv zeta.
    rewrite replaceInFile_eq, Hr. cbv zeta.
    assert (Hsplit : strings.Split (strings.Join (before ++ line :: after) nl) nl
                     = before ++ line :: after).
    { destruct (before ++ line :: after) as [|x l] eqn:E.
      - destruct before; discriminate.
      - apply Split_Join. exact Hnl. }
    rewrite Hsplit, replaceFirst_spec; [reflexivity | | exact Hl].
    clear -Hb. induction before as [|b before IH]; [reflexivity|].
    cbn [existsb forallb] in *. apply orb_false_iff in Hb as [H1 H2].
    unfold isExtraversion in H1. rewrite H1, (IH H2). reflexivity.
Qed.

Lemma find_first {A} (f : A -> bool) before x after :
  existsb f before = false -> f x = true ->
  find f (before ++ x :: after) = Some x.
Proof.
  intros Hb Hx. induction before as [|b before IH]; cbn [app find existsb] in *.
  - rewrite Hx. reflexivity.
  - apply orb_false_iff in Hb as [H1 H2]. rewrite H1. apply IH, H2.
Qed.

Lemma find_absent {A} (f : A -> bool) l : existsb f l = false -> find f l = None.
Proof.
  induction l as [|a l IH]; cbn [find existsb]; [reflexivity|].
  intros H. apply orb_false_iff in H as [H1 H2]. rewrite H1. apply IH, H2.
Qed.

(** X2.  The search for the downloaded source package lists the workspace
    once and changes nothing.  It fails exactly when no entry has a name
    that starts with "kernel-" and ends with ".src.rpm"; otherwise its
    result is the path of the first such entry inside the workspace. *)
Theorem findSrcRpm_first_match (workDir : string) (s : State W) :
  let listing := os_readDir os workDir (world s) in
  snd (findSrcRpm os workDir s)
  = mkState (world s) (trace s ++ [EvReadDir workDir])
  /\ (fst (findSrcRpm os workDir s) = Fail "failed to find downloaded src.rpm"
      <-> existsb isSrcRpm listing = false)
  /\ (forall before name after,
         listing = before ++ name :: after ->
         existsb isSrcRpm before = false ->
         isSrcRpm name = true ->
         fst (findSrcRpm os workDir s) = Done (filepath.Join [workDir; name])).
Proof.
  cbv zeta. unfold findSrcRpm, bind, ReadDir, emit. cbn [world trace].
  fold isSrcRpm.
  destruct (find isSrcRpm (os_readDir os workDir (world s))) as [f|] eqn:Hf.
  - pose proof (find_some _ _ Hf) as [Hin Hsrc].
    pose proof (Join_nonempty workDir f (isSrcRpm_nonempty _ Hsrc)) as Hne.
    apply String.eqb_neq in Hne. rewrite Hne. cbn [fst snd].
    split; [reflexivity|]. split.
    + split; [discriminate|]. intros Hnone.
      rewrite (find_absent _ _ Hnone) in Hf. discriminate.
    + intros before name after Hl Hb Hn. rewrite Hl, (find_first _ _ _ _ Hb Hn) in Hf.
      injection Hf as ->. reflexivity.
  - cbn [fst snd String.eqb]. split; [reflexivity|]. split.
    + split; [|reflexivity]. intros _.
      destruct (existsb isSrcRpm _) eqn:He; [|reflexivity].
      apply existsb_exists in He as (x & Hin & Hx).
      rewrite (find_none _ _ Hf x Hin) in Hx. discriminate.
    + intros before name after Hl Hb Hn. rewrite Hl, (find_first _ _ _ _ Hb Hn) in Hf.
      discriminate.
Qed.

End SourceFiles.

(* ================================================================== *)
(** ** Step 8: the walk of the build area *)

Section BuildDir.

Context {W : Type} (os : OS W).

Local Open Scope list_scope.

Lemma Join_nonempty_l dir rest : dir <> "" -> filepath.Join (dir :: rest) <> "".
Proof.
  intros Hd. unfold filepath.Join. cbn [filepath.dropEmpty].
  apply String.eqb_neq in Hd. rewrite Hd. apply Clean_nonempty.
Qed.

(** Once the directory is found, the walk function skips whatever it is
    shown. *)
Lemma findBuildDir_found acc path info err (s : State W) :
  acc <> "" ->
  findBuildDir os acc path info err s = (Done (acc, Some SkipDir), s).
Proof.
  intros H. unfold findBuildDir. apply String.eqb_neq in H. rewrite H.
  reflexivity.
Qed.

Lemma walk_found acc :
  acc <> "" ->
  (forall node path name (s : State W),
      walk (findBuildDir os) path name node acc s = (Done (acc, Some SkipDir), s))
  /\ (forall entries path (s : State W),
         exists e, walkEntries (findBuildDir os) path entries acc s = (Done (acc, e), s)).
Proof.
  intros Hacc. apply WalkNode_WalkEntries_ind.
  - intros path name s. cbn [walk]. apply findBuildDir_found, Hacc.
  - intros path name s. cbn [walk]. apply findBuildDir_found, Hacc.
  - intros readErr entries IH path name s. cbn [walk]. unfold bind.
    rewrite (findBuildDir_found _ _ _ _ _ Hacc). reflexivity.
  - intros path s. exists None. reflexivity.
  - intros name node IHn rest IHr path s. cbn [walkEntries]. unfold bind.
    rewrite IHn. cbn [snd fst isSkipDir andb].
    destruct (negb (isFile node)); [apply IHr | eexists; reflexivity].
Qed.

Lemma walk_dir {Acc}
  (fn : Acc -> string -> option FileInfo -> bool -> M W (Acc * option WalkErr))
  path name readErr entries acc :
  walk fn path name (WDir readErr entries) acc
  = bind (fn acc path (Some (mkFileInfo name true)) readErr)
      (fun r =>
         match snd r with
         | Some _ => ret r
         | None => if readErr then ret r else walkEntries fn path entries (fst r)
         end).
Proof. reflexivity. Qed.

Lemma walkEntries_cons {Acc}
  (fn : Acc -> string -> option FileInfo -> bool -> M W (Acc * option WalkErr))
  path name node rest acc :
  walkEntries fn path (WCons name node rest) acc
  = bind (walk fn (filepath.Join [path; name]) name node acc)
      (fun r =>
         match snd r with
         | None => walkEntries fn path rest (fst r)
         | Some e =>
             if isSkipDir e && negb (isFile node)
             then walkEntries fn path rest (fst r)
             else ret r
         end).
Proof. reflexivity. Qed.

Lemma bind_eq {A B} (m : M W A) (f : A -> M W B) s out s1 :
  m s = (out, s1) ->
  bind m f s
  = match out with
    | Done a => f a s1
    | Fail e => (Fail e, s1)
    | Panic => (Panic, s1)
    end.
Proof. intros H. unfold bind. rewrite H. destruct out; reflexivity. Qed.

(** The walk function on a directory, while nothing is found. *)
Lemma findBuildDir_dir path name err (s : State W) :
  findBuildDir os "" path (Some (mkFileInfo name true)) err s
  = (Done (if strings.HasPrefix name "linux-" && hasMakefileAt os (world s) path
           then (path, Some SkipDir) else ("", None)),
     if strings.HasPrefix name "linux-"
     then mkState (world s) (trace s ++ [EvStat (filepath.Join [path; "Makefile"])])
     else s).
Proof.
  unfold findBuildDir, hasMakefileAt. cbn [String.eqb negb IsDir Name andb].
  destruct (strings.HasPrefix name "linux-"); [|reflexivity].
  rewrite bind_Stat. cbn [andb].
  destruct (os_stat os (filepath.Join [path; "Makefile"]) (world s)); reflexivity.
Qed.

(** Until then, the walk is the search: it leaves the world alone and
    asks only for Makefiles. *)
Lemma walk_search :
  (forall node path name (s : State W),
      path <> "" ->
      exists evs,
        snd (walk (findBuildDir os) path name node "" s)
        = mkState (world s) (trace s ++ evs)
        /\ forallb isStat evs = true
        /\ searchOutcome (searchNode (hasMakefileAt os (world s)) path name node)
             (fst (walk (findBuildDir os) path name node "" s)))
  /\ (forall entries path (s : State W),
         path <> "" ->
         exists evs,
           snd (walkEntries (findBuildDir os) path entries "" s)
           = mkState (world s) (trace s ++ evs)
           /\ forallb isStat evs = true
           /\ searchOutcome (searchEntries (hasMakefileAt os (world s)) path entries)
                (fst (walkEntries (findBuildDir os) path entries "" s))).
Proof.
  apply WalkNode_WalkEntries_ind.
  - intros path name s Hp. exists []. rewrite app_nil_r. destruct s.
    repeat split.
  - intros path name s Hp. exists []. rewrite app_nil_r. destruct s.
    repeat split.
  - intros readErr entries IH path name s Hp.
    rewrite walk_dir. cbn [searchNode].
    rewrite (bind_eq _ _ _ _ _ (findBuildDir_dir path name readErr s)).
    destruct (strings.HasPrefix name "linux-"); cbn [andb].
    + set (ev := EvStat (filepath.Join [path; "Makefile"])).
      destruct (hasMakefileAt os (world s) path) eqn:Hm; cbn [snd fst].
      * exists [ev]. repeat split; solve [auto | eexists; reflexivity].
      * destruct readErr.
        { exists [ev]. repeat split. }
        destruct (IH path (mkState (world s) (trace s ++ [ev])) Hp)
          as (evs & Hsnd & Hst & Hout).
        cbn [world trace] in *. exists (ev :: evs).
        rewrite Hsnd, <- app_assoc. repeat split; auto.
    + cbn [snd fst]. destruct readErr.
      * exists []. rewrite app_nil_r. destruct s. repeat split.
      * apply IH, Hp.
  - intros path s Hp. exists []. rewrite app_nil_r. destruct s. repeat split.
  - intros name node IHn rest IHr path s Hp.
    rewrite walkEntries_cons. cbn [searchEntries].
    destruct (IHn (filepath.Join [path; name]) name s (Join_nonempty_l _ _ Hp))
      as (evs1 & Hsnd1 & Hst1 & Hout1).
    destruct (walk (findBuildDir os) (filepath.Join [path; name]) name node "" s)
      as [out s1] eqn:Hwalk.
    rewrite (bind_eq _ _ _ _ _ Hwalk).
    cbn [fst snd] in Hsnd1, Hout1. subst s1.
    destruct (searchNode (hasMakefileAt os (world s)) (filepath.Join [path; name])
                name node) as [|p|]; cbn [searchOutcome] in Hout1.
    + subst out. cbn [snd fst].
      destruct (IHr path (mkState (world s) (trace s ++ evs1)) Hp)
        as (evs2 & Hsnd2 & Hst2 & Hout2).
      cbn [world trace] in *. exists (evs1 ++ evs2).
      rewrite Hsnd2, app_assoc, forallb_app, Hst1, Hst2. repeat split; auto.
    + destruct Hout1 as (Hne & e & ->). cbn [snd fst].
      destruct (proj2 (walk_found p Hne) rest path
                  (mkState (world s) (trace s ++ evs1))) as (e' & He').
      exists evs1.
      destruct e as [e0|].
      * destruct (isSkipDir e0 && negb (isFile node)).
        { rewrite He'. cbn [fst snd searchOutcome]. repeat split; solve [auto | eexists; reflexivity]. }
        { cbn [fst snd searchOutcome ret]. repeat split; solve [auto | eexists; reflexivity]. }
      * rewrite He'. cbn [fst snd searchOutcome]. repeat split; solve [auto | eexists; reflexivity].
    + subst out. exists evs1. repeat split; auto.
Qed.

Lemma Walk_eq {Acc}
  (fn : Acc -> string -> option FileInfo -> bool -> M W (Acc * option WalkErr))
  root acc (s : State W) out s1 :
  walk fn root (filepath.Base root) (os_walkTree os root (world s)) acc
    (mkState (world s) (trace s ++ [EvWalk root])) = (out, s1) ->
  Walk os fn root acc s
  = (match out with
     | Done r => Done (fst r, match snd r with
                              | Some SkipDir | Some SkipAll => None
                              | other => other
                              end)
     | Fail e => Fail e
     | Panic => Panic
     end, s1).
Proof.
  intros H. unfold Walk, emit. rewrite (bind_eq _ _ _ _ _ H).
  destruct out; reflexivity.
Qed.

(** X3.  Step 8 finds the kernel build directory by a search of the
    build area: its result is the first directory, parents before
    children and entries in listing order, whose name starts with "linux-"
    and in which [os.Stat] finds a Makefile.  Without such a directory
    the step fails; when an entry that cannot be inspected comes before
    it, the step panics.  The step changes nothing on the host: after the
    progress line and the walk it only asks for Makefiles. *)
Theorem locateBuildDir_first_match (rpmbuildDir : string) (s : State W) :
  let buildRoot := filepath.Join [rpmbuildDir; "BUILD"] in
  exists evs,
    snd (locateBuildDir os rpmbuildDir s)
    = mkState (world s)
        (trace s ++ EvLog "8/13 Locating build directory..."
                      :: EvWalk buildRoot :: evs)
    /\ forallb isStat evs = true
    /\ fst (locateBuildDir os rpmbuildDir s)
       = match searchNode (hasMakefileAt os (world s)) buildRoot
                 (filepath.Base buildRoot) (os_walkTree os buildRoot (world s)) with
         | FoundAt p => Done p
         | NotFound => Fail "could not find kernel build directory"
         | Unreadable => Panic
         end.
Proof.
  cbv zeta. unfold locateBuildDir. rewrite bind_log. cbv zeta.
  set (buildRoot := filepath.Join [rpmbuildDir; "BUILD"]).
  assert (Hroot : buildRoot <> "")
    by (apply Join_nonempty; discriminate).
  pose proof (Walk_eq (findBuildDir os) buildRoot ""
                (mkState (world s)
                   (trace s ++ [EvLog "8/13 Locating build directory..."]))) as HW.
  destruct (proj1 walk_search (os_walkTree os buildRoot (world s)) buildRoot
              (filepath.Base buildRoot)
              (mkState (world s)
                 ((trace s ++ [EvLog "8/13 Locating build directory..."])
                    ++ [EvWalk buildRoot])) Hroot)
    as (evs & Hsnd & Hst & Hout).
  cbn [world trace] in Hsnd, Hout, HW.
  destruct (walk (findBuildDir os) buildRoot (filepath.Base buildRoot)
              (os_walkTree os buildRoot (world s)) ""
              (mkState (world s)
                 ((trace s ++ [EvLog "8/13 Locating build directory..."])
                    ++ [EvWalk buildRoot]))) as [out s1].
  specialize (HW out s1 eq_refl).
  rewrite (bind_eq _ _ _ _ _ HW).
  cbn [fst snd] in Hsnd, Hout. subst s1.
  exists evs. rewrite <- !app_assoc. cbn [app].
  destruct (searchNode (hasMakefileAt os (world s)) buildRoot
              (filepath.Base buildRoot) (os_walkTree os buildRoot (world s)))
    as [|p|]; cbn [searchOutcome] in Hout.
  - subst out. cbn [fst snd String.eqb]. auto.
  - destruct Hout as (Hne & e & ->). cbn [ret fst snd].
    apply String.eqb_neq in Hne. rewrite Hne. auto.
  - subst out. auto.
Qed.

End BuildDir.

(* ================================================================== *)
(** ** The output of a command, line by line *)

Section Lines.

Local Open Scope list_scope.







End Lines.

Section Relay.

Context {W : Type} (os : OS W).

Local Open Scope list_scope.


End Relay.

(* ================================================================== *)
(** ** Which commands a run can start *)

Lemma benign_notModprobe : benign notModprobe.
Proof. intros []; exact I || reflexivity. Qed.

Lemma benign_ubuntuRoute : benign ubuntuRoute.
Proof. intros []; exact I || reflexivity. Qed.

Lemma benign_notAptGet : benign notAptGet.
Proof. intros []; exact I || reflexivity. Qed.

#[export] Hint Resolve benign_notModprobe benign_ubuntuRoute benign_notAptGet : emits.

Section Routes.

Context {W : Type} (os : OS W).

Local Open Scope list_scope.

(** A look-up whose answer is known for every world. *)
Lemma emits_bind_LookPath {B} P file (f : option string -> M W B) :
  benign P ->
  (forall w, emits P (f (os_lookPath os file w))) ->
  emits P (bind (LookPath os file) f).
Proof.
  intros HP Hf s. rewrite bind_LookPath.
  destruct (Hf (world s) (mkState (world s) (trace s ++ [EvLookPath file])))
    as (evs & Ht & Hall).
  exists (EvLookPath file :: evs). rewrite Ht. cbn [trace forallb].
  rewrite <- app_assoc, (HP (EvLookPath file)), Hall. auto.
Qed.

Lemma installDeps_ubuntuRoute : emits ubuntuRoute (installDeps os).
Proof. emits_auto. Qed.

Lemma runFullSetupUbuntu_ubuntuRoute :
  emits ubuntuRoute (runFullSetupUbuntu os log (runCmd os)).
Proof. unfold runFullSetupUbuntu. emits_auto. Qed.

(** X5.  On a host where "apt-get" resolves, a run of the pipeline takes
    the Ubuntu strategy whatever else is installed: the only commands it
    can start are uname, commands through sudo, curl and a make without
    arguments, and the only temporary directory it can ask for has the
    pattern "ec_sys_ubuntu".  So rpm, rpmbuild and dnf in its own name are
    never started, even when "dnf" resolves as well. *)
Theorem apt_host_takes_ubuntu_strategy (s : State W) :
  (forall w, os_lookPath os "apt-get" w <> None) ->
  exists evs,
    trace (snd (RunFullSetup os s)) = trace s ++ evs
    /\ forallb ubuntuRoute evs = true.
Proof.
  intros Hapt. revert s. change (emits ubuntuRoute (RunFullSetup os)).
  unfold RunFullSetup. emits_step; [emits_auto|].
  destruct (negb _); [emits_auto|].
  emits_step; [emits_auto|]. emits_step; [emits_auto|].
  emits_step; [apply installDeps_ubuntuRoute|].
  apply emits_bind_LookPath; [emits_side|]. intros w.
  destruct (os_lookPath os "apt-get" w) eqn:E; [|destruct (Hapt w E)].
  apply runFullSetupUbuntu_ubuntuRoute.
Qed.



(** X7.  On a host where "apt-get" does not resolve, no run of the
    pipeline starts modprobe, directly or through sudo, whatever its
    result: the Fedora route builds and installs the module and leaves
    loading it to the next check. *)
Theorem fedora_route_never_loads (s : State W) :
  (forall w, os_lookPath os "apt-get" w = None) ->
  exists evs,
    trace (snd (RunFullSetup os s)) = trace s ++ evs
    /\ forallb notModprobe evs = true.
Proof.
  intros Hapt. revert s. change (emits notModprobe (RunFullSetup os)).
  unfold RunFullSetup. emits_step; [emits_auto|].
  destruct (negb _); [emits_auto|].
  emits_step; [emits_auto|]. emits_step; [emits_auto|].
  emits_step; [emits_auto|].
  apply emits_bind_LookPath; [emits_side|]. intros w. rewrite Hapt.
  unfold patchBuildInstall, installModule. emits_auto.
Qed.

(** X8.  A check of the module reads nothing but the loaded-module list
    and the write-support parameter, starts nothing but the unloading and
    the loading of ec_sys through sudo, at most two commands in all, and
    ends without error or with one of its two messages; it never panics
    and never builds anything. *)
Theorem CheckAndSetup_only_probes_and_modprobe (s : State W) :
  exists evs,
    trace (snd (CheckAndSetup os s)) = trace s ++ evs
    /\ forallb checkOnly evs = true
    /\ List.length (commands evs) <= 2
    /\ (fst (CheckAndSetup os s) = Done tt
        \/ fst (CheckAndSetup os s) = Fail "ec_sys loaded but write support refused"
        \/ fst (CheckAndSetup os s) = Fail "ec_sys module missing or failed to load").
Proof.
  unfold CheckAndSetup. rewrite bind_isModuleLoaded. cbn [world trace].
  destruct (moduleListed os "ec_sys" (world s)).
  - rewrite bind_checkWriteSupport. cbn [world trace].
    destruct (writeSupportOn os (world s)).
    + eexists. split; [cbn [ret snd trace]; rewrite <- app_assoc; reflexivity|].
      cbn. auto.
    + go. rewrite bind_checkWriteSupport. cbn [world trace].
      match goal with |- context [if ?b then _ else _] => destruct b end;
        (eexists; split;
         [cbn [ret throw snd trace]; rewrite <- !app_assoc; reflexivity | cbn; auto]).
  - go.
    match goal with |- context [match ?e with Some _ => _ | None => _ end] =>
      destruct e end.
    + eexists. split; [cbn [throw snd trace]; rewrite <- !app_assoc; reflexivity|].
      cbn. auto.
    + rewrite bind_probe. cbn [world trace].
      destruct (moduleListed os "ec_sys" _); cbn [andb];
        [destruct (writeSupportOn os _)|];
        (eexists; split;
         [cbn [ret throw snd trace]; rewrite <- !app_assoc; reflexivity | cbn; auto]).
Qed.

End Routes.

(* ================================================================== *)
(** ** The Ubuntu strategy when it succeeds *)

Lemma split_last {A} (P : list A -> Prop) t a b X R :
  (exists mid, X = (t ++ a :: b :: mid)%list /\ P mid) ->
  exists mid, (X ++ [R] = t ++ a :: b :: mid ++ [R])%list /\ P mid.
Proof.
  intros (mid & -> & HP). exists mid. split; [|exact HP].
  rewrite <- app_assoc. reflexivity.
Qed.

Section UbuntuSuccess.

Context {W : Type} (os : OS W).

Local Open Scope list_scope.

Lemma wrapErr_Done {A} pre (m : M W A) s a s1 :
  wrapErr pre m s = (Done a, s1) -> m s = (Done a, s1).
Proof.
  unfold wrapErr. destruct (m s) as [[a'|e|] s']; intros H;
    inversion H; subst; reflexivity.
Qed.

Lemma runCmd_Done c (s s1 : State W) :
  runCmd os c s = (Done tt, s1) ->
  world s1 = snd (os_exec os c (world s))
  /\ exists evs, trace s1 = trace s ++ evs /\ commands evs = [c].
Proof.
  rewrite runCmd_eq. intros H.
  pose proof (ranCmd_world os c s) as Hw.
  destruct (ranCmd_trace os c s) as (evs & Ht & Hc).
  rewrite H in Hw, Ht. cbn [snd] in Hw, Ht. eauto.
Qed.

(** The base version of a release "<base>-<suffix>". *)
Lemma baseVersion_first base suffix :
  strings.Contains base "-" = false ->
  baseVersion (base ++ "-" ++ suffix) = base.
Proof.
  intros Hb. unfold baseVersion. rewrite Split_eq.
  destruct (String.length (base ++ "-" ++ suffix)) eqn:Hlen.
  - rewrite length_append in Hlen. cbn in Hlen. lia.
  - cbn [strings.splitLoop].
    change (base ++ "-" ++ suffix)%string with (base ++ String "-" suffix)%string.
    rewrite (cut_first _ _ _ Hb). reflexivity.
Qed.

Variables release base suffix : string.

Hypothesis release_fixed : forall w, releaseOf os w = release.

Hypothesis release_form : release = (base ++ "-" ++ suffix)%string.

Hypothesis base_plain : strings.Contains base "-" = false.

(** X9.  A run of the Ubuntu strategy that succeeds, on a release
    "<base>-<suffix>": it has made its workspace, fetched ec_sys.c with
    curl from the tag v<base> of the upstream kernel into the workspace,
    written the Makefile that builds against /lib/modules/<release>/build,
    run make in the workspace, and then, each through sudo, made
    /lib/modules/<release>/extra, copied ec_sys.ko there, refreshed the
    module index and loaded ec_sys with write_support=1; these are all its
    commands besides the queries for the release, in this order, and the
    removal of the workspace is its last call. *)
Theorem ubuntu_success_commands (s s' : State W) :
  runFullSetupUbuntu os log (runCmd os) s = (Done tt, s') ->
  exists workDir mid,
    trace s'
    = trace s ++ EvLog "Starting Ubuntu-specific build for ec_sys module..."
                 :: EvMkdirTemp "" "ec_sys_ubuntu" (inr workDir)
                 :: mid ++ [EvRemoveAll workDir]
    /\ map argsDir (commands mid)
       = [(["uname"; "-r"], "");
          (["uname"; "-r"], "");
          (["curl"; "-L"; sourceUrl base; "-o"; filepath.Join [workDir; "ec_sys.c"]], "");
          (["make"], workDir);
          (["uname"; "-r"], "");
          (["sudo"; "mkdir"; "-p"; ("/lib/modules/" ++ release ++ "/extra")%string], "");
          (["sudo"; "cp"; filepath.Join [workDir; "ec_sys.ko"];
            filepath.Join [("/lib/modules/" ++ release ++ "/extra")%string; "ec_sys.ko"]],
           "");
          (["sudo"; "depmod"; "-a"], "");
          (["sudo"; "modprobe"; "ec_sys"; "write_support=1"], "")]
    /\ In (EvWriteFile (filepath.Join [workDir; "Makefile"]) (ubuntuMakefile release)) mid.
Proof.
  unfold runFullSetupUbuntu. go.
  destruct (fst (os_mkdirTemp os "" "ec_sys_ubuntu" (world s))) as [err|workDir];
    [discriminate|].
  intros H. apply defer_inv in H as (s1 & H & ->).
  exists workDir. revert H. go. rewrite release_fixed.
  assert (Hbase : nth 0 (strings.Split release "-") "" = base).
  { rewrite release_form. apply (baseVersion_first _ _ base_plain). }
  destruct (os_stat os _ _).
  2: { go. discriminate. }
  all: go.
  all: rewrite release_fixed, Hbase; fold (sourceUrl base); cbv zeta.
  all: intros H.
  all: apply bind_Done_inv in H as ([] & s2 & Hcurl & H).
  all: apply wrapErr_Done, runCmd_Done in Hcurl as (Hw2 & e2 & Ht2 & Hc2).
  all: revert H; rewrite bind_WriteFile; cbn [world trace]; go.
  all: match goal with
    | |- match ?e with Some _ => _ | None => _ end = _ -> _ =>
        destruct e; [discriminate|]
    end.
  all: go; cbn [Path Args Env commandAt].
  all: intros H.
  all: apply bind_Done_inv in H as ([] & s3 & Hmake & H).
  all: apply wrapErr_Done, runCmd_Done in Hmake as (Hw3 & e3 & Ht3 & Hc3).
  all: revert H; go; rewrite release_fixed.
  all: match goal with
            | |- match ?e with Some _ => _ | None => _ end = _ -> _ =>
                destruct e; [discriminate|]
            end.
  all: go.
  all: match goal with
            | |- match ?e with Some _ => _ | None => _ end = _ -> _ =>
                destruct e; [discriminate|]
            end.
  all: go.
  all: match goal with
            | |- match ?e with Some _ => _ | None => _ end = _ -> _ =>
                destruct e; [discriminate|]
            end.
  all: go.
  all: match goal with
            | |- match ?e with Some _ => _ | None => _ end = _ -> _ =>
                destruct e; [discriminate|]
            end.
  all: go.
  all: unfold log, emit.
  all: intros [= <-].
  all: cbn [trace world RemoveAll snd] in *.
  all: rewrite Ht3, Ht2.
  all: apply split_last.
  all: eexists; split; [rewrite <- !app_assoc; reflexivity|].
  all: split.
  1,3: rewrite !commands_app, Hc2, Hc3.
  1,3: cbn [commands flat_map app map argsDir Args Dir commandAt].
  1,3: reflexivity.
  all: repeat first [apply in_eq | apply in_cons | apply in_or_app; right].
Qed.

End UbuntuSuccess.

(* ================================================================== *)
(** ** The properties of the steps on the simulated hosts *)

Section StepExamples.

Local Open Scope list_scope.

Lemma replaceInFile_first_line_witness :
  replaceInFile (Sim.os Sim.fedora) "/k/Makefile" "^EXTRAVERSION =.*"
    "EXTRAVERSION = -200.fc39.x86_64" (Sim.initial makefileWorld)
  = (Done tt,
     mkState
       (Sim.setFile "/k/Makefile"
          (strings.Join ["VERSION = 6"; "EXTRAVERSION = -200.fc39.x86_64"; "NAME = x";
                         "EXTRAVERSION = -old"; ""] nl)
          makefileWorld)
       [EvReadFile "/k/Makefile";
        EvWriteFile "/k/Makefile"
          (strings.Join ["VERSION = 6"; "EXTRAVERSION = -200.fc39.x86_64"; "NAME = x";
                         "EXTRAVERSION = -old"; ""] nl)]).
Proof.
  generalize (proj2 (proj2 (proj2
                (replaceInFile_first_line (Sim.os Sim.fedora) "/k/Makefile"
                   "^EXTRAVERSION =.*" "EXTRAVERSION = -200.fc39.x86_64"
                   (Sim.initial makefileWorld))))
                ["VERSION = 6"] "EXTRAVERSION ="
                ["NAME = x"; "EXTRAVERSION = -old"; ""]).
  vm_compute. intros H. apply H; reflexivity.
Defined.

Lemma findSrcRpm_first_match_witness :
  fst (findSrcRpm (Sim.os Sim.fedora) "/tmp/w" (Sim.initial downloadWorld))
  = Done "/tmp/w/kernel-6.8.0-200.fc39.src.rpm".
Proof.
  apply (proj2 (proj2 (findSrcRpm_first_match (Sim.os Sim.fedora) "/tmp/w"
                         (Sim.initial downloadWorld)))
           ["notes.txt"] "kernel-6.8.0-200.fc39.src.rpm" []);
    reflexivity.
Defined.

(** The walk on the Fedora host, after the package was built. *)
Example locateBuildDir_on_fedora :
  let w := snd (Sim.fedoraBehave (mkCmd "rpmbuild" ["rpmbuild"; "-bp"] "" None)
                  Sim.emptyWorld) in
  locateBuildDir (Sim.os Sim.fedora) (Sim.fedoraWorkDir ++ "/rpmbuild") (Sim.initial w)
  = (Done Sim.fedoraKernelDir,
     mkState w
       [EvLog "8/13 Locating build directory...";
        EvWalk (Sim.fedoraWorkDir ++ "/rpmbuild/BUILD");
        EvStat (Sim.fedoraKernelDir ++ "/Makefile")]).
Proof. vm_compute. reflexivity. Qed.


Lemma apt_host_takes_ubuntu_strategy_witness :
  exists evs,
    trace (snd (RunFullSetup (Sim.os Sim.ubuntu) (Sim.initial headersWorld))) = evs
    /\ forallb ubuntuRoute evs = true.
Proof.
  apply (apt_host_takes_ubuntu_strategy (Sim.os Sim.ubuntu) (Sim.initial headersWorld)).
  intros w. vm_compute. discriminate.
Defined.


(** On that host the run installs its tools with dnf and then fails for
    want of the headers. *)
Example hybrid_run :
  let run := RunFullSetup (Sim.os hybrid) (Sim.initial Sim.emptyWorld) in
  fst run
  = Fail "kernel headers not found. run: sudo apt install linux-headers-6.8.0-45-generic"
  /\ map (fun c => firstn 3 (Args c)) (commands (trace (snd run)))
     = [["uname"; "-r"]; ["sudo"; "dnf"; "install"]; ["uname"; "-r"]; ["uname"; "-r"]].
Proof. vm_compute. split; reflexivity. Qed.

Lemma fedora_route_never_loads_witness :
  exists evs,
    trace (snd (RunFullSetup (Sim.os Sim.fedora) (Sim.initial Sim.emptyWorld))) = evs
    /\ forallb notModprobe evs = true.
Proof.
  apply (fedora_route_never_loads (Sim.os Sim.fedora) (Sim.initial Sim.emptyWorld)).
  intros w. reflexivity.
Defined.

Lemma ubuntu_success_commands_witness :
  exists workDir mid,
    trace (snd (runFullSetupUbuntu (Sim.os Sim.ubuntu) log (runCmd (Sim.os Sim.ubuntu))
                  (Sim.initial headersWorld)))
    = EvLog "Starting Ubuntu-specific build for ec_sys module..."
        :: EvMkdirTemp "" "ec_sys_ubuntu" (inr workDir)
        :: mid ++ [EvRemoveAll workDir]
    /\ map argsDir (commands mid)
       = [(["uname"; "-r"], "");
          (["uname"; "-r"], "");
          (["curl"; "-L"; sourceUrl "6.8.0"; "-o";
            filepath.Join [workDir; "ec_sys.c"]], "");
          (["make"], workDir);
          (["uname"; "-r"], "");
          (["sudo"; "mkdir"; "-p"; "/lib/modules/6.8.0-45-generic/extra"], "");
          (["sudo"; "cp"; filepath.Join [workDir; "ec_sys.ko"];
            filepath.Join ["/lib/modules/6.8.0-45-generic/extra"; "ec_sys.ko"]], "");
          (["sudo"; "depmod"; "-a"], "");
          (["sudo"; "modprobe"; "ec_sys"; "write_support=1"], "")]
    /\ In (EvWriteFile (filepath.Join [workDir; "Makefile"])
             (ubuntuMakefile "6.8.0-45-generic")) mid.
Proof.
  apply (ubuntu_success_commands (Sim.os Sim.ubuntu)
           "6.8.0-45-generic" "6.8.0" "45-generic"
           ltac:(intros w; vm_compute; reflexivity) eq_refl eq_refl
           (Sim.initial headersWorld)).
  vm_compute. reflexivity.
Defined.

End StepExamples.


(* ================================================================== *)
(** ** The accesses to the controller *)

Section EcFacts.

Context {D : Type} (ctl : Controller D).

Local Open Scope list_scope.

Lemma after_nil (s : State (EcWorld D)) : after s (device (world s)) [] = s.
Proof. destruct s as [[d l] t]. unfold after. cbn. rewrite app_nil_r. reflexivity. Qed.

Lemma after_after (s : State (EcWorld D)) d1 l1 d2 l2 :
  after (after s d1 l1) d2 l2 = after s d2 (l1 ++ l2).
Proof. unfold after. cbn. rewrite app_assoc. reflexivity. Qed.

Lemma device_after (s : State (EcWorld D)) d l : device (world (after s d l)) = d.
Proof. reflexivity. Qed.

Lemma bind_OpenFile {B} (k : option error -> M (EcWorld D) B) s :
  bind (ec.OpenFile ctl) k s
  = k (ctl_open ctl (device (world s)))
      (after s (device (world s)) [OpOpen (isNone (ctl_open ctl (device (world s))))]).
Proof. reflexivity. Qed.

Lemma bind_Seek {B} a (k : option error -> M (EcWorld D) B) s :
  bind (ec.Seek ctl a) k s
  = k (ctl_seek ctl a (device (world s)))
      (after s (device (world s)) [OpSeek a (isNone (ctl_seek ctl a (device (world s))))]).
Proof. reflexivity. Qed.

Lemma bind_WriteByte {B} a v (k : option error -> M (EcWorld D) B) s :
  bind (ec.WriteByte ctl a v) k s
  = k (fst (ctl_write ctl a v (device (world s))))
      (after s (snd (ctl_write ctl a v (device (world s))))
         [OpWrite a v (isNone (fst (ctl_write ctl a v (device (world s)))))]).
Proof. reflexivity. Qed.

Lemma bind_ReadBuf {B} a n (k : option error * list Byte.byte -> M (EcWorld D) B) s :
  bind (ec.ReadBuf ctl a n) k s
  = k (fst (ctl_read ctl a n (device (world s))),
       bufferOf n (snd (ctl_read ctl a n (device (world s)))))
      (after s (device (world s))
         [OpRead a n (isNone (fst (ctl_read ctl a n (device (world s)))))]).
Proof. reflexivity. Qed.

Lemma defer_Close {A} (body : M (EcWorld D) A) s :
  defer (ec.Close (D:=D)) body s
  = (fst (body s), after (snd (body s)) (device (world (snd (body s)))) [OpClose]).
Proof. unfold defer. destruct (body s) as [r s1]. reflexivity. Qed.

(** [Write], path by path: the file is closed whenever it was opened. *)
Lemma Write_eq (a : Z) (v : Byte.byte) (s : State (EcWorld D)) :
  ec.Write ctl a v s
  = let d := device (world s) in
    match ctl_open ctl d with
    | Some err => (Fail ("failed to open EC file: " ++ err)%string,
                   after s d [OpOpen false])
    | None =>
        match ctl_seek ctl a d with
        | Some err =>
            (Fail ("failed to seek to byte " ++ hex a ++ ": " ++ err)%string,
             after s d [OpOpen true; OpSeek a false; OpClose])
        | None =>
            match fst (ctl_write ctl a v d) with
            | Some err =>
                (Fail ("failed to write value " ++ decimal (byteValue v)
                         ++ " to byte " ++ hex a ++ ": " ++ err)%string,
                 after s (snd (ctl_write ctl a v d))
                   [OpOpen true; OpSeek a true; OpWrite a v false; OpClose])
            | None => (Done tt, after s (snd (ctl_write ctl a v d)) (writeOps (a, v)))
            end
        end
    end.
Proof.
  cbv zeta. unfold ec.Write. rewrite bind_OpenFile.
  destruct (ctl_open ctl (device (world s))); [reflexivity|].
  rewrite defer_Close, bind_Seek, device_after.
  destruct (ctl_seek ctl a (device (world s))).
  { cbn [throw fst snd isNone]. rewrite device_after, !after_after. reflexivity. }
  rewrite bind_WriteByte, device_after.
  destruct (fst (ctl_write ctl a v (device (world s))));
    cbn [throw ret fst snd isNone]; rewrite device_after, !after_after; reflexivity.
Qed.

Lemma byteValue_range (b : Byte.byte) : (0 <= byteValue b <= 255)%Z.
Proof. unfold byteValue. pose proof (Byte.to_N_bounded b). lia. Qed.

(** The two bytes of a big-endian number. *)
Lemma lor_shiftl_8 (x y : Z) :
  (0 <= x)%Z -> (0 <= y < 256)%Z ->
  Z.lor (Z.shiftl x 8) y = (256 * x + y)%Z.
Proof.
  intros Hx Hy. rewrite Z.shiftl_mul_pow2 by lia. change (2 ^ 8)%Z with 256%Z.
  assert (Hland : Z.land (x * 256) y = 0%Z).
  { apply Z.bits_inj'. intros n Hn. rewrite Z.land_spec, Z.bits_0.
    destruct (Z.ltb_spec n 8) as [Hlt|Hge].
    - change 256%Z with (2 ^ 8)%Z. rewrite (Z.mul_pow2_bits_low x 8 n) by lia.
      reflexivity.
    - destruct (Z.eq_dec y 0) as [->|Hy0].
      + rewrite Z.bits_0. apply andb_false_r.
      + rewrite (Z.bits_above_log2 y n); [apply andb_false_r | lia |].
        assert (Z.log2 y < 8)%Z by (apply Z.log2_lt_pow2; lia). lia. }
  rewrite <- (Z.lxor_lor _ _ Hland), <- (Z.add_nocarry_lxor _ _ Hland). lia.
Qed.

(** [Read], path by path. *)
Lemma Read_eq (a size : Z) (s : State (EcWorld D)) :
  ec.Read ctl a size s
  = let d := device (world s) in
    let n := Z.to_nat size in
    match ctl_open ctl d with
    | Some err => (Fail ("failed to open EC file: " ++ err)%string,
                   after s d [OpOpen false])
    | None =>
        match ctl_seek ctl a d with
        | Some err =>
            (Fail ("failed to seek to byte " ++ hex a ++ ": " ++ err)%string,
             after s d [OpOpen true; OpSeek a false; OpClose])
        | None =>
            if (size <? 0)%Z
            then (Panic, after s d [OpOpen true; OpSeek a true; OpClose])
            else
              match fst (ctl_read ctl a n d) with
              | Some err =>
                  (Fail ("failed to read from byte " ++ hex a ++ ": " ++ err)%string,
                   after s d [OpOpen true; OpSeek a true; OpRead a n false; OpClose])
              | None =>
                  (Done (decode size (bufferOf n (snd (ctl_read ctl a n d)))),
                   after s d (readOps a n))
              end
        end
    end.
Proof.
  cbv zeta. unfold ec.Read. rewrite bind_OpenFile.
  destruct (ctl_open ctl (device (world s))); [reflexivity|].
  rewrite defer_Close, bind_Seek, device_after.
  destruct (ctl_seek ctl a (device (world s))).
  { cbn [throw fst snd isNone]. rewrite device_after, !after_after. reflexivity. }
  destruct (size <? 0)%Z.
  { cbn [panic fst snd isNone]. rewrite device_after, !after_after. reflexivity. }
  rewrite bind_ReadBuf, device_after. cbn [fst snd].
  destruct (fst (ctl_read ctl a (Z.to_nat size) (device (world s)))).
  { cbn [throw fst snd isNone]. rewrite device_after, !after_after. reflexivity. }
  unfold decode.
  destruct (size =? 1)%Z; [|destruct (size =? 2)%Z];
    cbn [ret fst snd isNone]; rewrite ?device_after, !after_after; try reflexivity.
  f_equal. f_equal. apply lor_shiftl_8.
  - apply byteValue_range.
  - pose proof (byteValue_range
                  (nth 1 (bufferOf (Z.to_nat size)
                            (snd (ctl_read ctl a (Z.to_nat size) (device (world s)))))
                     Byte.x00)).
    lia.
Qed.

(** *** Loops *)

Lemma forEach_app {W A} (l1 l2 : list A) (f : A -> M W unit) s :
  forEach (l1 ++ l2) f s = bind (forEach l1 f) (fun _ => forEach l2 f) s.
Proof.
  revert s. induction l1 as [|a l1 IH]; intros s; cbn [forEach app].
  - reflexivity.
  - unfold bind. destruct (f a s) as [[[]|e|] s1]; [apply IH | reflexivity | reflexivity].
Qed.

Lemma forEach_map {W A B} (g : A -> B) (l : list A) (f : B -> M W unit) s :
  forEach (map g l) f s = forEach l (fun a => f (g a)) s.
Proof.
  revert s. induction l as [|a l IH]; intros s; cbn [forEach map].
  - reflexivity.
  - unfold bind. destruct (f (g a) s) as [[[]|e|] s1]; [apply IH | reflexivity | reflexivity].
Qed.

Lemma forEach_nested {W A B} (rows : list A) (cols : list B)
  (f : A -> B -> M W unit) s :
  forEach rows (fun r => forEach cols (f r)) s
  = forEach (flat_map (fun r => map (fun c => (r, c)) cols) rows)
      (fun rc => f (fst rc) (snd rc)) s.
Proof.
  revert s. induction rows as [|r rows IH]; intros s; cbn [forEach flat_map].
  - reflexivity.
  - rewrite forEach_app. unfold bind. rewrite forEach_map. cbn [fst snd].
    change (fun a : B => f r a) with (f r).
    destruct (forEach cols (f r) s) as [[[]|e|] s1];
      [apply IH | reflexivity | reflexivity].
Qed.

(** The two loops of [writeSpeeds] as one, over the points of the
    curves. *)
Lemma writeSpeeds_flat addresses speeds (s : State (EcWorld D)) :
  fan.writeSpeeds ctl addresses speeds s
  = forEach grid (writePoint ctl addresses speeds) s.
Proof.
  unfold fan.writeSpeeds, grid.
  rewrite (forEach_nested [0; 1]%nat [0; 1; 2; 3; 4; 5; 6]%nat
             (fun row col =>
                bind (fan.index2 addresses row col)
                  (fun addr =>
                     bind (fan.index2 speeds row col)
                       (fun val => ec.Write ctl addr (toByte val))))).
  reflexivity.
Qed.

Lemma index2_eq (m : list (list Z)) row col (s : State (EcWorld D)) :
  fan.index2 m row col s = (Done (cell m (row, col)), s)
  \/ fan.index2 m row col s = (Panic, s).
Proof.
  unfold fan.index2, fan.index, cell. cbn [fst snd].
  destruct (nth_error m row) as [r|] eqn:Hr; [|right; reflexivity].
  destruct (nth_error r col) as [x|] eqn:Hc; [|right; reflexivity].
  left. rewrite (nth_error_nth _ _ _ Hr), (nth_error_nth _ _ _ Hc). reflexivity.
Qed.

(** *** Sessions *)

Lemma bracketed_app b l1 l2 :
  bracketed b l1 = true -> bracketed false l2 = true ->
  bracketed b (l1 ++ l2) = true.
Proof.
  revert b. induction l1 as [|op l1 IH]; intros b H1 H2.
  - destruct b; [discriminate | exact H2].
  - destruct op, b; cbn [app bracketed negb andb] in *;
      try discriminate; apply IH; assumption.
Qed.

Lemma writesOf_app l1 l2 : writesOf (l1 ++ l2) = writesOf l1 ++ writesOf l2.
Proof. apply flat_map_app. Qed.

Lemma wrote_refl (s : State (EcWorld D)) : wrote s s [] [].
Proof. unfold wrote. cbn. rewrite app_nil_r. auto. Qed.

Lemma wrote_trans (s s1 s2 : State (EcWorld D)) ws1 ws2 tail :
  wrote s s1 ws1 [] -> wrote s1 s2 ws2 tail -> wrote s s2 (ws1 ++ ws2) tail.
Proof.
  intros (Ho1 & Ht1 & _ & _) (Ho2 & Ht2 & Hb2 & Hw2).
  unfold wrote. rewrite Ho2, Ho1, Ht2, Ht1, app_nil_r, flat_map_app, <- !app_assoc.
  auto.
Qed.

Lemma wrote_tail (s : State (EcWorld D)) d tail :
  bracketed false tail = true -> writesOf tail = [] ->
  wrote s (after s d tail) [] tail.
Proof. intros Hb Hw. unfold wrote. cbn. auto. Qed.

(** One write: the byte is written exactly when [Write] returns nil. *)
Lemma Write_wrote a v (s : State (EcWorld D)) :
  match fst (ec.Write ctl a v s) with
  | Done _ => wrote s (snd (ec.Write ctl a v s)) [(a, v)] []
  | Fail _ => exists tail, wrote s (snd (ec.Write ctl a v s)) [] tail
  | Panic => False
  end.
Proof.
  rewrite Write_eq. cbv zeta.
  destruct (ctl_open ctl (device (world s))).
  { eexists. apply wrote_tail; reflexivity. }
  destruct (ctl_seek ctl a (device (world s))).
  { eexists. apply wrote_tail; reflexivity. }
  destruct (fst (ctl_write ctl a v (device (world s)))).
  - eexists. apply wrote_tail; reflexivity.
  - cbn [fst snd]. unfold wrote, after. cbn. auto.
Qed.

Lemma writePoint_wrote addresses speeds rc (s : State (EcWorld D)) :
  match fst (writePoint ctl addresses speeds rc s) with
  | Done _ =>
      wrote s (snd (writePoint ctl addresses speeds rc s))
        [pointWrite addresses speeds rc] []
  | _ => exists tail, wrote s (snd (writePoint ctl addresses speeds rc s)) [] tail
  end.
Proof.
  unfold writePoint, pointWrite. destruct rc as [row col]. cbn [fst snd].
  destruct (index2_eq addresses row col s) as [Ha|Ha];
    rewrite (bind_eq _ _ _ _ _ Ha); [|exists []; apply wrote_refl].
  destruct (index2_eq speeds row col s) as [Hs|Hs];
    rewrite (bind_eq _ _ _ _ _ Hs); [|exists []; apply wrote_refl].
  pose proof (Write_wrote (cell addresses (row, col)) (toByte (cell speeds (row, col))) s)
    as H.
  destruct (fst (ec.Write ctl _ _ s)); [exact H | exact H | destruct H].
Qed.

(** The points are written in order, up to the first that fails. *)
Lemma forEach_writePoint addresses speeds cells (s : State (EcWorld D)) :
  exists done rest tail,
    cells = done ++ rest
    /\ wrote s (snd (forEach cells (writePoint ctl addresses speeds) s))
         (map (pointWrite addresses speeds) done) tail
    /\ (fst (forEach cells (writePoint ctl addresses speeds) s) = Done tt
        <-> rest = [])
    /\ (rest = [] -> tail = []).
Proof.
  revert s. induction cells as [|rc cells IH]; intros s; cbn [forEach].
  - exists [], [], []. split; [reflexivity|]. split; [apply wrote_refl|].
    split; [split; reflexivity | reflexivity].
  - pose proof (writePoint_wrote addresses speeds rc s) as Hw.
    unfold bind.
    destruct (writePoint ctl addresses speeds rc s) as [[[]|e|] s1];
      cbn [fst snd] in Hw.
    + destruct (IH s1) as (done & rest & tail & -> & Hw' & Hiff & Htail).
      exists (rc :: done), rest, tail. split; [reflexivity|].
      split; [apply (wrote_trans _ _ _ _ _ _ Hw Hw')|].
      split; [exact Hiff | exact Htail].
    + destruct Hw as (tail & Hw).
      exists [], (rc :: cells), tail. split; [reflexivity|]. split; [exact Hw|].
      split; [split; discriminate | discriminate].
    + destruct Hw as (tail & Hw).
      exists [], (rc :: cells), tail. split; [reflexivity|]. split; [exact Hw|].
      split; [split; discriminate | discriminate].
Qed.

(** *** The table of speeds *)


Lemma Write_Done a v (s s1 : State (EcWorld D)) :
  ec.Write ctl a v s = (Done tt, s1) -> wrote s s1 [(a, v)] [].
Proof.
  intros H. pose proof (Write_wrote a v s) as Hw.
  rewrite H in Hw. exact Hw.
Qed.

Lemma writeSpeeds_Done addresses speeds (s s1 : State (EcWorld D)) :
  fan.writeSpeeds ctl addresses speeds s = (Done tt, s1) ->
  wrote s s1 (curve addresses speeds) [].
Proof.
  rewrite writeSpeeds_flat. intros H.
  destruct (forEach_writePoint addresses speeds grid s)
    as (done & rest & tail & Hg & Hw & Hiff & Htail).
  rewrite H in Hw, Hiff. cbn [fst snd] in Hw, Hiff.
  pose proof (proj1 Hiff eq_refl) as Hrest.
  rewrite (Htail Hrest) in Hw. rewrite Hrest, app_nil_r in Hg. subst done. exact Hw.
Qed.

Lemma index_eq (l : list Z) i (s : State (EcWorld D)) :
  fan.index l i s
  = (if Nat.ltb i (List.length l) then Done (nth i l 0%Z) else Panic, s).
Proof.
  unfold fan.index. destruct (Nat.ltb_spec i (List.length l)) as [Hlt|Hge].
  - destruct (nth_error l i) as [x|] eqn:Hx.
    + rewrite (nth_error_nth _ _ _ Hx). reflexivity.
    + apply nth_error_None in Hx. lia.
  - apply nth_error_None in Hge. rewrite Hge. reflexivity.
Qed.

(** A switch on the profile that takes its default branch. *)
Lemma switch_default {A} (p : Z) (a b c d : A) (f : Z -> A) :
  p <> 1%Z -> p <> 2%Z -> p <> 3%Z -> p <> 4%Z ->
  match p with
  | 1%Z => a
  | 2%Z => b
  | 3%Z => c
  | 4%Z => d
  | other => f other
  end = f p.
Proof.
  intros H1 H2 H3 H4.
  destruct p as [|q|q]; try reflexivity.
  destruct q as [q|q|]; try congruence;
    destruct q as [q|q|]; try reflexivity; try congruence;
      destruct q as [q|q|]; try reflexivity; congruence.
Qed.

(** *** [ApplyProfile] *)

Lemma ApplyProfile_short cfg (s : State (EcWorld D)) :
  List.length (config.AutoAdvValues cfg) < 3
  \/ List.length (config.CoolerBoosterOffOnValues cfg) < 3 ->
  fan.ApplyProfile ctl cfg s = (Panic, s).
Proof.
  intros H. unfold fan.ApplyProfile.
  destruct (config.AutoAdvValues cfg) as [|a0 [|a1 [|a2 la]]]; try reflexivity.
  destruct (config.CoolerBoosterOffOnValues cfg) as [|b0 [|b1 [|b2 lb]]];
    try reflexivity.
  cbn [List.length] in H. lia.
Qed.

Lemma ApplyProfile_eq cfg (s : State (EcWorld D)) :
  let autoAdv i := nth i (config.AutoAdvValues cfg) 0%Z in
  let booster i := nth i (config.CoolerBoosterOffOnValues cfg) 0%Z in
  3 <= List.length (config.AutoAdvValues cfg) ->
  3 <= List.length (config.CoolerBoosterOffOnValues cfg) ->
  fan.ApplyProfile ctl cfg s
  = match config.Profile cfg with
    | 1%Z =>
        bind (ec.Write ctl (booster 0) (toByte (booster 1)))
          (fun _ =>
             bind (ec.Write ctl (autoAdv 0) (toByte (autoAdv 1)))
               (fun _ =>
                  fan.writeSpeeds ctl (config.CpuGpuFanSpeedAddress cfg)
                    (config.AutoSpeed cfg)))
    | 2%Z =>
        bind (ec.Write ctl (booster 0) (toByte (booster 1)))
          (fun _ =>
             bind (ec.Write ctl (autoAdv 0) (toByte (autoAdv 2)))
               (fun _ =>
                  fan.writeSpeeds ctl (config.CpuGpuFanSpeedAddress cfg)
                    (repeat (repeat (fan.basicSpeed (config.BasicOffset cfg)) 7) 2)))
    | 3%Z =>
        bind (ec.Write ctl (booster 0) (toByte (booster 1)))
          (fun _ =>
             bind (ec.Write ctl (autoAdv 0) (toByte (autoAdv 2)))
               (fun _ =>
                  fan.writeSpeeds ctl (config.CpuGpuFanSpeedAddress cfg)
                    (config.AdvSpeed cfg)))
    | 4%Z => ec.Write ctl (booster 0) (toByte (booster 2))
    | other => throw ("unknown profile: " ++ decimal other)%string
    end s.
Proof.
  cbv zeta. intros HA HB. unfold fan.ApplyProfile.
  destruct (config.AutoAdvValues cfg) as [|a0 [|a1 [|a2 la]]];
    try (cbn [List.length] in HA; lia).
  destruct (config.CoolerBoosterOffOnValues cfg) as [|b0 [|b1 [|b2 lb]]];
    try (cbn [List.length] in HB; lia).
  reflexivity.
Qed.

Lemma ApplyProfile_Done_wrote cfg (s s' : State (EcWorld D)) :
  fan.ApplyProfile ctl cfg s = (Done tt, s') ->
  In (config.Profile cfg) [1; 2; 3; 4]%Z /\ wrote s s' (profileWrites cfg) [].
Proof.
  intros H.
  destruct (le_lt_dec 3 (List.length (config.AutoAdvValues cfg))) as [HA|HA];
    [|rewrite ApplyProfile_short in H by auto; discriminate].
  destruct (le_lt_dec 3 (List.length (config.CoolerBoosterOffOnValues cfg))) as [HB|HB];
    [|rewrite ApplyProfile_short in H by auto; discriminate].
  rewrite (ApplyProfile_eq cfg s HA HB) in H. unfold profileWrites. cbv zeta.
  assert (Hcases : (config.Profile cfg = 1 \/ config.Profile cfg = 2
                    \/ config.Profile cfg = 3 \/ config.Profile cfg = 4
                    \/ (config.Profile cfg <> 1 /\ config.Profile cfg <> 2
                        /\ config.Profile cfg <> 3 /\ config.Profile cfg <> 4))%Z)
    by lia.
  destruct Hcases as [Hp|[Hp|[Hp|[Hp|(H1 & H2 & H3 & H4)]]]];
    try (rewrite Hp in *; split; [cbn; tauto|]).
  - apply bind_Done_inv in H as ([] & s1 & Hw1 & H).
    apply bind_Done_inv in H as ([] & s2 & Hw2 & H).
    apply Write_Done in Hw1, Hw2. apply writeSpeeds_Done in H.
    apply (wrote_trans _ _ _ _ _ _ Hw1 (wrote_trans _ _ _ _ _ _ Hw2 H)).
  - apply bind_Done_inv in H as ([] & s1 & Hw1 & H).
    apply bind_Done_inv in H as ([] & s2 & Hw2 & H).
    apply Write_Done in Hw1, Hw2. apply writeSpeeds_Done in H.
    apply (wrote_trans _ _ _ _ _ _ Hw1 (wrote_trans _ _ _ _ _ _ Hw2 H)).
  - apply bind_Done_inv in H as ([] & s1 & Hw1 & H).
    apply bind_Done_inv in H as ([] & s2 & Hw2 & H).
    apply Write_Done in Hw1, Hw2. apply writeSpeeds_Done in H.
    apply (wrote_trans _ _ _ _ _ _ Hw1 (wrote_trans _ _ _ _ _ _ Hw2 H)).
  - apply Write_Done in H. exact H.
  - exfalso. revert H H1 H2 H3 H4. generalize (config.Profile cfg) as p.
    intros p H H1 H2 H3 H4.
    destruct p as [|q|q]; try discriminate H.
    repeat first [discriminate H | congruence | destruct q as [q|q|]].
Qed.

Lemma writesOf_writeOps ws : writesOf (flat_map writeOps ws) = ws.
Proof.
  induction ws as [|[a v] ws IH]; [reflexivity|].
  cbn [flat_map]. rewrite writesOf_app, IH. reflexivity.
Qed.

(** X11.  A run of [ApplyProfile] that returns nil has written, in this
    order, each byte in a session of its own (open, seek, write, close)
    and with no other access: for Auto (1), Cooler Booster off, the mode
    byte for Auto and the fourteen points of the Auto curve; for Basic
    (2), Cooler Booster off, the mode byte for Advanced and fourteen
    times the Basic speed; for Advanced (3), Cooler Booster off, the mode
    byte for Advanced and the fourteen points of the Advanced curve; for
    Cooler Booster (4), the single byte that turns it on, the mode and
    the curves being left alone.  Every value is written as its low
    eight bits, and the profile is one of these four. *)
Theorem ApplyProfile_writes cfg (s s' : State (EcWorld D)) :
  fan.ApplyProfile ctl cfg s = (Done tt, s') ->
  In (config.Profile cfg) [1; 2; 3; 4]%Z
  /\ ops (world s') = ops (world s) ++ flat_map writeOps (profileWrites cfg)
  /\ writesOf (flat_map writeOps (profileWrites cfg)) = profileWrites cfg
  /\ trace s' = trace s.
Proof.
  intros H. apply ApplyProfile_Done_wrote in H as (Hp & Ho & Ht & _ & _).
  rewrite app_nil_r in Ho. split; [exact Hp|]. split; [exact Ho|].
  split; [apply writesOf_writeOps | exact Ht].
Qed.

Lemma basicSpeed_clamp (o : Z) : fan.basicSpeed o = Z.max 0 (Z.min 30 o).
Proof.
  unfold fan.basicSpeed. cbv zeta.
  destruct (Z.ltb_spec 30 o) as [H1|H1].
  - cbn. lia.
  - destruct (Z.ltb_spec o (-30)) as [H2|H2].
    + cbn. lia.
    + destruct (Z.ltb_spec o 0) as [H3|H3].
      * cbn. lia.
      * destruct (Z.ltb_spec 150 o) as [H4|H4]; lia.
Qed.

Lemma toByte_value (v : Z) : (0 <= v <= 255)%Z -> byteValue (toByte v) = v.
Proof.
  intros Hv. unfold toByte, byteValue. rewrite Z.mod_small by lia.
  destruct (Byte.of_N (Z.to_N v)) as [b|] eqn:E.
  - apply Byte.to_of_N in E. rewrite E. lia.
  - apply Byte.of_N_None_iff in E. lia.
Qed.

(** X12.  In Basic mode the offset of the configuration is the speed
    itself: a run of [ApplyProfile] for profile 2 that returns nil has
    written, after Cooler Booster off and the mode byte for Advanced, one
    and the same byte to all fourteen addresses of the two curves, the
    offset cut to the range from 0 to 30.  So every offset that is not
    positive gives a curve of zeros, and no point is ever above 30 (the
    bound of 150 in the code is never reached). *)
Theorem ApplyProfile_basic_flat cfg (s s' : State (EcWorld D)) :
  config.Profile cfg = 2%Z ->
  fan.ApplyProfile ctl cfg s = (Done tt, s') ->
  let v := Z.max 0 (Z.min 30 (config.BasicOffset cfg)) in
  let autoAdv i := nth i (config.AutoAdvValues cfg) 0%Z in
  let booster i := nth i (config.CoolerBoosterOffOnValues cfg) 0%Z in
  exists l,
    ops (world s') = ops (world s) ++ l
    /\ writesOf l
       = (booster 0%nat, toByte (booster 1%nat))
           :: (autoAdv 0%nat, toByte (autoAdv 2%nat))
           :: map (fun rc => (cell (config.CpuGpuFanSpeedAddress cfg) rc, toByte v)) grid
    /\ byteValue (toByte v) = v
    /\ (0 <= v <= 30)%Z
    /\ (config.BasicOffset cfg <= 0 -> v = 0)%Z.
Proof.
  intros Hp H. cbv zeta.
  apply ApplyProfile_Done_wrote in H as (_ & Ho & _ & _ & _).
  rewrite app_nil_r in Ho. exists (flat_map writeOps (profileWrites cfg)).
  split; [exact Ho|]. rewrite writesOf_writeOps. unfold profileWrites.
  rewrite Hp, basicSpeed_clamp. cbv zeta.
  split; [reflexivity|]. split; [apply toByte_value; lia|]. lia.
Qed.

(** X13.  [ApplyProfile] looks up all six mode and booster values before
    it looks at the profile: with fewer than three values in
    AutoAdvValues or in CoolerBoosterOffOnValues it panics, whatever the
    profile, and with a profile other than 1 to 4 it returns the error
    "unknown profile: <n>"; in both cases the controller's file has not
    been touched. *)
Theorem ApplyProfile_rejects cfg (s : State (EcWorld D)) :
  (List.length (config.AutoAdvValues cfg) < 3
   \/ List.length (config.CoolerBoosterOffOnValues cfg) < 3 ->
   fan.ApplyProfile ctl cfg s = (Panic, s))
  /\ (3 <= List.length (config.AutoAdvValues cfg) ->
      3 <= List.length (config.CoolerBoosterOffOnValues cfg) ->
      ~ In (config.Profile cfg) [1; 2; 3; 4]%Z ->
      fan.ApplyProfile ctl cfg s
      = (Fail ("unknown profile: " ++ decimal (config.Profile cfg))%string, s)).
Proof.
  split; [apply ApplyProfile_short|].
  intros HA HB Hn. rewrite (ApplyProfile_eq cfg s HA HB).
  revert Hn. generalize (config.Profile cfg) as p. intros p Hn. cbn [In] in Hn.
  destruct p as [|q|q]; try reflexivity.
  repeat first [ reflexivity
               | solve [exfalso; apply Hn; auto 6]
               | destruct q as [q|q|] ].
Qed.

(** *** Sessions of every run *)

Lemma closes_after {A} (m : M (EcWorld D) A) :
  (forall s, exists d l, snd (m s) = after s d l /\ bracketed false l = true) ->
  closes m.
Proof.
  intros H s. destruct (H s) as (d & l & -> & Hb). exists l. auto.
Qed.

Lemma closes_ret {A} (a : A) : closes (ret (W:=EcWorld D) a).
Proof. intros s. exists []. rewrite app_nil_r. auto. Qed.

Lemma closes_throw {A} e : closes (throw (W:=EcWorld D) (A:=A) e).
Proof. intros s. exists []. rewrite app_nil_r. auto. Qed.

Lemma closes_panic {A} : closes (panic (W:=EcWorld D) (A:=A)).
Proof. intros s. exists []. rewrite app_nil_r. auto. Qed.

Lemma closes_bind {A B} (m : M (EcWorld D) A) (f : A -> M (EcWorld D) B) :
  closes m -> (forall a, closes (f a)) -> closes (bind m f).
Proof.
  intros Hm Hf s. unfold bind. destruct (Hm s) as (l1 & H1 & B1).
  destruct (m s) as [[a|e|] s1]; cbn [snd] in *; eauto.
  destruct (Hf a s1) as (l2 & H2 & B2).
  exists (l1 ++ l2). rewrite H2, H1, app_assoc. split; [reflexivity|].
  apply bracketed_app; assumption.
Qed.

Lemma closes_forEach {A} (l : list A) (body : A -> M (EcWorld D) unit) :
  (forall a, closes (body a)) -> closes (forEach l body).
Proof.
  intros Hb. induction l as [|a l IH]; cbn [forEach].
  - apply closes_ret.
  - apply closes_bind; auto.
Qed.

Lemma closes_index l i : closes (fan.index (D:=D) l i).
Proof. unfold fan.index. destruct (nth_error l i); [apply closes_ret | apply closes_panic]. Qed.

Lemma closes_index2 m row col : closes (fan.index2 (D:=D) m row col).
Proof.
  unfold fan.index2. destruct (nth_error m row); [apply closes_index | apply closes_panic].
Qed.

Lemma closes_Write a v : closes (ec.Write ctl a v).
Proof.
  apply closes_after. intros s. rewrite Write_eq. cbv zeta.
  destruct (ctl_open ctl (device (world s))); [eexists _, _; split; reflexivity|].
  destruct (ctl_seek ctl a (device (world s))); [eexists _, _; split; reflexivity|].
  destruct (fst (ctl_write ctl a v (device (world s))));
    eexists _, _; split; reflexivity.
Qed.

Lemma closes_Read a size : closes (ec.Read ctl a size).
Proof.
  apply closes_after. intros s. rewrite Read_eq. cbv zeta.
  destruct (ctl_open ctl (device (world s))); [eexists _, _; split; reflexivity|].
  destruct (ctl_seek ctl a (device (world s))); [eexists _, _; split; reflexivity|].
  destruct (size <? 0)%Z; [eexists _, _; split; reflexivity|].
  destruct (fst (ctl_read ctl a (Z.to_nat size) (device (world s))));
    eexists _, _; split; reflexivity.
Qed.

Lemma closes_writeSpeeds addresses speeds :
  closes (fan.writeSpeeds ctl addresses speeds).
Proof.
  unfold fan.writeSpeeds. apply closes_forEach. intros row.
  apply closes_forEach. intros col.
  apply closes_bind; [apply closes_index2|]. intros addr.
  apply closes_bind; [apply closes_index2|]. intros val.
  apply closes_Write.
Qed.

Lemma closes_ApplyProfile cfg : closes (fan.ApplyProfile ctl cfg).
Proof.
  unfold fan.ApplyProfile.
  do 6 (apply closes_bind; [apply closes_index|]; intros ?).
  repeat match goal with
         | |- closes (match ?p with _ => _ end) => destruct p
         end;
    repeat first [ apply closes_Write | apply closes_throw | apply closes_writeSpeeds
                 | apply closes_bind; [|intros ?] ].
Qed.

Lemma closes_GetTemps cfg : closes (fan.GetTemps ctl cfg).
Proof.
  unfold fan.GetTemps.
  repeat first [ apply closes_Read | apply closes_index | apply closes_ret
               | apply closes_bind; [|intros ?] ].
Qed.

Lemma closes_GetRPMs cfg : closes (fan.GetRPMs ctl cfg).
Proof.
  unfold fan.GetRPMs.
  repeat first [ apply closes_Read | apply closes_index | apply closes_ret
               | apply closes_bind; [|intros ?] ].
Qed.

(** X14.  Whatever the configuration, the controller and the result
    (nil, an error or a panic), a run of [ApplyProfile], of [GetTemps] or
    of [GetRPMs] leaves the controller's file closed: the file is opened
    only while it is not open, positioned, read and written only while
    it is open, and every handle that was opened is closed again before
    the next one is opened and before the run ends. *)
Theorem fan_closes_what_it_opens cfg (s : State (EcWorld D)) :
  (exists l,
      ops (world (snd (fan.ApplyProfile ctl cfg s))) = ops (world s) ++ l
      /\ bracketed false l = true)
  /\ (exists l,
         ops (world (snd (fan.GetTemps ctl cfg s))) = ops (world s) ++ l
         /\ bracketed false l = true)
  /\ (exists l,
         ops (world (snd (fan.GetRPMs ctl cfg s))) = ops (world s) ++ l
         /\ bracketed false l = true).
Proof.
  split; [apply closes_ApplyProfile|]. split; [apply closes_GetTemps|].
  apply closes_GetRPMs.
Qed.

(** *** Reading the sensors *)

Lemma decode_range size buf :
  (0 <= decode size buf <= 65535)%Z /\ (size = 1%Z -> (decode size buf <= 255)%Z).
Proof.
  unfold decode.
  pose proof (byteValue_range (nth 0 buf Byte.x00)).
  pose proof (byteValue_range (nth 1 buf Byte.x00)).
  destruct (Z.eqb_spec size 1); [split; lia|].
  destruct (Z.eqb_spec size 2); split; lia.
Qed.

Lemma Read_Done a size (s s1 : State (EcWorld D)) v :
  ec.Read ctl a size s = (Done v, s1) ->
  s1 = after s (device (world s)) (readOps a (Z.to_nat size))
  /\ v = decode size
           (bufferOf (Z.to_nat size)
              (snd (ctl_read ctl a (Z.to_nat size) (device (world s))))).
Proof.
  rewrite Read_eq. cbv zeta.
  destruct (ctl_open ctl (device (world s))); [discriminate|].
  destruct (ctl_seek ctl a (device (world s))); [discriminate|].
  destruct (size <? 0)%Z; [discriminate|].
  destruct (fst (ctl_read ctl a (Z.to_nat size) (device (world s))));
    [discriminate|].
  intros [= <- <-]. auto.
Qed.

Lemma reads_ret {A} (a : A) : reads (ret (W:=EcWorld D) a).
Proof. intros s. exists []. rewrite after_nil. auto. Qed.

Lemma reads_panic {A} : reads (panic (W:=EcWorld D) (A:=A)).
Proof. intros s. exists []. rewrite after_nil. auto. Qed.

Lemma reads_bind {A B} (m : M (EcWorld D) A) (f : A -> M (EcWorld D) B) :
  reads m -> (forall a, reads (f a)) -> reads (bind m f).
Proof.
  intros Hm Hf s. unfold bind. destruct (Hm s) as (l1 & H1 & B1 & W1).
  destruct (m s) as [[a|e|] s1]; cbn [snd] in *; eauto.
  destruct (Hf a s1) as (l2 & H2 & B2 & W2).
  exists (l1 ++ l2). rewrite H2, H1, device_after, after_after, writesOf_app, W1, W2.
  repeat split. apply bracketed_app; assumption.
Qed.

Lemma reads_index l i : reads (fan.index (D:=D) l i).
Proof. unfold fan.index. destruct (nth_error l i); [apply reads_ret | apply reads_panic]. Qed.

Lemma reads_Read a size : reads (ec.Read ctl a size).
Proof.
  intros s. rewrite Read_eq. cbv zeta.
  destruct (ctl_open ctl (device (world s))); [eexists; repeat split; reflexivity|].
  destruct (ctl_seek ctl a (device (world s))); [eexists; repeat split; reflexivity|].
  destruct (size <? 0)%Z; [eexists; repeat split; reflexivity|].
  destruct (fst (ctl_read ctl a (Z.to_nat size) (device (world s))));
    eexists; repeat split; reflexivity.
Qed.

Lemma reads_GetTemps cfg : reads (fan.GetTemps ctl cfg).
Proof.
  unfold fan.GetTemps.
  repeat first [ apply reads_Read | apply reads_index | apply reads_ret
               | apply reads_bind; [|intros ?] ].
Qed.

Lemma reads_GetRPMs cfg : reads (fan.GetRPMs ctl cfg).
Proof.
  unfold fan.GetRPMs.
  repeat first [ apply reads_Read | apply reads_index | apply reads_ret
               | apply reads_bind; [|intros ?] ].
Qed.

Lemma GetTemps_Done cfg (s s' : State (EcWorld D)) cpu gpu :
  fan.GetTemps ctl cfg s = (Done (cpu, gpu), s') ->
  (0 <= cpu <= 255 /\ 0 <= gpu <= 255)%Z.
Proof.
  intros E. unfold fan.GetTemps in E.
  apply bind_Done_inv in E as (a0 & s1 & _ & E).
  apply bind_Done_inv in E as (c & s2 & Hc & E).
  apply bind_Done_inv in E as (a1 & s3 & _ & E).
  apply bind_Done_inv in E as (g & s4 & Hg & E).
  injection E as -> -> _.
  apply Read_Done in Hc as (_ & ->). apply Read_Done in Hg as (_ & ->).
  split.
  + pose proof (decode_range 1 (bufferOf (Z.to_nat 1)
                 (snd (ctl_read ctl a0 (Z.to_nat 1) (device (world s1)))))) as [? ?].
    lia.
  + pose proof (decode_range 1 (bufferOf (Z.to_nat 1)
                 (snd (ctl_read ctl a1 (Z.to_nat 1) (device (world s3)))))) as [? ?].
    lia.
Qed.

Lemma GetRPMs_Done cfg (s s' : State (EcWorld D)) cpu gpu :
  fan.GetRPMs ctl cfg s = (Done (cpu, gpu), s') ->
  (0 <= cpu <= 65535 /\ 0 <= gpu <= 65535)%Z.
Proof.
  intros E. unfold fan.GetRPMs in E.
  apply bind_Done_inv in E as (a0 & s1 & _ & E).
  apply bind_Done_inv in E as (c & s2 & Hc & E).
  apply bind_Done_inv in E as (a1 & s3 & _ & E).
  apply bind_Done_inv in E as (g & s4 & Hg & E).
  injection E as -> -> _.
  apply Read_Done in Hc as (_ & ->). apply Read_Done in Hg as (_ & ->).
  split; apply decode_range.
Qed.

(** X15.  Reading the sensors never writes: whatever the configuration
    and the result, [GetTemps] and [GetRPMs] leave the controller as it
    was and none of their accesses is a write.  When they return values,
    both temperatures lie between 0 and 255 and both fan speeds between 0
    and 65535. *)
Theorem sensors_only_read cfg (s : State (EcWorld D)) :
  (exists l,
      snd (fan.GetTemps ctl cfg s) = after s (device (world s)) l
      /\ writesOf l = [])
  /\ (exists l,
         snd (fan.GetRPMs ctl cfg s) = after s (device (world s)) l
         /\ writesOf l = [])
  /\ (forall cpu gpu,
         fst (fan.GetTemps ctl cfg s) = Done (cpu, gpu) ->
         (0 <= cpu <= 255 /\ 0 <= gpu <= 255)%Z)
  /\ (forall cpu gpu,
         fst (fan.GetRPMs ctl cfg s) = Done (cpu, gpu) ->
         (0 <= cpu <= 65535 /\ 0 <= gpu <= 65535)%Z).
Proof.
  split; [|split; [|split]].
  - destruct (reads_GetTemps cfg s) as (l & H & _ & Hw). eauto.
  - destruct (reads_GetRPMs cfg s) as (l & H & _ & Hw). eauto.
  - intros cpu gpu H.
    destruct (fan.GetTemps ctl cfg s) as [out s'] eqn:E. cbn [fst] in H. subst out.
    exact (GetTemps_Done _ _ _ _ _ E).
  - intros cpu gpu H.
    destruct (fan.GetRPMs ctl cfg s) as [out s'] eqn:E. cbn [fst] in H. subst out.
    exact (GetRPMs_Done _ _ _ _ _ E).
Qed.

Lemma length_bufferOf n data : List.length (bufferOf n data) = n.
Proof.
  unfold bufferOf. apply firstn_length_le.
  rewrite length_app, repeat_length. lia.
Qed.

(** X16.  A read of the controller that returns a value has opened the
    file, positioned it at the address, read once into a buffer of the
    asked size and closed the file, and has changed nothing.  The value
    of one byte is that byte; the value of two bytes is 256 times the
    first byte plus the second (the first byte is the most significant
    one); for every other size the value is 0 whatever was read.  What
    the read did not fill counts as zero. *)
Theorem Read_big_endian a size (s s' : State (EcWorld D)) v :
  ec.Read ctl a size s = (Done v, s') ->
  let n := Z.to_nat size in
  let buf := bufferOf n (snd (ctl_read ctl a n (device (world s)))) in
  s' = after s (device (world s)) (readOps a n)
  /\ List.length buf = n
  /\ (size = 1%Z -> v = byteValue (nth 0 buf Byte.x00))
  /\ (size = 2%Z ->
      v = (256 * byteValue (nth 0 buf Byte.x00) + byteValue (nth 1 buf Byte.x00))%Z)
  /\ (size <> 1%Z -> size <> 2%Z -> v = 0%Z)
  /\ (0 <= v <= 65535)%Z.
Proof.
  intros H. cbv zeta. apply Read_Done in H as (-> & ->).
  split; [reflexivity|]. split; [apply length_bufferOf|].
  split; [intros ->; reflexivity|]. split; [intros ->; reflexivity|].
  split; [|apply decode_range].
  intros H1 H2. unfold decode.
  destruct (Z.eqb_spec size 1); [contradiction|].
  destruct (Z.eqb_spec size 2); [contradiction|]. reflexivity.
Qed.

End EcFacts.

(* ================================================================== *)
(** ** The fan code on the simulated controller *)

Section FanExamples.

Local Open Scope list_scope.

Lemma ApplyProfile_writes_witness :
  ops (world (snd (fan.ApplyProfile simController config.DefaultConfig (initialEc []))))
  = flat_map writeOps (profileWrites config.DefaultConfig)
  /\ List.length (profileWrites config.DefaultConfig) = 16.
Proof.
  split; [|reflexivity].
  apply (ApplyProfile_writes simController config.DefaultConfig (initialEc [])
           (snd (fan.ApplyProfile simController config.DefaultConfig (initialEc [])))).
  vm_compute. reflexivity.
Defined.

Lemma ApplyProfile_basic_flat_witness :
  exists l,
    ops (world (snd (fan.ApplyProfile simController basicConfig (initialEc [])))) = l
    /\ writesOf l
       = (0x98%Z, toByte 2) :: (0xd4%Z, toByte 141)
           :: map (fun rc => (cell (config.CpuGpuFanSpeedAddress basicConfig) rc,
                              toByte 0)) grid.
Proof.
  destruct (ApplyProfile_basic_flat simController basicConfig (initialEc [])
              (snd (fan.ApplyProfile simController basicConfig (initialEc [])))
              eq_refl ltac:(vm_compute; reflexivity))
    as (l & Ho & Hw & _).
  exists l. split; [exact Ho | exact Hw].
Defined.

Lemma ApplyProfile_rejects_witness :
  fan.ApplyProfile simController shortConfig (initialEc []) = (Panic, initialEc [])
  /\ fan.ApplyProfile simController unknownConfig (initialEc [])
     = (Fail "unknown profile: 7", initialEc []).
Proof.
  split.
  - apply (proj1 (ApplyProfile_rejects simController shortConfig (initialEc []))).
    left. cbn. lia.
  - apply (proj2 (ApplyProfile_rejects simController unknownConfig (initialEc [])));
      cbn; intuition (try lia; discriminate).
Defined.

Lemma sensors_only_read_witness :
  (0 <= 45 <= 255 /\ 0 <= 50 <= 255)%Z
  /\ (0 <= 3000 <= 65535 /\ 0 <= 3100 <= 65535)%Z.
Proof.
  split.
  - apply (proj1 (proj2 (proj2 (sensors_only_read simController config.DefaultConfig
                                  (initialEc sensorRegisters))))).
    vm_compute. reflexivity.
  - apply (proj2 (proj2 (proj2 (sensors_only_read simController config.DefaultConfig
                                  (initialEc sensorRegisters))))).
    vm_compute. reflexivity.
Defined.

Lemma Read_big_endian_witness :
  3000%Z
  = (256 * byteValue (nth 0 [toByte 0x0b; toByte 0xb8] Byte.x00)
     + byteValue (nth 1 [toByte 0x0b; toByte 0xb8] Byte.x00))%Z.
Proof.
  apply (proj1 (proj2 (proj2 (proj2
           (Read_big_endian simController 0xc8 2 (initialEc sensorRegisters)
              (snd (ec.Read simController 0xc8 2 (initialEc sensorRegisters)))
              3000 ltac:(vm_compute; reflexivity)))))).
  reflexivity.
Defined.

(** The default profile on a controller that refuses writes: the first
    write fails, with the value in decimal and the address in
    hexadecimal in the message, and the file is closed. *)
Example ApplyProfile_refused :
  fan.ApplyProfile readOnlyController config.DefaultConfig (initialEc [])
  = (Fail ("failed to write value 2 to byte 98: "
             ++ "write /sys/kernel/debug/ec/ec0/io: operation not permitted")%string,
     mkState (mkEcWorld []
                [OpOpen true; OpSeek 0x98 true; OpWrite 0x98 (toByte 2) false; OpClose])
       []).
Proof. vm_compute. reflexivity. Qed.

(** A curve that is too short: the first row is written, then the code
    panics, and the seven points stay written. *)
Example writeSpeeds_panics_midway :
  let run := fan.writeSpeeds simController
               (config.CpuGpuFanSpeedAddress config.DefaultConfig)
               [[0; 40; 48; 56; 64; 72; 80]%Z] (initialEc []) in
  fst run = Panic
  /\ List.length (writesOf (ops (world (snd run)))) = 7.
Proof. vm_compute. split; reflexivity. Qed.

End FanExamples.


(* ================================================================== *)
(** ** The update of the user interface *)

Section UiFacts.

Context {U Spinner SpinnerTick SpinnerCmd Viewport Chan : Type}.

Variable w : ui.Widgets U Spinner SpinnerTick SpinnerCmd Viewport Chan.

Local Open Scope Z_scope.

Lemma int_small z : -2 ^ 63 <= z < 2 ^ 63 -> ui.int z = z.
Proof. intros H. unfold ui.int. rewrite Z.mod_small; lia. Qed.

Lemma isKey_In key names : ui.isKey key names = true <-> In key names.
Proof.
  unfold ui.isKey. rewrite existsb_exists. split.
  - intros (x & Hin & Heq). apply String.eqb_eq in Heq. subst. exact Hin.
  - intros Hin. exists key. split; [exact Hin|apply String.eqb_refl].
Qed.

Lemma withCursor_same (m : ui.model Spinner Viewport Chan) :
  ui.withCursor m (ui.cursor m) = m.
Proof. destruct m. reflexivity. Qed.

Lemma withCursor_twice (m : ui.model Spinner Viewport Chan) a b :
  ui.withCursor (ui.withCursor m a) b = ui.withCursor m b.
Proof. reflexivity. Qed.

Ltac ui_cases H :=
  repeat match type of H with
         | context [match ?e with _ => _ end] => destruct e eqn:?
         | context [if ?e then _ else _] => destruct e eqn:?
         end.

(** X17.  The menu never loses its cursor: [Update] never changes the
    list of profiles, and a cursor that points at one of them points at one
    of them after every message, whatever the packages answer. *)
Theorem Update_keeps_cursor_in_range (p : ui.Packages U)
  (m m' : ui.model Spinner Viewport Chan) msg cmd (s s' : State U) :
  Z.of_nat (List.length (ui.profiles m)) < 2 ^ 63 ->
  0 <= ui.cursor m < Z.of_nat (List.length (ui.profiles m)) ->
  ui.Update w p m msg s = (Done (m', cmd), s') ->
  ui.profiles m' = ui.profiles m
  /\ 0 <= ui.cursor m' < Z.of_nat (List.length (ui.profiles m')).
Proof.
  intros Hlen Hc H.
  destruct msg as [width height|key|line|e|t| |]; cbn in H.
  - injection H as <- _ _. cbn. auto.
  - unfold bind, ret, ui.attempt, ui.profileAt, panic in H.
    ui_cases H; try discriminate; injection H as <- _ _; cbn;
      rewrite ?int_small by lia; split; try reflexivity; try lia.
  - injection H as <- _ _. cbn. auto.
  - destruct e; injection H as <- _ _; cbn; auto.
  - injection H as <- _ _. cbn. auto.
  - unfold bind, ret, ui.attempt in H.
    ui_cases H; try discriminate; injection H as <- _ _; cbn; auto.
  - injection H as <- _ _. cbn. auto.
Qed.

Lemma key_down key :
  In key ["down"; "j"]%string ->
  ui.isKey key ["ctrl+c"; "q"]%string = false
  /\ ui.isKey key ["up"; "k"]%string = false
  /\ ui.isKey key ["down"; "j"]%string = true.
Proof. intros [<-|[<-|[]]]; repeat split. Qed.

Lemma key_up key :
  In key ["up"; "k"]%string ->
  ui.isKey key ["ctrl+c"; "q"]%string = false
  /\ ui.isKey key ["up"; "k"]%string = true.
Proof. intros [<-|[<-|[]]]; repeat split. Qed.

Lemma key_enter key :
  In key ["enter"; " "]%string ->
  ui.isKey key ["ctrl+c"; "q"]%string = false
  /\ ui.isKey key ["up"; "k"]%string = false
  /\ ui.isKey key ["down"; "j"]%string = false
  /\ ui.isKey key ["enter"; " "]%string = true.
Proof. intros [<-|[<-|[]]]; repeat split. Qed.

Lemma Update_down (p : ui.Packages U) (m : ui.model Spinner Viewport Chan) key
  (s : State U) :
  ui.needsSetup m = false ->
  Z.of_nat (List.length (ui.profiles m)) < 2 ^ 63 ->
  0 <= ui.cursor m < Z.of_nat (List.length (ui.profiles m)) ->
  In key ["down"; "j"]%string ->
  ui.Update w p m (ui.KeyMsg key) s
  = (Done (ui.withCursor m ((ui.cursor m + 1) mod Z.of_nat (List.length (ui.profiles m))),
           ui.Batch []), s).
Proof.
  intros Hn Hlen Hc Hk. destruct (key_down key Hk) as (K1 & K2 & K3).
  unfold ui.Update. rewrite K1, K2, K3, Hn.
  destruct (Z.ltb_spec (ui.cursor m) (Z.of_nat (List.length (ui.profiles m)) - 1)).
  - rewrite int_small by lia. rewrite Z.mod_small by lia. reflexivity.
  - replace (ui.cursor m + 1) with (Z.of_nat (List.length (ui.profiles m))) by lia.
    rewrite Z.mod_same by lia. reflexivity.
Qed.

Lemma Update_up (p : ui.Packages U) (m : ui.model Spinner Viewport Chan) key
  (s : State U) :
  ui.needsSetup m = false ->
  Z.of_nat (List.length (ui.profiles m)) < 2 ^ 63 ->
  0 <= ui.cursor m < Z.of_nat (List.length (ui.profiles m)) ->
  In key ["up"; "k"]%string ->
  ui.Update w p m (ui.KeyMsg key) s
  = (Done (ui.withCursor m ((ui.cursor m - 1) mod Z.of_nat (List.length (ui.profiles m))),
           ui.Batch []), s).
Proof.
  intros Hn Hlen Hc Hk. destruct (key_up key Hk) as (K1 & K2).
  unfold ui.Update. rewrite K1, K2, Hn.
  destruct (Z.ltb_spec 0 (ui.cursor m)).
  - rewrite int_small by lia. rewrite Z.mod_small by lia. reflexivity.
  - replace (ui.cursor m) with 0 by lia.
    replace ((0 - 1) mod Z.of_nat (List.length (ui.profiles m)))
      with (Z.of_nat (List.length (ui.profiles m)) - 1); [reflexivity|].
    apply Z.mod_unique with (q := -1); lia.
Qed.

(** X18.  The cursor goes round the menu: on the profile screen, with the
    cursor on one of the [n] profiles, a key down moves it to the next
    profile modulo [n] and a key up to the one before modulo [n], without
    a call of any package; so a key up after a key down gives back the
    very model, and so does a key down after a key up. *)
Theorem cursor_goes_round (p : ui.Packages U) (m : ui.model Spinner Viewport Chan)
  (s : State U) down up :
  ui.needsSetup m = false ->
  Z.of_nat (List.length (ui.profiles m)) < 2 ^ 63 ->
  0 <= ui.cursor m < Z.of_nat (List.length (ui.profiles m)) ->
  In down ["down"; "j"]%string ->
  In up ["up"; "k"]%string ->
  let n := Z.of_nat (List.length (ui.profiles m)) in
  let lower := ui.withCursor m ((ui.cursor m + 1) mod n) in
  let upper := ui.withCursor m ((ui.cursor m - 1) mod n) in
  ui.Update w p m (ui.KeyMsg down) s = (Done (lower, ui.Batch []), s)
  /\ ui.Update w p m (ui.KeyMsg up) s = (Done (upper, ui.Batch []), s)
  /\ ui.Update w p lower (ui.KeyMsg up) s = (Done (m, ui.Batch []), s)
  /\ ui.Update w p upper (ui.KeyMsg down) s = (Done (m, ui.Batch []), s).
Proof.
  intros Hn Hlen Hc Hd Hu n lower upper.
  assert (Hl : 0 <= (ui.cursor m + 1) mod n < n) by (apply Z.mod_pos_bound; lia).
  assert (Hh : 0 <= (ui.cursor m - 1) mod n < n) by (apply Z.mod_pos_bound; lia).
  split; [apply Update_down; assumption|].
  split; [apply Update_up; assumption|].
  subst lower upper. split.
  - rewrite Update_up by assumption. cbn [ui.cursor ui.profiles ui.withCursor].
    fold n. rewrite withCursor_twice.
    replace (((ui.cursor m + 1) mod n - 1) mod n) with (ui.cursor m);
      [rewrite withCursor_same; reflexivity|].
    rewrite Zminus_mod_idemp_l. replace (ui.cursor m + 1 - 1) with (ui.cursor m) by lia.
    rewrite Z.mod_small; lia.
  - rewrite Update_down by assumption. cbn [ui.cursor ui.profiles ui.withCursor].
    fold n. rewrite withCursor_twice.
    replace (((ui.cursor m - 1) mod n + 1) mod n) with (ui.cursor m);
      [rewrite withCursor_same; reflexivity|].
    rewrite Zplus_mod_idemp_l. replace (ui.cursor m - 1 + 1) with (ui.cursor m) by lia.
    rewrite Z.mod_small; lia.
Qed.

(** X19.  The setup screen leaves the hardware and the configuration
    alone: while [needsSetup] holds, no message makes [Update] call
    [ApplyProfile], [Save], [GetTemps] or [GetRPMs] (its result is the same
    for any two sets of packages), and the configuration, the cursor, the
    status message and the readings stay as they are.  The screen is left
    only by the message that setup finished without an error, and that
    message starts the polling. *)
Theorem setup_screen_calls_no_package (p p' : ui.Packages U)
  (m : ui.model Spinner Viewport Chan) msg (s : State U) :
  ui.needsSetup m = true ->
  ui.Update w p m msg s = ui.Update w p' m msg s
  /\ forall m' cmd s',
       ui.Update w p m msg s = (Done (m', cmd), s') ->
       ui.config m' = ui.config m
       /\ ui.cursor m' = ui.cursor m
       /\ ui.statusMsg m' = ui.statusMsg m
       /\ (ui.cpuTemp m', ui.gpuTemp m', ui.cpuRpm m', ui.gpuRpm m', ui.err m')
          = (ui.cpuTemp m, ui.gpuTemp m, ui.cpuRpm m, ui.gpuRpm m, ui.err m)
       /\ (ui.needsSetup m' = true
           \/ (msg = ui.setupFinishedMsg None /\ cmd = ui.Tick)).
Proof.
  intros Hn. split.
  - destruct msg as [width height|key|line|e|t| |]; cbn; rewrite ?Hn; reflexivity.
  - intros m' cmd s' H.
    destruct msg as [width height|key|line|e|t| |]; cbn in H; rewrite ?Hn in H.
    + injection H as <- _ _. cbn. auto 6.
    + unfold bind, ret in H. cbn in H.
      ui_cases H; try discriminate; injection H as <- _ _; cbn; auto 6.
    + injection H as <- _ _. cbn. auto 6.
    + destruct e; injection H as <- <- _; cbn; auto 7.
    + injection H as <- _ _. cbn. auto 6.
    + injection H as <- _ _. auto 6.
    + injection H as <- _ _. auto 6.
Qed.

(** X20.  Setup is started once: on the setup screen the first enter (or
    space) makes one channel and hands back the command that runs the setup
    and the command that waits for its log, both on that channel; as long
    as the model says that setup is running, another enter changes nothing
    and hands back no command; a message that setup failed keeps the
    screen, records the error and allows the next start. *)
Theorem setup_starts_once (p : ui.Packages U) (m : ui.model Spinner Viewport Chan)
  key key' ch (s s1 : State U) :
  ui.needsSetup m = true ->
  ui.setupRunning m = false ->
  In key ["enter"; " "]%string ->
  In key' ["enter"; " "]%string ->
  ui.makeChan w s = (Done ch, s1) ->
  exists m1,
    ui.Update w p m (ui.KeyMsg key) s
    = (Done (m1, ui.Batch [ui.RunSetup (Some ch); ui.WaitForSetupLog (Some ch)]), s1)
    /\ ui.setupRunning m1 = true
    /\ ui.needsSetup m1 = true
    /\ ui.setupErr m1 = None
    /\ ui.setupChan m1 = Some ch
    /\ (forall s2, ui.Update w p m1 (ui.KeyMsg key') s2 = (Done (m1, ui.CmdNil), s2))
    /\ (forall e s2, exists m2,
          ui.Update w p m1 (ui.setupFinishedMsg (Some e)) s2 = (Done (m2, ui.Batch []), s2)
          /\ ui.needsSetup m2 = true
          /\ ui.setupRunning m2 = false
          /\ ui.setupErr m2 = Some e).
Proof.
  intros Hn Hr Hk Hk' Hch.
  destruct (key_enter key Hk) as (K1 & K2 & K3 & K4).
  destruct (key_enter key' Hk') as (K1' & K2' & K3' & K4').
  eexists. split.
  - unfold ui.Update. rewrite K1, K2, K3, K4, Hn, Hr. cbn [negb].
    unfold bind. rewrite Hch. reflexivity.
  - do 4 (split; [reflexivity|]). split.
    + intros s2. unfold ui.Update. rewrite K1', K2', K3', K4'. reflexivity.
    + intros e s2. eexists. split; [reflexivity|]. cbn. auto.
Qed.

End UiFacts.

(** *** The interface on the fan package *)

Section UiOnFan.

Context {D Spinner SpinnerTick SpinnerCmd Viewport Chan : Type}.

Variable w : ui.Widgets (EcWorld D) Spinner SpinnerTick SpinnerCmd Viewport Chan.
Variable ctl : Controller D.
Variable save : config.Config -> M (EcWorld D) unit.

Local Open Scope Z_scope.

Lemma int_profile c :
  -2 ^ 63 <= c < 2 ^ 63 -> In (ui.int (c + 1)) [1; 2; 3; 4] ->
  0 <= c < 4 /\ ui.int (c + 1) = c + 1.
Proof.
  intros Hc Hin. unfold ui.int in *.
  destruct (Z.eq_dec c (2 ^ 63 - 1)) as [->|Hne].
  - exfalso. cbn in Hin. vm_compute in Hin. intuition discriminate.
  - rewrite Z.mod_small in * by lia. cbn in Hin. lia.
Qed.

Lemma profileAt_four (c : Z) (s : State (EcWorld D)) :
  0 <= c < 4 ->
  exists name,
    nth_error ["Auto"; "Basic"; "Advanced"; "Cooler Booster"]%string (Z.to_nat c)
    = Some name
    /\ ui.profileAt ["Auto"; "Basic"; "Advanced"; "Cooler Booster"]%string c s
       = (Done name, s).
Proof.
  intros Hc. unfold ui.profileAt.
  destruct (Z.ltb_spec c 0); [lia|].
  assert (Hcases : c = 0 \/ c = 1 \/ c = 2 \/ c = 3) by lia.
  destruct Hcases as [-> | [-> | [-> | ->]]]; eexists; split; reflexivity.
Qed.

(** X21.  Enter applies, then saves: on the profile screen, with the four
    profiles of [InitialModel], enter (or space) puts the cursor's profile
    number into the configuration and applies it.  An error of
    [ApplyProfile] becomes the status message and nothing is saved.  When
    [ApplyProfile] returned nil the cursor is on one of the four profiles,
    so the look-up of its name cannot panic, and just this configuration is
    saved; an error of [Save] replaces the status message.  [Update] itself
    returns no error, and it panics only where [ApplyProfile] or [Save]
    does. *)
Theorem enter_applies_then_saves (m : ui.model Spinner Viewport Chan) key
  (s : State (EcWorld D)) :
  ui.needsSetup m = false ->
  ui.profiles m = ["Auto"; "Basic"; "Advanced"; "Cooler Booster"]%string ->
  -2 ^ 63 <= ui.cursor m < 2 ^ 63 ->
  In key ["enter"; " "]%string ->
  let cfg := ui.withProfile (ui.config m) (ui.int (ui.cursor m + 1)) in
  let m1 := ui.withConfig m cfg in
  let run := ui.Update w (fanPackages ctl save) m (ui.KeyMsg key) s in
  (forall e s1,
      fan.ApplyProfile ctl cfg s = (Fail e, s1) ->
      run = (Done (ui.withStatus m1 (ui.highVoltage ++ " Error: " ++ e), ui.Batch []),
             s1))
  /\ (forall s1,
         fan.ApplyProfile ctl cfg s = (Done tt, s1) ->
         exists name,
           nth_error (ui.profiles m) (Z.to_nat (ui.cursor m)) = Some name
           /\ 0 <= ui.cursor m < 4
           /\ config.Profile cfg = ui.cursor m + 1
           /\ (forall s2,
                  save cfg s1 = (Done tt, s2) ->
                  run = (Done (ui.withStatus m1 (ui.sparkles ++ " Applied: " ++ name),
                               ui.Batch []), s2))
           /\ (forall e s2,
                  save cfg s1 = (Fail e, s2) ->
                  run = (Done (ui.withStatus m1 (ui.warning ++ " Saved failed: " ++ e),
                               ui.Batch []), s2)))
  /\ (forall e, fst run <> Fail e)
  /\ (fst run = Panic ->
      fst (fan.ApplyProfile ctl cfg s) = Panic
      \/ exists s1, fan.ApplyProfile ctl cfg s = (Done tt, s1)
                    /\ fst (save cfg s1) = Panic).
Proof.
  intros Hn Hp Hc Hk cfg m1 run.
  destruct (key_enter key Hk) as (K1 & K2 & K3 & K4).
  assert (Hrun : run
    = match fan.ApplyProfile ctl cfg s with
      | (Done _, s1) =>
          match ui.profileAt (ui.profiles m) (ui.cursor m) s1 with
          | (Done name, s1') =>
              match save cfg s1' with
              | (Done _, s2) =>
                  (Done (ui.withStatus m1 (ui.sparkles ++ " Applied: " ++ name),
                         ui.Batch []), s2)
              | (Fail e, s2) =>
                  (Done (ui.withStatus m1 (ui.warning ++ " Saved failed: " ++ e),
                         ui.Batch []), s2)
              | (Panic, s2) => (Panic, s2)
              end
          | (Fail e, s1') => (Fail e, s1')
          | (Panic, s1') => (Panic, s1')
          end
      | (Fail e, s1) =>
          (Done (ui.withStatus m1 (ui.highVoltage ++ " Error: " ++ e), ui.Batch []), s1)
      | (Panic, s1) => (Panic, s1)
      end).
  { subst run. unfold ui.Update. rewrite K1, K2, K3, K4, Hn.
    unfold bind, ui.attempt, ret. cbn [ui.config ui.withConfig ui.ApplyProfile
      ui.Save fanPackages ui.profiles ui.cursor ui.withStatus].
    fold cfg. destruct (fan.ApplyProfile ctl cfg s) as [[[]|e|] s1]; try reflexivity.
    destruct (ui.profileAt (ui.profiles m) (ui.cursor m) s1) as [[name|e|] s1'];
      try reflexivity.
    destruct (save cfg s1') as [[[]|e|] s2]; reflexivity. }
  assert (Hdone : forall s1, fan.ApplyProfile ctl cfg s = (Done tt, s1) ->
            0 <= ui.cursor m < 4 /\ ui.int (ui.cursor m + 1) = ui.cursor m + 1).
  { intros s1 Ha. apply ApplyProfile_Done_wrote in Ha as [Hin _].
    apply int_profile; assumption. }
  split; [|split; [|split]].
  - intros e s1 Ha. rewrite Hrun, Ha. reflexivity.
  - intros s1 Ha. destruct (Hdone s1 Ha) as [Hr Hi].
    destruct (profileAt_four (ui.cursor m) s1 Hr) as (name & Hnth & Hat).
    exists name. rewrite Hp. split; [exact Hnth|]. split; [exact Hr|].
    split; [exact Hi|]. rewrite Hrun, Ha, Hp, Hat.
    split; [intros s2 Hs|intros e s2 Hs]; rewrite Hs; reflexivity.
  - intros e. rewrite Hrun.
    destruct (fan.ApplyProfile ctl cfg s) as [[[]|e1|] s1] eqn:Ha;
      [|discriminate|discriminate].
    destruct (Hdone s1 eq_refl) as [Hr _].
    destruct (profileAt_four (ui.cursor m) s1 Hr) as (name & _ & Hat).
    rewrite Hp, Hat. destruct (save cfg s1) as [[[]|e2|] s2]; discriminate.
  - rewrite Hrun.
    destruct (fan.ApplyProfile ctl cfg s) as [[[]|e1|] s1] eqn:Ha;
      [|discriminate|left; reflexivity].
    destruct (Hdone s1 eq_refl) as [Hr _].
    destruct (profileAt_four (ui.cursor m) s1 Hr) as (name & _ & Hat).
    rewrite Hp, Hat. intros Hpanic. right. exists s1. split; [reflexivity|].
    destruct (save cfg s1) as [[[]|e2|] s2]; try discriminate. reflexivity.
Qed.

Lemma Read_returns a size (s : State (EcWorld D)) :
  0 <= size -> fst (ec.Read ctl a size s) <> Panic.
Proof.
  intros Hs. rewrite Read_eq. cbv zeta.
  destruct (ctl_open ctl (device (world s))); [discriminate|].
  destruct (ctl_seek ctl a (device (world s))); [discriminate|].
  destruct (Z.ltb_spec size 0); [lia|].
  destruct (fst (ctl_read ctl a (Z.to_nat size) (device (world s)))); discriminate.
Qed.

Lemma poll_returns (l : list Z) size (s : State (EcWorld D)) :
  (2 <= List.length l)%nat -> 0 <= size ->
  fst ((cpuAddr <- fan.index l 0 ;;
        cpu <- ec.Read ctl cpuAddr size ;;
        gpuAddr <- fan.index l 1 ;;
        gpu <- ec.Read ctl gpuAddr size ;;
        ret (cpu, gpu))%go s) <> Panic.
Proof.
  intros Hl Hs. unfold bind. rewrite index_eq.
  destruct (Nat.ltb_spec 0 (List.length l)); [|lia].
  pose proof (Read_returns (nth 0 l 0) size s Hs) as H1.
  destruct (ec.Read ctl (nth 0 l 0) size s) as [[cpu|e|] s1];
    [|discriminate|elim H1; reflexivity].
  rewrite index_eq. destruct (Nat.ltb_spec 1 (List.length l)); [|lia].
  pose proof (Read_returns (nth 1 l 0) size s1 Hs) as H2.
  destruct (ec.Read ctl (nth 1 l 0) size s1) as [[gpu|e|] s2];
    [discriminate|discriminate|elim H2; reflexivity].
Qed.

(** X22.  A tick on the profile screen polls and re-arms: [Update] reads
    the temperatures and then, also after a failed reading, the fan
    speeds; the controller's file is handled in sessions and nothing is
    written.  Errors of the readings never leave [Update]: a failed reading
    shows as zeros and sets [err], which no later good reading clears.
    When [Update] returns, the next tick is scheduled and the readings are
    within one and two bytes; with two addresses in each list it always
    returns. *)
Theorem tick_polls_and_rearms (m : ui.model Spinner Viewport Chan)
  (s : State (EcWorld D)) :
  ui.needsSetup m = false ->
  let run := ui.Update w (fanPackages ctl save) m ui.tickMsg s in
  (exists l,
      snd run = after s (device (world s)) l
      /\ bracketed false l = true
      /\ writesOf l = [])
  /\ (fst (fan.GetTemps ctl (ui.config m) s) <> Panic ->
      snd run = snd (fan.GetRPMs ctl (ui.config m)
                       (snd (fan.GetTemps ctl (ui.config m) s))))
  /\ (forall e, fst run <> Fail e)
  /\ (forall m' cmd,
         fst run = Done (m', cmd) ->
         cmd = ui.Batch [ui.Tick]
         /\ (ui.config m', ui.cursor m', ui.statusMsg m', ui.needsSetup m')
            = (ui.config m, ui.cursor m, ui.statusMsg m, false)
         /\ (0 <= ui.cpuTemp m' <= 255 /\ 0 <= ui.gpuTemp m' <= 255)
         /\ (0 <= ui.cpuRpm m' <= 65535 /\ 0 <= ui.gpuRpm m' <= 65535)
         /\ (ui.err m <> None -> ui.err m' <> None)
         /\ (forall e, fst (fan.GetTemps ctl (ui.config m) s) = Fail e ->
             ui.cpuTemp m' = 0 /\ ui.gpuTemp m' = 0 /\ ui.err m' <> None))
  /\ ((2 <= List.length (config.CpuGpuTempAddress (ui.config m)))%nat ->
      (2 <= List.length (config.CpuGpuRpmAddress (ui.config m)))%nat ->
      fst run <> Panic).
Proof.
  intros Hn run.
  pose proof (reads_GetTemps ctl (ui.config m) s) as (l1 & Hs1 & Hb1 & Hw1).
  pose proof (poll_returns (config.CpuGpuTempAddress (ui.config m)) 1 s) as Ht.
  fold (fan.GetTemps ctl (ui.config m)) in Ht.
  subst run. unfold ui.Update. rewrite Hn. unfold bind, ui.attempt, ret.
  cbn [ui.GetTemps ui.GetRPMs fanPackages].
  destruct (fan.GetTemps ctl (ui.config m) s) as [[[cpu gpu]|e1|] s1] eqn:E1;
    cbn [snd fst ui.config ui.withTemps ui.withErr] in *.
  - pose proof (reads_GetRPMs ctl (ui.config m) s1) as (l2 & Hs2 & Hb2 & Hw2).
    pose proof (poll_returns (config.CpuGpuRpmAddress (ui.config m)) 2 s1) as Hr.
    fold (fan.GetRPMs ctl (ui.config m)) in Hr.
    apply GetTemps_Done in E1.
    destruct (fan.GetRPMs ctl (ui.config m) s1) as [[[cr gr]|e2|] s2] eqn:E2;
      cbn [snd fst] in *.
    + apply GetRPMs_Done in E2.
      split; [exists (l1 ++ l2)%list; subst s1 s2;
              rewrite device_after, after_after, writesOf_app, Hw1, Hw2;
              auto using bracketed_app|].
      split; [reflexivity|]. split; [discriminate|]. split.
      * intros m' cmd [= <- <-]. cbn. rewrite Hn.
        repeat split; try lia; try discriminate; auto.
      * discriminate.
    + split; [exists (l1 ++ l2)%list; subst s1 s2;
              rewrite device_after, after_after, writesOf_app, Hw1, Hw2;
              auto using bracketed_app|].
      split; [reflexivity|]. split; [discriminate|]. split.
      * intros m' cmd [= <- <-]. cbn. rewrite Hn.
        repeat split; try lia; try discriminate; auto.
      * discriminate.
    + split; [exists (l1 ++ l2)%list; subst s1 s2;
              rewrite device_after, after_after, writesOf_app, Hw1, Hw2;
              auto using bracketed_app|].
      split; [reflexivity|]. split; [discriminate|]. split; [discriminate|].
      intros _ H2 _. elim Hr; [exact H2|lia|reflexivity].
  - pose proof (reads_GetRPMs ctl (ui.config m) s1) as (l2 & Hs2 & Hb2 & Hw2).
    pose proof (poll_returns (config.CpuGpuRpmAddress (ui.config m)) 2 s1) as Hr.
    fold (fan.GetRPMs ctl (ui.config m)) in Hr.
    destruct (fan.GetRPMs ctl (ui.config m) s1) as [[[cr gr]|e2|] s2] eqn:E2;
      cbn [snd fst] in *.
    + apply GetRPMs_Done in E2.
      split; [exists (l1 ++ l2)%list; subst s1 s2;
              rewrite device_after, after_after, writesOf_app, Hw1, Hw2;
              auto using bracketed_app|].
      split; [reflexivity|]. split; [discriminate|]. split.
      * intros m' cmd [= <- <-]. cbn. rewrite Hn.
        repeat split; try lia; try discriminate; auto.
      * discriminate.
    + split; [exists (l1 ++ l2)%list; subst s1 s2;
              rewrite device_after, after_after, writesOf_app, Hw1, Hw2;
              auto using bracketed_app|].
      split; [reflexivity|]. split; [discriminate|]. split.
      * intros m' cmd [= <- <-]. cbn. rewrite Hn.
        repeat split; try lia; try discriminate; auto.
      * discriminate.
    + split; [exists (l1 ++ l2)%list; subst s1 s2;
              rewrite device_after, after_after, writesOf_app, Hw1, Hw2;
              auto using bracketed_app|].
      split; [reflexivity|]. split; [discriminate|]. split; [discriminate|].
      intros _ H2 _. elim Hr; [exact H2|lia|reflexivity].
  - split; [exists l1; auto|]. split; [intros H; elim H; reflexivity|].
    split; [discriminate|]. split; [discriminate|].
    intros H1 _ _. elim Ht; [exact H1|lia|reflexivity].
Qed.

End UiOnFan.

(** *** Runs of the interface on the simulated controller *)

Lemma Update_keeps_cursor_in_range_witness :
  ui.profiles (ui.withCursor (simModel basicConfig false) 2)
  = ui.profiles (simModel basicConfig false)
  /\ (0 <= ui.cursor (ui.withCursor (simModel basicConfig false) 2)
      < Z.of_nat (List.length
                    (ui.profiles (ui.withCursor (simModel basicConfig false) 2))))%Z.
Proof.
  apply (Update_keeps_cursor_in_range simWidgets noPackages
           (simModel basicConfig false) _ (ui.KeyMsg "down") (ui.Batch [])
           (initialEc []) (initialEc [])).
  - vm_compute. reflexivity.
  - vm_compute. split; [discriminate|reflexivity].
  - vm_compute. reflexivity.
Defined.

Lemma cursor_goes_round_witness :
  ui.Update simWidgets noPackages
    (ui.withCursor (simModel basicConfig false) 2) (ui.KeyMsg "k") (initialEc [])
  = (Done (simModel basicConfig false, ui.Batch []), initialEc []).
Proof.
  apply (cursor_goes_round simWidgets noPackages (simModel basicConfig false)
           (initialEc []) "j" "k").
  - reflexivity.
  - vm_compute. reflexivity.
  - vm_compute. split; [discriminate|reflexivity].
  - right. left. reflexivity.
  - right. left. reflexivity.
Defined.

Lemma setup_screen_calls_no_package_witness :
  ui.Update simWidgets (fanPackages simController (fun _ => ret tt))
    (simModel basicConfig true) ui.tickMsg (initialEc sensorRegisters)
  = ui.Update simWidgets noPackages
      (simModel basicConfig true) ui.tickMsg (initialEc sensorRegisters).
Proof.
  apply (setup_screen_calls_no_package simWidgets
           (fanPackages simController (fun _ => ret tt)) noPackages
           (simModel basicConfig true) ui.tickMsg (initialEc sensorRegisters)).
  reflexivity.
Defined.

Lemma setup_starts_once_witness :
  exists m1,
    ui.Update simWidgets noPackages (simModel basicConfig true) (ui.KeyMsg "enter")
      (initialEc [])
    = (Done (m1, ui.Batch [ui.RunSetup (Some 7%nat); ui.WaitForSetupLog (Some 7%nat)]),
       initialEc [])
    /\ ui.Update simWidgets noPackages m1 (ui.KeyMsg " ") (initialEc [])
       = (Done (m1, ui.CmdNil), initialEc []).
Proof.
  destruct (setup_starts_once simWidgets noPackages (simModel basicConfig true)
              "enter" " " 7%nat (initialEc []) (initialEc [])
              eq_refl eq_refl (or_introl eq_refl) (or_intror (or_introl eq_refl))
              eq_refl)
    as (m1 & Hrun & _ & _ & _ & _ & Hagain & _).
  exists m1. split; [exact Hrun|apply Hagain].
Defined.

Lemma enter_applies_then_saves_witness :
  exists name,
    nth_error (ui.profiles (simModel basicConfig false)) 1 = Some name
    /\ ui.Update simWidgets (fanPackages simController (fun _ => ret tt))
         (simModel basicConfig false) (ui.KeyMsg "enter") (initialEc [])
       = (Done (ui.withStatus (simModel basicConfig false)
                  (ui.sparkles ++ " Applied: " ++ name), ui.Batch []),
          snd (fan.ApplyProfile simController basicConfig (initialEc []))).
Proof.
  destruct (proj1 (proj2 (enter_applies_then_saves simWidgets simController
                            (fun _ => ret tt) (simModel basicConfig false) "enter"
                            (initialEc []) eq_refl eq_refl
                            ltac:(vm_compute; split; [discriminate|reflexivity])
                            (or_introl eq_refl)))
              (snd (fan.ApplyProfile simController basicConfig (initialEc [])))
              ltac:(vm_compute; reflexivity))
    as (name & Hname & _ & _ & Hsaved & _).
  exists name. split; [exact Hname|].
  apply (Hsaved (snd (fan.ApplyProfile simController basicConfig (initialEc [])))).
  reflexivity.
Defined.

Lemma tick_polls_and_rearms_witness :
  fst (ui.Update simWidgets (fanPackages simController (fun _ => ret tt))
         (simModel config.DefaultConfig false) ui.tickMsg (initialEc sensorRegisters))
  <> Panic.
Proof.
  apply (proj2 (proj2 (proj2 (proj2
           (tick_polls_and_rearms simWidgets simController (fun _ => ret tt)
              (simModel config.DefaultConfig false) (initialEc sensorRegisters)
              eq_refl))))).
  - vm_compute. lia.
  - vm_compute. lia.
Defined.

(** A tick shows what the sensors say. *)
Example tick_shows_sensors :
  exists m',
    ui.Update simWidgets (fanPackages simController (fun _ => ret tt))
      (simModel config.DefaultConfig false) ui.tickMsg (initialEc sensorRegisters)
    = (Done (m', ui.Batch [ui.Tick]),
       after (initialEc sensorRegisters) sensorRegisters
         (readOps 0x68 1 ++ readOps 0x80 1 ++ readOps 0xc8 2 ++ readOps 0xca 2))
    /\ (ui.cpuTemp m', ui.gpuTemp m', ui.cpuRpm m', ui.gpuRpm m', ui.err m')
       = (45, 50, 3000, 3100, None)%Z.
Proof. eexists. split; vm_compute; reflexivity. Qed.

(** A configuration whose profile is 7 puts the cursor below the menu;
    enter then asks for profile 7, which [ApplyProfile] refuses before it
    opens the controller's file, and nothing is saved. *)
Example enter_below_the_menu :
  ui.cursor (simModel unknownConfig false) = 6%Z
  /\ exists m',
       ui.Update simWidgets
         (ui.mkPackages (fan.ApplyProfile simController) (fun _ => panic)
            (fan.GetTemps simController) (fan.GetRPMs simController))
         (simModel unknownConfig false) (ui.KeyMsg "enter") (initialEc [])
       = (Done (m', ui.Batch []), initialEc [])
       /\ ui.statusMsg m' = (ui.highVoltage ++ " Error: unknown profile: 7")%string.
Proof. split; [reflexivity|]. eexists. split; vm_compute; reflexivity. Qed.

(** On a controller that cannot be written, enter reports the error of the
    first write and saves nothing, but the model's configuration has the
    new profile all the same. *)
Example enter_on_read_only_controller :
  exists m' s',
    ui.Update simWidgets
      (ui.mkPackages (fan.ApplyProfile readOnlyController) (fun _ => panic)
         (fan.GetTemps readOnlyController) (fan.GetRPMs readOnlyController))
      (simModel config.DefaultConfig false) (ui.KeyMsg " ") (initialEc [])
    = (Done (m', ui.Batch []), s')
    /\ config.Profile (ui.config m') = 1%Z
    /\ writesOf (ops (world s')) = []
    /\ ui.statusMsg m'
       = (ui.highVoltage
          ++ " Error: failed to write value 2 to byte 98: write /sys/kernel/debug/ec/ec0/io: operation not permitted")%string.
Proof. do 2 eexists. repeat split; vm_compute; reflexivity. Qed.
